(** * slam3d: the pose-graph mapper and its point-cloud sensor

    A shallow embedding of [src/GraphMapper.cpp] and
    [src/PointCloudSensor.cpp].

    - The arithmetic of [ScalarType] (a C++ [double]) is an interface,
      [Scalar], with two instances: the real numbers, where the algebraic
      statements are proved, and IEEE binary64 ([PrimFloat]), where the
      code is run on concrete inputs.
    - Eigen's [Vector3], [Transform] (mode [Isometry]) and [Matrix4] are
      records of scalars; the operations the mapper uses are written out
      as Eigen computes them.
    - [GraphMapper] is a record of the member variables; its methods are
      computations in a state monad with exceptions and a log.
    - What lives in external libraries (the angle of Eigen's [AngleAxis],
      flann's radius search, PCL's voxel grid, point-cloud transform and
      generalized ICP, the solver's [compute] and [getCorrections]) is a
      variable of the section that uses it.
    - [GraphMapper::writeGraphToFile] and [src/Mapper.cpp] are not
      embedded: no property below is about them.

    The definitions come first: the arithmetic, Eigen, the sensor, the
    mapper, the vocabulary of the properties and the scenarios they are
    run on. The properties follow, by source function. *)

From Stdlib Require Import Floats.
From Stdlib Require Import Reals Lra Machin ZArith List Bool.
From stdpp Require Import base gmap strings.

Import ListNotations.
Local Open Scope string_scope.
Local Open Scope list_scope.

(* ===================================================================== *)
(** * [ScalarType] *)
(* ===================================================================== *)

(** The operations of [double] the two source files use. [s_eqb] and
    [s_ltb] are C++'s [==] and [<]; [s_finite] is [std::isfinite];
    [s_narrow] is the conversion to [float] and back that an assignment
    to a [float] makes. The one law says that a finite number equals
    itself, which is all the code's NaN test ([x == x]) needs. *)
Class Scalar (F : Type) := {
  s_ofZ : Z -> F;
  s_add : F -> F -> F;
  s_sub : F -> F -> F;
  s_mul : F -> F -> F;
  s_div : F -> F -> F;
  s_opp : F -> F;
  s_sqrt : F -> F;
  s_eqb : F -> F -> bool;
  s_ltb : F -> F -> bool;
  s_finite : F -> bool;
  s_narrow : F -> F;
  s_finite_eqb : forall x, s_finite x = true -> s_eqb x x = true
}.

Declare Scope scalar_scope.
Delimit Scope scalar_scope with S.
Infix "+" := s_add : scalar_scope.
Infix "-" := s_sub : scalar_scope.
Infix "*" := s_mul : scalar_scope.
Infix "/" := s_div : scalar_scope.
Notation "- x" := (s_opp x) : scalar_scope.
Infix "<?" := s_ltb : scalar_scope.
Infix "=?" := s_eqb : scalar_scope.

(** A decimal literal [m * 10^-e], as the compiler reads [0.5] or
    [3.141592654]: the quotient of two integers, rounded once. *)
Definition lit {F} `{Scalar F} (m : Z) (e : nat) : F :=
  (s_ofZ m / s_ofZ (10 ^ Z.of_nat e))%S.

(** ** The real numbers *)

(** Exact arithmetic: no operation rounds, and narrowing to [float]
    changes nothing. *)
Definition Rltb (a b : R) : bool := if Rlt_dec a b then true else false.
Definition Reqb (a b : R) : bool := if Req_dec_T a b then true else false.

Lemma Reqb_refl (x : R) : Reqb x x = true.
Proof. unfold Reqb. destruct (Req_dec_T x x); congruence. Qed.

#[export] Instance R_Scalar : Scalar R := {|
  s_ofZ := IZR;
  s_add := Rplus;
  s_sub := Rminus;
  s_mul := Rmult;
  s_div := Rdiv;
  s_opp := Ropp;
  s_sqrt := R_sqrt.sqrt;
  s_eqb := Reqb;
  s_ltb := Rltb;
  s_finite := fun _ => true;
  s_narrow := fun x => x;
  s_finite_eqb := fun x _ => Reqb_refl x
|}.

(** ** IEEE binary64 *)

Definition float_ofZ (z : Z) : float :=
  match z with
  | Zneg p => PrimFloat.opp (PrimFloat.of_uint63 (Uint63.of_Z (Zpos p)))
  | _ => PrimFloat.of_uint63 (Uint63.of_Z z)
  end.

Lemma float_finite_eqb (x : float) :
  PrimFloat.is_finite x = true -> PrimFloat.eqb x x = true.
Proof.
  unfold PrimFloat.is_finite, PrimFloat.is_nan.
  destruct (PrimFloat.eqb x x); simpl; congruence.
Qed.

(** The conversion of a [double] to [float] (IEEE binary32: 24 bits of
    precision, exponents below 128), read back as a [double]: the number
    is rounded to the nearest [float], ties to even; what is too large
    becomes an infinity, what is too small a subnormal or a zero. *)
Definition float_narrow (x : float) : float :=
  match Prim2SF x with
  | S754_finite s m e => SF2Prim (binary_round 24 128 s m e)
  | _ => x
  end.

#[export] Instance float_Scalar : Scalar float := {|
  s_ofZ := float_ofZ;
  s_add := PrimFloat.add;
  s_sub := PrimFloat.sub;
  s_mul := PrimFloat.mul;
  s_div := PrimFloat.div;
  s_opp := PrimFloat.opp;
  s_sqrt := PrimFloat.sqrt;
  s_eqb := PrimFloat.eqb;
  s_ltb := PrimFloat.ltb;
  s_finite := PrimFloat.is_finite;
  s_narrow := float_narrow;
  s_finite_eqb := float_finite_eqb
|}.

(* ===================================================================== *)
(** * Eigen: vectors, matrices, rigid transforms *)
(* ===================================================================== *)

Section Eigen.
Context {F : Type} `{Scalar F}.

Record Vector3 := Vec3 { vx : F; vy : F; vz : F }.

(** [v(i)] *)
Definition vcoeff (v : Vector3) (i : nat) : F :=
  match i with 0 => vx v | 1 => vy v | _ => vz v end.

Definition dot (a b : Vector3) : F :=
  (vx a * vx b + vy a * vy b + vz a * vz b)%S.

Definition cross (a b : Vector3) : Vector3 :=
  Vec3 (vy a * vz b - vz a * vy b)%S
       (vz a * vx b - vx a * vz b)%S
       (vx a * vy b - vy a * vx b)%S.

(** [s * v], [a - b], [a + b], [-v] *)
Definition vscale (s : F) (v : Vector3) : Vector3 :=
  Vec3 (s * vx v)%S (s * vy v)%S (s * vz v)%S.
Definition vsub (a b : Vector3) : Vector3 :=
  Vec3 (vx a - vx b)%S (vy a - vy b)%S (vz a - vz b)%S.
Definition vadd (a b : Vector3) : Vector3 :=
  Vec3 (vx a + vx b)%S (vy a + vy b)%S (vz a + vz b)%S.
Definition vopp (a : Vector3) : Vector3 :=
  Vec3 (- vx a)%S (- vy a)%S (- vz a)%S.

(** A 3x3 matrix, by rows. *)
Record Matrix3 := Mat3 { mrow0 : Vector3; mrow1 : Vector3; mrow2 : Vector3 }.

Definition mcol0 (m : Matrix3) := Vec3 (vx (mrow0 m)) (vx (mrow1 m)) (vx (mrow2 m)).
Definition mcol1 (m : Matrix3) := Vec3 (vy (mrow0 m)) (vy (mrow1 m)) (vy (mrow2 m)).
Definition mcol2 (m : Matrix3) := Vec3 (vz (mrow0 m)) (vz (mrow1 m)) (vz (mrow2 m)).

Definition mtranspose (m : Matrix3) : Matrix3 := Mat3 (mcol0 m) (mcol1 m) (mcol2 m).

Definition mat_vec (m : Matrix3) (v : Vector3) : Vector3 :=
  Vec3 (dot (mrow0 m) v) (dot (mrow1 m) v) (dot (mrow2 m) v).

Definition mat_mul (a b : Matrix3) : Matrix3 :=
  let row r := Vec3 (dot r (mcol0 b)) (dot r (mcol1 b)) (dot r (mcol2 b)) in
  Mat3 (row (mrow0 a)) (row (mrow1 a)) (row (mrow2 a)).

Definition Matrix3_Identity : Matrix3 :=
  Mat3 (Vec3 (s_ofZ 1) (s_ofZ 0) (s_ofZ 0))
       (Vec3 (s_ofZ 0) (s_ofZ 1) (s_ofZ 0))
       (Vec3 (s_ofZ 0) (s_ofZ 0) (s_ofZ 1)).

(** [Eigen::Transform<ScalarType,3,Eigen::Isometry>]: the linear part and
    the translation; the fourth row of the 4x4 matrix is [0 0 0 1], which
    every operation below restores ([makeAffine]). *)
Record Transform := Tf { linear : Matrix3; translation : Vector3 }.

Definition Transform_Identity : Transform :=
  Tf Matrix3_Identity (Vec3 (s_ofZ 0) (s_ofZ 0) (s_ofZ 0)).

(** [t(i,j)] for [i, j < 3] *)
Definition tcoeff (t : Transform) (i j : nat) : F :=
  vcoeff (match i with
          | 0 => mrow0 (linear t)
          | 1 => mrow1 (linear t)
          | _ => mrow2 (linear t)
          end) j.

(** [a * b] *)
Definition compose (a b : Transform) : Transform :=
  Tf (mat_mul (linear a) (linear b))
     (vadd (mat_vec (linear a) (translation b)) (translation a)).

(** [t.inverse()], mode [Isometry]: the transpose, and minus the
    transposed linear part applied to the translation. *)
Definition inverse (t : Transform) : Transform :=
  let lt := mtranspose (linear t) in
  Tf lt (vopp (mat_vec lt (translation t))).

(** [a == b] on Eigen objects: every coefficient compares equal. *)
Definition Vector3_eqb (a b : Vector3) : bool :=
  (vx a =? vx b)%S && (vy a =? vy b)%S && (vz a =? vz b)%S.
Definition Matrix3_eqb (a b : Matrix3) : bool :=
  Vector3_eqb (mrow0 a) (mrow0 b) && Vector3_eqb (mrow1 a) (mrow1 b) &&
  Vector3_eqb (mrow2 a) (mrow2 b).
Definition Transform_eqb (a b : Transform) : bool :=
  Matrix3_eqb (linear a) (linear b) && Vector3_eqb (translation a) (translation b).

(** The length of the translation, as both source files spell it out:
    [sqrt(dx*dx + dy*dy + dz*dz)] on the three coefficients. *)
Definition translation_length (t : Transform) : F :=
  let dx := vcoeff (translation t) 0 in
  let dy := vcoeff (translation t) 1 in
  let dz := vcoeff (translation t) 2 in
  s_sqrt (dx * dx + dy * dy + dz * dz)%S.

(** A 4x4 matrix, by rows. *)
Record Vector4 := Vec4 { w0 : F; w1 : F; w2 : F; w3 : F }.
Record Matrix4 := Mat4 { row0 : Vector4; row1 : Vector4; row2 : Vector4; row3 : Vector4 }.

Definition Vector4_entries (v : Vector4) : list F := [w0 v; w1 v; w2 v; w3 v].
Definition Matrix4_entries (m : Matrix4) : list F :=
  Vector4_entries (row0 m) ++ Vector4_entries (row1 m) ++
  Vector4_entries (row2 m) ++ Vector4_entries (row3 m).

(** [t.matrix()] *)
Definition matrix (t : Transform) : Matrix4 :=
  let r v x := Vec4 (vx v) (vy v) (vz v) x in
  Mat4 (r (mrow0 (linear t)) (vx (translation t)))
       (r (mrow1 (linear t)) (vy (translation t)))
       (r (mrow2 (linear t)) (vz (translation t)))
       (Vec4 (s_ofZ 0) (s_ofZ 0) (s_ofZ 0) (s_ofZ 1)).

(** [Transform tf(m)]: the upper three rows of [m]. The fourth row is
    stored as given, but no accessor of the code reads it and the next
    product resets it. *)
Definition Transform_of_Matrix4 (m : Matrix4) : Transform :=
  let r v := Vec3 (w0 v) (w1 v) (w2 v) in
  Tf (Mat3 (r (row0 m)) (r (row1 m)) (r (row2 m)))
     (Vec3 (w3 (row0 m)) (w3 (row1 m)) (w3 (row2 m))).

(** [Covariance]: a 6x6 matrix, by rows. *)
Definition Covariance := list (list F).

Definition Covariance_Identity : Covariance :=
  map (fun i => map (fun j => if Nat.eqb i j then s_ofZ 1 else s_ofZ 0) (seq 0 6))
      (seq 0 6).

Record TransformWithCovariance := TWC {
  twc_transform : Transform;
  twc_covariance : Covariance
}.

(* ------------------------------------------------------------------- *)
(** ** [orthogonalize] (GraphMapper.cpp, lines 14-42) *)

Definition orthogonalize (t : Transform) : Transform :=
  let x := Vec3 (tcoeff t 0 0) (tcoeff t 0 1) (tcoeff t 0 2) in
  let y := Vec3 (tcoeff t 1 0) (tcoeff t 1 1) (tcoeff t 1 2) in
  let z := Vec3 (tcoeff t 2 0) (tcoeff t 2 1) (tcoeff t 2 2) in
  let error := dot x y in
  let x_ort := vsub x (vscale (error / lit 2 0)%S y) in
  let y_ort := vsub y (vscale (error / lit 2 0)%S x) in
  let z_ort := cross x_ort y_ort in
  let xdot := (lit 5 1 * (lit 3 0 - dot x_ort x_ort))%S in
  let ydot := (lit 5 1 * (lit 3 0 - dot y_ort y_ort))%S in
  let zdot := (lit 5 1 * (lit 3 0 - dot z_ort z_ort))%S in
  Tf (Mat3
        (Vec3 (xdot * vcoeff x_ort 0) (xdot * vcoeff x_ort 1) (xdot * vcoeff x_ort 2))%S
        (Vec3 (ydot * vcoeff y_ort 0) (ydot * vcoeff y_ort 1) (ydot * vcoeff y_ort 2))%S
        (Vec3 (zdot * vcoeff z_ort 0) (zdot * vcoeff z_ort 1) (zdot * vcoeff z_ort 2))%S)
     (translation t).

(** The algorithm in the words of the specification: with the rows
    [x], [y] of the rotation and [error = x . y], the rows
    [x' = x - (error/2) y], [y' = y - (error/2) x], [z' = x' x y'], each
    scaled by [0.5 (3 - v . v)]. *)
Definition renormalize (v : Vector3) : Vector3 :=
  vscale (lit 5 1 * (lit 3 0 - dot v v))%S v.

Definition spec_rotation (r : Matrix3) : Matrix3 :=
  let x := mrow0 r in
  let y := mrow1 r in
  let error := dot x y in
  let x' := vsub x (vscale (error / lit 2 0)%S y) in
  let y' := vsub y (vscale (error / lit 2 0)%S x) in
  let z' := cross x' y' in
  Mat3 (renormalize x') (renormalize y') (renormalize z').

End Eigen.

Arguments Vector3 F : clear implicits.
Arguments Matrix3 F : clear implicits.
Arguments Transform F : clear implicits.
Arguments Vector4 F : clear implicits.
Arguments Matrix4 F : clear implicits.
Arguments Covariance F : clear implicits.
Arguments TransformWithCovariance F : clear implicits.

(* ===================================================================== *)
(** * Logging, exceptions, measurements *)
(* ===================================================================== *)

Inductive LogLevel := DEBUG | INFO | WARNING | ERROR | FATAL.

(** A call [mLogger->message(level, text)]. Where the source builds the
    text with [boost::format], the entry keeps the format string; its
    arguments are not rendered. *)
Record LogEntry := Log { log_level : LogLevel; log_text : string }.

Inductive Exception :=
| BadElementType
| BadMeasurementType
| NoMatch
| OdometryException
| NullPointer.

(** How a call ends: it returns a value or an exception leaves it. *)
Inductive Outcome (A : Type) :=
| Returned (a : A)
| Threw (e : Exception).
Arguments Returned {A} a.
Arguments Threw {A} e.

Section Measurements.
Context {F : Type}.

Definition PointCloud := list (Vector3 F).

(** What a [Measurement*] points to: the base class members, and the
    point cloud when the object is a [PointCloudMeasurement]. *)
Inductive MeasurementData :=
| PointCloudData (cloud : PointCloud)
| OtherData.

Record Measurement := {
  getUniqueId : nat;
  getTimestamp : Z;
  getRobotName : string;
  getSensorName : string;
  getData : MeasurementData
}.

(** [dynamic_cast<PointCloudMeasurement*>(m)], then [getPointCloud()];
    [None] is the null pointer of a failed cast. *)
Definition as_PointCloudMeasurement (m : Measurement) : option PointCloud :=
  match getData m with
  | PointCloudData cloud => Some cloud
  | OtherData => None
  end.

End Measurements.

Arguments PointCloud F : clear implicits.
Arguments MeasurementData F : clear implicits.
Arguments Measurement F : clear implicits.

(** The abstract base class [Sensor]: its name and its one virtual
    method, which logs, and returns or throws. *)
Module Sensor.
Record t (F : Type) := {
  getName : string;
  calculateTransform :
    Measurement F -> Measurement F -> Transform F ->
    list LogEntry * Outcome (TransformWithCovariance F)
}.
Arguments getName {F} _.
Arguments calculateTransform {F} _ _ _ _.
End Sensor.

(* ===================================================================== *)
(** * [PointCloudSensor] (PointCloudSensor.cpp) *)
(* ===================================================================== *)

Module PointCloudSensor.
Section Defs.
Context {F : Type} `{Scalar F}.

(** [mConfiguration] *)
Record GICPConfiguration := {
  max_correspondence_distance : F;
  maximum_iterations : Z;
  transformation_epsilon : F;
  euclidean_fitness_epsilon : F;
  correspondence_randomness : Z;
  maximum_optimizer_iterations : Z;
  rotation_epsilon : F;
  max_fitness_score : F
}.

(** What the code reads from the ICP object after [align]. The matrix is
    a [Matrix4f]; its conversion to [double] is exact and is not written. *)
Record ICPResult := {
  hasConverged : bool;
  getFinalTransformation : Matrix4 F;
  getFitnessScore : F
}.

(** PCL: the voxel-grid filter with a cubic leaf, the transformation of a
    cloud by a 4x4 matrix, and the alignment of a source cloud to a target
    cloud by generalized ICP under a configuration. *)
Variable VoxelGrid_filter : F -> PointCloud F -> PointCloud F.
Variable transformPointCloud : PointCloud F -> Matrix4 F -> PointCloud F.
Variable GICP_align : GICPConfiguration -> PointCloud F -> PointCloud F -> ICPResult.

Record t := {
  mName : string;
  mConfiguration : GICPConfiguration
}.

Definition FLT_SIZE : F := lit 2 0.

Definition downsample (input : PointCloud F) (leaf_size : F) : PointCloud F :=
  VoxelGrid_filter leaf_size input.

(** [(tf_matrix.array() == tf_matrix.array()).all()] *)
Definition all_self_equal (m : Matrix4 F) : bool :=
  forallb (fun x => (x =? x)%S) (Matrix4_entries m).

(** Lines 34-105. *)
Definition calculateTransform (self : t) (source target : Measurement F)
  (guess : Transform F) : list LogEntry * Outcome (TransformWithCovariance F) :=
  match as_PointCloudMeasurement source, as_PointCloudMeasurement target with
  | Some sourceCloud, Some targetCloud =>
      let filtered_source := downsample sourceCloud FLT_SIZE in
      let filtered_target := downsample targetCloud FLT_SIZE in
      let shifted_source := transformPointCloud filtered_source (matrix guess) in
      let icp := GICP_align (mConfiguration self) shifted_source filtered_target in
      let twc := TWC Transform_Identity Covariance_Identity in
      if hasConverged icp then
        let tf_matrix := getFinalTransformation icp in
        let valid := all_self_equal tf_matrix in
        if negb valid then
          ([Log ERROR "Messurement from ICP contains not numerical values."],
           Returned twc)
        else
          let tf := Transform_of_Matrix4 tf_matrix in
          let dist := translation_length tf in
          let dist2 := translation_length guess in
          ([Log DEBUG "ICP shift: %1% | Guess: %2%"],
           Returned (TWC (compose guess tf) (twc_covariance twc)))
      else
        ([Log DEBUG "ICP failed! (Fitness-Score: %1% > %2%)"], Threw NoMatch)
  | _, _ =>
      ([Log ERROR "Measurement given to calculateTransform() is not a PointCloud!"],
       Threw BadMeasurementType)
  end.

(** The object seen through its base class. *)
Definition as_Sensor (self : t) : Sensor.t F := {|
  Sensor.getName := mName self;
  Sensor.calculateTransform := calculateTransform self
|}.

(** ** Vocabulary for the properties *)

(** The state of the ICP object after [align]: the source cloud is
    downsampled and shifted by the guess, the target cloud is downsampled. *)
Definition icp_after_align (self : t) (sourceCloud targetCloud : PointCloud F)
  (guess : Transform F) : ICPResult :=
  GICP_align (mConfiguration self)
    (transformPointCloud (downsample sourceCloud FLT_SIZE) (matrix guess))
    (downsample targetCloud FLT_SIZE).

(** An entry of the matrix is not a number: it differs from itself. *)
Definition has_nan (m : Matrix4 F) : Prop :=
  exists x, In x (Matrix4_entries m) /\ (x =? x)%S = false.

(** An entry of the matrix is not finite: a NaN or an infinity. *)
Definition has_nonfinite (m : Matrix4 F) : Prop :=
  exists x, In x (Matrix4_entries m) /\ s_finite x = false.

Definition all_finite (m : Matrix4 F) : Prop :=
  forall x, In x (Matrix4_entries m) -> s_finite x = true.

End Defs.
Arguments GICPConfiguration F : clear implicits.
Arguments ICPResult F : clear implicits.
Arguments t F : clear implicits.
End PointCloudSensor.

(* ===================================================================== *)
(** * [GraphMapper] (GraphMapper.cpp) *)
(* ===================================================================== *)

Module GraphMapper.
Section Defs.
Context {F : Type} `{Scalar F}.

(** Eigen: [AngleAxis<ScalarType>(rotation).angle()], the angle of the
    axis-angle form of a rotation matrix. flann: the rows of the indexed
    points that [radiusSearch] reports for a query point and a radius.
    The indexed points are the floats that [buildNeighborIndex] has
    stored; the query point and the radius are handed over as they are,
    and their narrowing to [float] (lines 399-405) is part of
    [radiusSearch]. *)
Variable AngleAxis_angle : Matrix3 F -> F.
Variable radiusSearch : list (Vector3 F) -> Vector3 F -> F -> list nat.

(** ** The pose graph *)

(** A [VertexObject::Ptr] is null or points to a vertex of the graph; a
    vertex is named by its id, its position in the vertex table. Vertices
    are never removed, so ids are stable. *)
Definition VertexPtr := option nat.
Definition VertexList := list VertexPtr.

Record VertexObject := {
  v_name : string;
  corrected_pose : Transform F;
  measurement : Measurement F
}.

Record EdgeObject := {
  getSourceVertex : nat;
  getTargetVertex : nat;
  e_transform : Transform F;
  e_covariance : Covariance F;
  e_sensor : string;
  e_label : string
}.

Definition EdgeList := list EdgeObject.

Record PoseGraph := {
  vertices : list VertexObject;
  edges : list EdgeObject
}.

(** ** Collaborators *)

(** The calls a [Solver] has received, oldest first. *)
Inductive SolverCall :=
| addNode (id : nat) (pose : Transform F)
| setFixed (id : nat)
| addConstraint (source target : nat) (t : Transform F) (c : Covariance F).

(** [getOdometricPose(timestamp)]; [None] is an [OdometryException]. *)
Definition Odometry := Z -> option (Transform F).

(** ** Member variables *)

Record t := {
  mPoseGraph : PoseGraph;
  mSensors : gmap string (Sensor.t F);
  mOdometry : option Odometry;
  mSolver : option (list SolverCall);
  mVertexIndex : gmap nat nat;
  mIndex : list (Vector3 F);
  mIndexMap : gmap nat VertexPtr;
  mCurrentPose : Transform F;
  mLastVertex : VertexPtr;
  mFirstVertex : VertexPtr;
  mLastOdometricPose : Transform F;
  mNeighborRadius : F;
  mMinTranslation : F;
  mMinRotation : F;
  mAddOdometryEdges : bool
}.

Definition set_mPoseGraph (x : PoseGraph) (s : t) : t :=
  {| mPoseGraph := x; mSensors := mSensors s; mOdometry := mOdometry s;
     mSolver := mSolver s; mVertexIndex := mVertexIndex s; mIndex := mIndex s;
     mIndexMap := mIndexMap s; mCurrentPose := mCurrentPose s;
     mLastVertex := mLastVertex s; mFirstVertex := mFirstVertex s;
     mLastOdometricPose := mLastOdometricPose s;
     mNeighborRadius := mNeighborRadius s; mMinTranslation := mMinTranslation s;
     mMinRotation := mMinRotation s; mAddOdometryEdges := mAddOdometryEdges s |}.

Definition set_mSensors (x : gmap string (Sensor.t F)) (s : t) : t :=
  {| mPoseGraph := mPoseGraph s; mSensors := x; mOdometry := mOdometry s;
     mSolver := mSolver s; mVertexIndex := mVertexIndex s; mIndex := mIndex s;
     mIndexMap := mIndexMap s; mCurrentPose := mCurrentPose s;
     mLastVertex := mLastVertex s; mFirstVertex := mFirstVertex s;
     mLastOdometricPose := mLastOdometricPose s;
     mNeighborRadius := mNeighborRadius s; mMinTranslation := mMinTranslation s;
     mMinRotation := mMinRotation s; mAddOdometryEdges := mAddOdometryEdges s |}.

Definition set_mOdometry (x : option Odometry) (add_edges : bool) (s : t) : t :=
  {| mPoseGraph := mPoseGraph s; mSensors := mSensors s; mOdometry := x;
     mSolver := mSolver s; mVertexIndex := mVertexIndex s; mIndex := mIndex s;
     mIndexMap := mIndexMap s; mCurrentPose := mCurrentPose s;
     mLastVertex := mLastVertex s; mFirstVertex := mFirstVertex s;
     mLastOdometricPose := mLastOdometricPose s;
     mNeighborRadius := mNeighborRadius s; mMinTranslation := mMinTranslation s;
     mMinRotation := mMinRotation s; mAddOdometryEdges := add_edges |}.

Definition set_mSolver (x : option (list SolverCall)) (s : t) : t :=
  {| mPoseGraph := mPoseGraph s; mSensors := mSensors s; mOdometry := mOdometry s;
     mSolver := x; mVertexIndex := mVertexIndex s; mIndex := mIndex s;
     mIndexMap := mIndexMap s; mCurrentPose := mCurrentPose s;
     mLastVertex := mLastVertex s; mFirstVertex := mFirstVertex s;
     mLastOdometricPose := mLastOdometricPose s;
     mNeighborRadius := mNeighborRadius s; mMinTranslation := mMinTranslation s;
     mMinRotation := mMinRotation s; mAddOdometryEdges := mAddOdometryEdges s |}.

Definition set_mVertexIndex (x : gmap nat nat) (s : t) : t :=
  {| mPoseGraph := mPoseGraph s; mSensors := mSensors s; mOdometry := mOdometry s;
     mSolver := mSolver s; mVertexIndex := x; mIndex := mIndex s;
     mIndexMap := mIndexMap s; mCurrentPose := mCurrentPose s;
     mLastVertex := mLastVertex s; mFirstVertex := mFirstVertex s;
     mLastOdometricPose := mLastOdometricPose s;
     mNeighborRadius := mNeighborRadius s; mMinTranslation := mMinTranslation s;
     mMinRotation := mMinRotation s; mAddOdometryEdges := mAddOdometryEdges s |}.

Definition set_mIndex (x : list (Vector3 F)) (s : t) : t :=
  {| mPoseGraph := mPoseGraph s; mSensors := mSensors s; mOdometry := mOdometry s;
     mSolver := mSolver s; mVertexIndex := mVertexIndex s; mIndex := x;
     mIndexMap := mIndexMap s; mCurrentPose := mCurrentPose s;
     mLastVertex := mLastVertex s; mFirstVertex := mFirstVertex s;
     mLastOdometricPose := mLastOdometricPose s;
     mNeighborRadius := mNeighborRadius s; mMinTranslation := mMinTranslation s;
     mMinRotation := mMinRotation s; mAddOdometryEdges := mAddOdometryEdges s |}.

Definition set_mIndexMap (x : gmap nat VertexPtr) (s : t) : t :=
  {| mPoseGraph := mPoseGraph s; mSensors := mSensors s; mOdometry := mOdometry s;
     mSolver := mSolver s; mVertexIndex := mVertexIndex s; mIndex := mIndex s;
     mIndexMap := x; mCurrentPose := mCurrentPose s;
     mLastVertex := mLastVertex s; mFirstVertex := mFirstVertex s;
     mLastOdometricPose := mLastOdometricPose s;
     mNeighborRadius := mNeighborRadius s; mMinTranslation := mMinTranslation s;
     mMinRotation := mMinRotation s; mAddOdometryEdges := mAddOdometryEdges s |}.

Definition set_mCurrentPose (x : Transform F) (s : t) : t :=
  {| mPoseGraph := mPoseGraph s; mSensors := mSensors s; mOdometry := mOdometry s;
     mSolver := mSolver s; mVertexIndex := mVertexIndex s; mIndex := mIndex s;
     mIndexMap := mIndexMap s; mCurrentPose := x;
     mLastVertex := mLastVertex s; mFirstVertex := mFirstVertex s;
     mLastOdometricPose := mLastOdometricPose s;
     mNeighborRadius := mNeighborRadius s; mMinTranslation := mMinTranslation s;
     mMinRotation := mMinRotation s; mAddOdometryEdges := mAddOdometryEdges s |}.

Definition set_mLastVertex (x : VertexPtr) (s : t) : t :=
  {| mPoseGraph := mPoseGraph s; mSensors := mSensors s; mOdometry := mOdometry s;
     mSolver := mSolver s; mVertexIndex := mVertexIndex s; mIndex := mIndex s;
     mIndexMap := mIndexMap s; mCurrentPose := mCurrentPose s;
     mLastVertex := x; mFirstVertex := mFirstVertex s;
     mLastOdometricPose := mLastOdometricPose s;
     mNeighborRadius := mNeighborRadius s; mMinTranslation := mMinTranslation s;
     mMinRotation := mMinRotation s; mAddOdometryEdges := mAddOdometryEdges s |}.

Definition set_mFirstVertex (x : VertexPtr) (s : t) : t :=
  {| mPoseGraph := mPoseGraph s; mSensors := mSensors s; mOdometry := mOdometry s;
     mSolver := mSolver s; mVertexIndex := mVertexIndex s; mIndex := mIndex s;
     mIndexMap := mIndexMap s; mCurrentPose := mCurrentPose s;
     mLastVertex := mLastVertex s; mFirstVertex := x;
     mLastOdometricPose := mLastOdometricPose s;
     mNeighborRadius := mNeighborRadius s; mMinTranslation := mMinTranslation s;
     mMinRotation := mMinRotation s; mAddOdometryEdges := mAddOdometryEdges s |}.

Definition set_mLastOdometricPose (x : Transform F) (s : t) : t :=
  {| mPoseGraph := mPoseGraph s; mSensors := mSensors s; mOdometry := mOdometry s;
     mSolver := mSolver s; mVertexIndex := mVertexIndex s; mIndex := mIndex s;
     mIndexMap := mIndexMap s; mCurrentPose := mCurrentPose s;
     mLastVertex := mLastVertex s; mFirstVertex := mFirstVertex s;
     mLastOdometricPose := x;
     mNeighborRadius := mNeighborRadius s; mMinTranslation := mMinTranslation s;
     mMinRotation := mMinRotation s; mAddOdometryEdges := mAddOdometryEdges s |}.

(** ** Methods as computations

    A method starts in a state of the object and ends in one, having
    returned or thrown, and having written to the log. A mutation made
    before a [throw] or an early [return] stays in the state. *)
Definition M (A : Type) : Type := t -> Outcome A * t * list LogEntry.

Definition ret {A} (a : A) : M A := fun s => (Returned a, s, []).

Definition bind {A B} (m : M A) (k : A -> M B) : M B := fun s =>
  match m s with
  | (Returned a, s1, l1) =>
      match k a s1 with
      | (o, s2, l2) => (o, s2, (l1 ++ l2)%list)
      end
  | (Threw e, s1, l1) => (Threw e, s1, l1)
  end.

Definition throw {A} (e : Exception) : M A := fun s => (Threw e, s, []).

Definition get : M t := fun s => (Returned s, s, []).

Definition modify (f : t -> t) : M unit := fun s => (Returned tt, f s, []).

Definition message (level : LogLevel) (text : string) : M unit :=
  fun s => (Returned tt, s, [Log level text]).

(** [try { m } catch(E&) { handler }], where [handler e] is [None] for an
    exception the [catch] clause does not name. *)
Definition try_catch {A} (m : M A) (handler : Exception -> option (M A)) : M A :=
  fun s =>
    match m s with
    | (Threw e, s1, l1) =>
        match handler e with
        | Some h =>
            match h s1 with
            | (o, s2, l2) => (o, s2, (l1 ++ l2)%list)
            end
        | None => (Threw e, s1, l1)
        end
    | r => r
    end.

Local Notation "x <- c1 ;; c2" := (bind c1 (fun x => c2))
  (at level 100, c1 at next level, right associativity).
Local Notation "c1 ;; c2" := (bind c1 (fun _ => c2))
  (at level 100, right associativity).

(** A call of the sensor's virtual method from inside a method: its log
    lines join the log, its exception propagates. *)
Definition call_calculateTransform (sensor : Sensor.t F)
  (source target : Measurement F) (guess : Transform F)
  : M (TransformWithCovariance F) :=
  fun s =>
    match Sensor.calculateTransform sensor source target guess with
    | (l, o) => (o, s, l)
    end.

(** [p->member]: the vertex [p] points to. Following a null pointer is
    undefined behaviour in C++; here it ends the method with
    [NullPointer]. *)
Definition deref (p : VertexPtr) : M VertexObject :=
  s <- get ;;
  match p with
  | Some id =>
      match vertices (mPoseGraph s) !! id with
      | Some v => ret v
      | None => throw NullPointer
      end
  | None => throw NullPointer
  end.

(** [std::map::insert]: an existing key keeps its value. *)
Definition map_insert_new {K V} `{Countable K} (k : K) (v : V) (m : gmap K V)
  : gmap K V :=
  match m !! k with
  | Some _ => m
  | None => <[k := v]> m
  end.

(** ** Construction and configuration (lines 64-93, 126-135) *)

(** The constructor leaves [mLastOdometricPose] uninitialised; [garbage]
    is what the memory holds. *)
Definition new (garbage : Transform F) : t := {|
  mPoseGraph := {| vertices := []; edges := [] |};
  mSensors := ∅;
  mOdometry := None;
  mSolver := None;
  mVertexIndex := ∅;
  mIndex := [];
  mIndexMap := ∅;
  mCurrentPose := Transform_Identity;
  mLastVertex := None;
  mFirstVertex := None;
  mLastOdometricPose := garbage;
  mNeighborRadius := lit 1 0;
  mMinTranslation := lit 5 1;
  mMinRotation := lit 1 1;
  mAddOdometryEdges := false
|}.

Definition setSolver (solver : list SolverCall) : M unit :=
  modify (set_mSolver (Some solver)).

Definition setOdometry (odom : Odometry) (add_edges : bool) : M unit :=
  modify (set_mOdometry (Some odom) add_edges).

Definition registerSensor (s : Sensor.t F) : M unit :=
  st <- get ;;
  match mSensors st !! Sensor.getName s with
  | Some _ => message ERROR "Sensor with name %1% already exists!"
  | None => modify (set_mSensors (<[Sensor.getName s := s]> (mSensors st)))
  end.

(** ** [addVertex] (lines 137-170) *)

Definition solver_call (c : SolverCall) : M unit :=
  modify (fun s => set_mSolver (option_map (fun calls => (calls ++ [c])%list) (mSolver s)) s).

Definition addVertex (m : Measurement F) (corrected : Transform F) : M nat :=
  st <- get ;;
  let newVertex := {|
    v_name := (getRobotName m ++ ":" ++ getSensorName m)%string;
    corrected_pose := corrected;
    measurement := m |} in
  let id := length (vertices (mPoseGraph st)) in
  modify (set_mPoseGraph {|
    vertices := (vertices (mPoseGraph st) ++ [newVertex])%list;
    edges := edges (mPoseGraph st) |}) ;;
  modify (fun s => set_mVertexIndex (map_insert_new (getUniqueId m) id (mVertexIndex s)) s) ;;
  match mSolver st with
  | Some _ =>
      message INFO "Created vertex %1% (from %2%:%3%)." ;;
      solver_call (addNode id corrected)
  | None => ret tt
  end ;;
  match mFirstVertex st with
  | None =>
      modify (set_mFirstVertex (Some id)) ;;
      match mSolver st with
      | Some _ => solver_call (setFixed id)
      | None => ret tt
      end
  | Some _ => ret tt
  end ;;
  ret id.

(** ** [addEdge] (lines 172-190) *)

Definition addEdge (source target : nat) (t : Transform F) (c : Covariance F)
  (sensor label : string) : M EdgeObject :=
  let edge := {|
    getSourceVertex := source;
    getTargetVertex := target;
    e_transform := t;
    e_covariance := c;
    e_sensor := sensor;
    e_label := label |} in
  modify (fun s => set_mPoseGraph {|
    vertices := vertices (mPoseGraph s);
    edges := (edges (mPoseGraph s) ++ [edge])%list |} s) ;;
  st <- get ;;
  match mSolver st with
  | Some _ =>
      message INFO "Created '%4%' edge from node %1% to node %2% (from %3%)." ;;
      solver_call (addConstraint source target t c)
  | None => ret tt
  end ;;
  ret edge.

(** ** [checkMinDistance] (lines 436-452) *)

Definition PI : F := lit 3141592654 9.

Definition checkMinDistance (t : Transform F) : M bool :=
  let rot := AngleAxis_angle (linear t) in
  let rot := if (PI <? rot)%S then (s_ofZ 2 * PI - rot)%S else rot in
  let rot := if (rot <? - PI)%S then (rot + s_ofZ 2 * PI)%S else rot in
  let dx := vcoeff (translation t) 0 in
  let dy := vcoeff (translation t) 1 in
  let dz := vcoeff (translation t) 2 in
  let trans := s_sqrt (dx * dx + dy * dy + dz * dz)%S in
  message DEBUG "Translation: %1% / Rotation: %2%" ;;
  st <- get ;;
  if (trans <? mMinTranslation st)%S && (rot <? mMinRotation st)%S
  then ret false
  else ret true.

(** ** Queries by sensor (lines 348-376) *)

(** The vertex iterator: every vertex with its id. The graph library
    does not promise an order; the model visits the vertices by
    increasing id. *)
Definition vertex_iterator (g : PoseGraph) : list (nat * VertexObject) :=
  combine (seq 0 (length (vertices g))) (vertices g).

Definition getVerticesFromSensor (sensor : string) (s : t) : VertexList :=
  fold_left
    (fun vertexList '(id, vertex) =>
       if String.eqb (getSensorName (measurement vertex)) sensor
       then (vertexList ++ [Some id])%list
       else vertexList)
    (vertex_iterator (mPoseGraph s)) [].

Definition getEdgesFromSensor (sensor : string) (s : t) : EdgeList :=
  fold_left
    (fun edgeList edge => (edgeList ++ [edge])%list)
    (edges (mPoseGraph s)) [].

(** ** The neighbour index (lines 378-422) *)

(** The points of the index are a [flann::Matrix<float>]: each coordinate
    is narrowed to [float] when it is written (lines 388-390). *)
Fixpoint buildNeighborIndex_loop (its : VertexList) (row : nat)
  (points : list (Vector3 F)) : M (list (Vector3 F)) :=
  match its with
  | [] => ret points
  | it :: rest =>
      v <- deref it ;;
      let t := translation (corrected_pose v) in
      modify (fun s => set_mIndexMap (map_insert_new row it (mIndexMap s)) s) ;;
      buildNeighborIndex_loop rest (S row)
        (points ++ [Vec3 (s_narrow (vcoeff t 0)) (s_narrow (vcoeff t 1))
                         (s_narrow (vcoeff t 2))])%list
  end.

Definition buildNeighborIndex (sensor : string) : M unit :=
  st <- get ;;
  let vertices := getVerticesFromSensor sensor st in
  modify (set_mIndexMap ∅) ;;
  points <- buildNeighborIndex_loop vertices 0 [] ;;
  modify (set_mIndex points).

(** [mIndexMap[row]]: a missing key is inserted with a null pointer. *)
Definition mIndexMap_at (row : nat) : M VertexPtr :=
  st <- get ;;
  match mIndexMap st !! row with
  | Some p => ret p
  | None =>
      modify (set_mIndexMap (<[row := None]> (mIndexMap st))) ;;
      ret None
  end.

Fixpoint getNearbyVertices_loop (rows : list nat) (result : VertexList)
  : M VertexList :=
  match rows with
  | [] => ret result
  | it :: rest =>
      p <- mIndexMap_at it ;;
      getNearbyVertices_loop rest (result ++ [p])%list
  end.

Definition getNearbyVertices (tf : Transform F) (radius : F) : M VertexList :=
  st <- get ;;
  let t := translation tf in
  let query := Vec3 (vcoeff t 0) (vcoeff t 1) (vcoeff t 2) in
  let neighbors := radiusSearch (mIndex st) query radius in
  getNearbyVertices_loop neighbors [].

(** ** [linkToNeighbors] (lines 305-346) *)

(** The edge iterator of a vertex: the edges to or from it. *)
Definition edge_iterator_of (vertex : nat) (g : PoseGraph) : list EdgeObject :=
  List.filter
    (fun e => Nat.eqb (getSourceVertex e) vertex || Nat.eqb (getTargetVertex e) vertex)
    (edges g).

(** The [while] loop over the edges of [vertex] (lines 311-324). *)
Fixpoint previously_matched_loop (vertex : nat) (sensor : Sensor.t F)
  (es : list EdgeObject) (previously_matched_vertices : gset nat) : M (gset nat) :=
  match es with
  | [] => ret previously_matched_vertices
  | edge :: rest =>
      if String.eqb (e_sensor edge) (Sensor.getName sensor) then
        if Nat.eqb (getSourceVertex edge) vertex then
          previously_matched_loop vertex sensor rest
            ({[ getTargetVertex edge ]} ∪ previously_matched_vertices)
        else
          previously_matched_loop vertex sensor rest
            ({[ getSourceVertex edge ]} ∪ previously_matched_vertices)
      else
        message WARNING "Ignoring edge from '%1%' while linking neighbors." ;;
        previously_matched_loop vertex sensor rest previously_matched_vertices
  end.

(** [previously_matched_vertices.find(p) != end()]; the set holds no null
    pointer. *)
Definition found_in (p : VertexPtr) (vs : gset nat) : bool :=
  match p with
  | Some id => bool_decide (id ∈ vs)
  | None => false
  end.

(** The [for] loop over the neighbours (lines 329-345). The value of the
    [try] block says whether an edge was added. *)
Fixpoint linkToNeighbors_loop (vertex : nat) (sensor : Sensor.t F) (max_links : Z)
  (previously_matched_vertices : gset nat) (its : VertexList) (added : Z) : M unit :=
  match its with
  | [] => ret tt
  | it :: rest =>
      if (added <? max_links)%Z then
        if found_in it previously_matched_vertices then
          linkToNeighbors_loop vertex sensor max_links previously_matched_vertices rest added
        else
          linked <- try_catch
            (candidate <- deref it ;;
             v <- deref (Some vertex) ;;
             let guess := compose (inverse (corrected_pose candidate)) (corrected_pose v) in
             twc <- call_calculateTransform sensor
                      (measurement candidate) (measurement v) guess ;;
             match it with
             | Some source =>
                 addEdge source vertex (twc_transform twc) (twc_covariance twc)
                   (Sensor.getName sensor) "match" ;;
                 ret true
             | None => throw NullPointer
             end)
            (fun e => match e with NoMatch => Some (ret false) | _ => None end) ;;
          linkToNeighbors_loop vertex sensor max_links previously_matched_vertices rest
            (if linked then added + 1 else added)%Z
      else ret tt
  end.

Definition linkToNeighbors (vertex : nat) (sensor : Sensor.t F) (max_links : Z)
  : M unit :=
  st <- get ;;
  previously_matched_vertices <-
    previously_matched_loop vertex sensor
      (edge_iterator_of vertex (mPoseGraph st)) {[ vertex ]} ;;
  v <- deref (Some vertex) ;;
  st <- get ;;
  neighbors <- getNearbyVertices (corrected_pose v) (mNeighborRadius st) ;;
  message DEBUG "Neighbor search found %1% vertices nearby." ;;
  linkToNeighbors_loop vertex sensor max_links previously_matched_vertices neighbors 0.

(** ** [addReading] (lines 192-284)

    Inside, a block that can leave the method by [return false] yields
    [None]; otherwise it yields [newVertex], null or not. *)
Definition addReading (m : Measurement F) : M bool :=
  st <- get ;;
  (* lines 196-205 *)
  match mSensors st !! getSensorName m with
  | None =>
      message ERROR "Sensor '%1%' has not been registered!" ;;
      ret false
  | Some sensor =>
  message DEBUG "Add reading from own Sensor '%1%'." ;;
  (* lines 208-219 *)
  let odometry_query :=
    match mOdometry st with
    | Some odom => odom (getTimestamp m)
    | None => Some Transform_Identity
    end in
  match odometry_query with
  | None =>
      message ERROR "Could not get Odometry data!" ;;
      ret false
  | Some odometry =>
  (* lines 222-228 *)
  match mLastVertex st with
  | None =>
      v <- addVertex m (mCurrentPose st) ;;
      modify (set_mLastVertex (Some v)) ;;
      modify (set_mLastOdometricPose odometry) ;;
      message INFO "Added first node to the graph." ;;
      ret true
  | Some lastVertex =>
  (* lines 231-248 *)
  after_odometry <-
    match mOdometry st with
    | Some _ =>
        let odom_dist :=
          orthogonalize (compose (inverse (mLastOdometricPose st)) odometry) in
        last <- deref (mLastVertex st) ;;
        modify (set_mCurrentPose (compose (corrected_pose last) odom_dist)) ;;
        far <- checkMinDistance odom_dist ;;
        if negb far then ret None
        else
          if mAddOdometryEdges st then
            st1 <- get ;;
            v <- addVertex m (orthogonalize (mCurrentPose st1)) ;;
            addEdge lastVertex v odom_dist Covariance_Identity "Odometry" "odom" ;;
            ret (Some (Some v))
          else ret (Some None)
    | None => ret (Some None)
    end ;;
  match after_odometry with
  | None => ret false
  | Some newVertex =>
  (* lines 251-274; [mLastVertex] is [lastVertex], not null *)
  after_matching <-
    try_catch
      (last <- deref (mLastVertex st) ;;
       st1 <- get ;;
       let guess := compose (inverse (corrected_pose last)) (mCurrentPose st1) in
       twc <- call_calculateTransform sensor (measurement last) m guess ;;
       modify (set_mCurrentPose
                 (orthogonalize (compose (corrected_pose last) (twc_transform twc)))) ;;
       checked <-
         match newVertex with
         | None =>
             far <- checkMinDistance (twc_transform twc) ;;
             if negb far then ret None
             else
               st2 <- get ;;
               v <- addVertex m (mCurrentPose st2) ;;
               ret (Some v)
         | Some v => ret (Some v)
         end ;;
       match checked with
       | None => ret None
       | Some v =>
           addEdge lastVertex v (twc_transform twc) (twc_covariance twc)
             (Sensor.getName sensor) "seq" ;;
           ret (Some v)
       end)
      (fun e =>
         match e with
         | NoMatch =>
             Some
               match newVertex with
               | None =>
                   message WARNING
                     "Measurement could not be matched and no odometry was availabe!" ;;
                   ret None
               | Some v => ret (Some v)
               end
         | _ => None
         end) ;;
  match after_matching with
  | None => ret false
  | Some v =>
  (* lines 276-283 *)
  buildNeighborIndex (Sensor.getName sensor) ;;
  linkToNeighbors v sensor 5 ;;
  modify (set_mLastVertex (Some v)) ;;
  modify (set_mLastOdometricPose odometry) ;;
  ret true
  end end end end end.

(** ** [addExternalReading] (lines 286-303) *)

Definition addExternalReading (m : Measurement F) (t : Transform F) : M unit :=
  v <- addVertex m t ;;
  message DEBUG "Add external reading from %1%:%2%." ;;
  st <- get ;;
  match mSensors st !! getSensorName m with
  | Some sensor =>
      buildNeighborIndex (Sensor.getName sensor) ;;
      linkToNeighbors v sensor 5
  | None => ret tt
  end.

Definition getCurrentPose : M (Transform F) :=
  st <- get ;;
  ret (mCurrentPose st).

(** ** [fromBaseGraph] (lines 44-62) *)

(** The graph library hands out pointers to its own vertex and edge
    classes. In the mapper's graph every vertex is a [VertexObject] and
    every edge an [EdgeObject], so the cast yields null only for a null
    pointer; the library's [getVertex] is taken to return one for an id
    that names no vertex. *)
Definition getVertex (id : nat) (g : PoseGraph) : option VertexObject :=
  vertices g !! id.

Definition fromBaseGraph (base : option VertexObject) : M VertexObject :=
  match base with
  | Some v => ret v
  | None => throw BadElementType
  end.

Definition fromBaseGraph_edge (base : option EdgeObject) : M EdgeObject :=
  match base with
  | Some e => ret e
  | None => throw BadElementType
  end.

(** ** [optimize] (lines 95-124) *)

(** The solver: whether [compute()] succeeds and what [getCorrections()]
    returns, after the calls it has received. *)
Variable Solver_compute : list SolverCall -> bool.
Variable Solver_getCorrections : list SolverCall -> list (nat * Transform F).

(** [v->corrected_pose = tf] for the vertex [id] of the graph. *)
Definition set_corrected_pose (id : nat) (tf : Transform F) (g : PoseGraph)
  : PoseGraph :=
  {| vertices :=
       match vertices g !! id with
       | Some v =>
           <[id := {| v_name := v_name v; corrected_pose := tf;
                      measurement := measurement v |}]> (vertices g)
       | None => vertices g
       end;
     edges := edges g |}.

(** The [for] loop over the corrections (lines 111-117). *)
Fixpoint optimize_loop (res : list (nat * Transform F)) : M unit :=
  match res with
  | [] => ret tt
  | it :: rest =>
      let id := fst it in
      let tf := snd it in
      st <- get ;;
      v <- fromBaseGraph (getVertex id (mPoseGraph st)) ;;
      modify (fun s => set_mPoseGraph (set_corrected_pose id tf (mPoseGraph s)) s) ;;
      optimize_loop rest
  end.

Definition optimize : M bool :=
  st <- get ;;
  match mSolver st with
  | None =>
      message ERROR "A solver must be set before optimize() is called!" ;;
      ret false
  | Some solver =>
      if negb (Solver_compute solver) then ret false
      else
        let res := Solver_getCorrections solver in
        optimize_loop res ;;
        st1 <- get ;;
        match mLastVertex st1 with
        | Some _ =>
            last <- deref (mLastVertex st1) ;;
            modify (set_mCurrentPose (corrected_pose last))
        | None => ret tt
        end ;;
        ret true
  end.

(** ** Vocabulary for the properties *)

(** The outcome and the final state of a method, without its log. *)
Definition exec {A} (m : M A) (s : t) : Outcome A * t := fst (m s).

(** The angle that [checkMinDistance] compares, after the two
    adjustments of lines 439-442. *)
Definition wrapped_rot (t : Transform F) : F :=
  let rot := AngleAxis_angle (linear t) in
  let rot := if (PI <? rot)%S then (s_ofZ 2 * PI - rot)%S else rot in
  if (rot <? - PI)%S then (rot + s_ofZ 2 * PI)%S else rot.

(** The state after [addEdge]: the edge is last in the graph, and the
    solver, if there is one, has received the constraint. *)
Definition after_addEdge (edge : EdgeObject) (s : t) : t :=
  let s1 := set_mPoseGraph {|
    vertices := vertices (mPoseGraph s);
    edges := edges (mPoseGraph s) ++ [edge] |} s in
  match mSolver s with
  | Some calls =>
      set_mSolver
        (Some (calls ++ [addConstraint (getSourceVertex edge) (getTargetVertex edge)
                           (e_transform edge) (e_covariance edge)])) s1
  | None => s1
  end.

(** The set that the loop of lines 311-324 builds from the edges [es]. *)
Fixpoint matched_vertices (vertex : nat) (name : string) (es : list EdgeObject)
  (acc : gset nat) : gset nat :=
  match es with
  | [] => acc
  | edge :: rest =>
      if String.eqb (e_sensor edge) name then
        if Nat.eqb (getSourceVertex edge) vertex
        then matched_vertices vertex name rest ({[ getTargetVertex edge ]} ∪ acc)
        else matched_vertices vertex name rest ({[ getSourceVertex edge ]} ∪ acc)
      else matched_vertices vertex name rest acc
  end.

(** The end of an edge of [vertex] that the loop records. *)
Definition recorded_end (vertex : nat) (edge : EdgeObject) : nat :=
  if Nat.eqb (getSourceVertex edge) vertex
  then getTargetVertex edge else getSourceVertex edge.

(** Two vertices are connected by an edge of the named sensor, in either
    direction. *)
Definition connected_by (name : string) (g : PoseGraph) (v u : nat) : Prop :=
  exists edge, In edge (edges g) /\ e_sensor edge = name /\
    ((getSourceVertex edge = v /\ getTargetVertex edge = u) \/
     (getSourceVertex edge = u /\ getTargetVertex edge = v)).

(** What the loop over the neighbours may add: an edge labelled "match",
    of the matching sensor, into [vertex], from a vertex outside the
    excluded set. *)
Definition new_match_edge (vertex : nat) (name : string) (excluded : gset nat)
  (edge : EdgeObject) : Prop :=
  e_label edge = "match" /\ e_sensor edge = name /\
  getTargetVertex edge = vertex /\ getSourceVertex edge ∉ excluded.

(** The loop over the neighbours [its] took the mapper from [s] to [s']:
    it kept the vertices and the edges, and added at most [bound] edges,
    each a [new_match_edge], from vertices of [its] in the order of
    [its]. *)
Definition loop_added (vertex : nat) (name : string) (excluded : gset nat)
  (its : VertexList) (bound : Z) (s s' : t) : Prop :=
  exists new,
    edges (mPoseGraph s') = edges (mPoseGraph s) ++ new /\
    vertices (mPoseGraph s') = vertices (mPoseGraph s) /\
    (Z.of_nat (length new) <= bound)%Z /\
    Forall (new_match_edge vertex name excluded) new /\
    sublist (map (fun edge => Some (getSourceVertex edge)) new) its.

(** What [linkToNeighbors] may add for [vertex]: an edge labelled
    "match", of the matching sensor, into [vertex], from another vertex
    that no edge of that sensor connected to [vertex] in the graph [g]. *)
Definition loop_closure_edge (g : PoseGraph) (vertex : nat) (name : string)
  (edge : EdgeObject) : Prop :=
  e_label edge = "match" /\ e_sensor edge = name /\
  getTargetVertex edge = vertex /\ getSourceVertex edge <> vertex /\
  ~ connected_by name g vertex (getSourceVertex edge).

(** ** Vocabulary for further properties *)

(** The state after [addVertex]: the vertex is last in the graph, under
    the id that was the number of vertices; the index of measurements has
    it unless the measurement's id was there; it is the first vertex if
    there was none; the solver, if there is one, has received the node,
    and the request to fix it if it is the first. *)
Definition after_addVertex (m : Measurement F) (corrected : Transform F) (s : t) : t :=
  let id := length (vertices (mPoseGraph s)) in
  let newVertex := {|
    v_name := (getRobotName m ++ ":" ++ getSensorName m)%string;
    corrected_pose := corrected;
    measurement := m |} in
  set_mSolver
    (option_map
       (fun calls =>
          calls ++ addNode id corrected ::
            match mFirstVertex s with None => [setFixed id] | Some _ => [] end)
       (mSolver s))
    (set_mFirstVertex
       (match mFirstVertex s with None => Some id | Some first => Some first end)
       (set_mVertexIndex (map_insert_new (getUniqueId m) id (mVertexIndex s))
          (set_mPoseGraph
             {| vertices := vertices (mPoseGraph s) ++ [newVertex];
                edges := edges (mPoseGraph s) |} s))).

(** Every pointer the mapper holds points into the graph: the two ends
    of every edge, the last vertex and the first vertex are ids of
    vertices of the graph. *)
Definition well_formed (s : t) : Prop :=
  let n := length (vertices (mPoseGraph s)) in
  Forall (fun edge => (getSourceVertex edge < n)%nat /\ (getTargetVertex edge < n)%nat)
    (edges (mPoseGraph s)) /\
  (forall v, mLastVertex s = Some v -> (v < n)%nat) /\
  (forall v, mFirstVertex s = Some v -> (v < n)%nat).

(** The ids of the vertices whose measurement is of the named sensor, in
    the order of the vertex iterator. *)
Definition sensor_vertex_ids (sensor : string) (g : PoseGraph) : list nat :=
  map fst
    (List.filter
       (fun iv => String.eqb (getSensorName (measurement (snd iv))) sensor)
       (vertex_iterator g)).

(** The vertices of the named sensor with their ids, and the point that
    [buildNeighborIndex] stores for a vertex: its translation, each
    coordinate narrowed to [float]. *)
Definition sensor_vertices (sensor : string) (g : PoseGraph) : list (nat * VertexObject) :=
  List.filter
    (fun iv => String.eqb (getSensorName (measurement (snd iv))) sensor)
    (vertex_iterator g).

Definition vertex_point (v : VertexObject) : Vector3 F :=
  let t := translation (corrected_pose v) in
  Vec3 (s_narrow (vcoeff t 0)) (s_narrow (vcoeff t 1)) (s_narrow (vcoeff t 2)).

(** The point that [getNearbyVertices] searches around, and the pointer
    that [mIndexMap] holds for a row: null for a row it does not have. *)
Definition pose_point (tf : Transform F) : Vector3 F :=
  let t := translation tf in
  Vec3 (vcoeff t 0) (vcoeff t 1) (vcoeff t 2).

Definition pointer_at (index_map : gmap nat VertexPtr) (row : nat) : VertexPtr :=
  match index_map !! row with
  | Some p => p
  | None => None
  end.

(** The state after some edges have been added, one [addEdge] after the
    other: they are last in the graph, in that order, and the solver, if
    there is one, has received their constraints. *)
Definition constraint_of (edge : EdgeObject) : SolverCall :=
  addConstraint (getSourceVertex edge) (getTargetVertex edge)
    (e_transform edge) (e_covariance edge).

Definition with_new_edges (new : list EdgeObject) (s : t) : t :=
  set_mSolver
    (option_map (fun calls => calls ++ map constraint_of new) (mSolver s))
    (set_mPoseGraph
       {| vertices := vertices (mPoseGraph s);
          edges := edges (mPoseGraph s) ++ new |} s).

(** The members that neither the neighbour index nor an added edge
    touches. *)
Definition kept_by_linking (s : t)
  : list VertexObject * gmap string (Sensor.t F) * option Odometry * gmap nat nat *
    Transform F * VertexPtr * VertexPtr * Transform F * (F * F * F * bool) :=
  (vertices (mPoseGraph s), mSensors s, mOdometry s, mVertexIndex s,
   mCurrentPose s, mLastVertex s, mFirstVertex s, mLastOdometricPose s,
   (mNeighborRadius s, mMinTranslation s, mMinRotation s, mAddOdometryEdges s)).

(** The graph after the corrections [res] have been written to it, one
    after the other, and the pose that they leave at the vertex [id] whose
    pose was [pose]: that of the last correction for [id]. *)
Definition apply_corrections (res : list (nat * Transform F)) (g : PoseGraph)
  : PoseGraph :=
  fold_left (fun g it => set_corrected_pose (fst it) (snd it) g) res g.

Definition final_pose (res : list (nat * Transform F)) (id : nat) (pose : Transform F)
  : Transform F :=
  fold_left (fun pose it => if Nat.eqb (fst it) id then snd it else pose) res pose.

(** The solver, if there is one, has received the constraints of the
    edges of the graph, in their order, and no other constraint. *)
Definition is_constraint (c : SolverCall) : bool :=
  match c with
  | addConstraint _ _ _ _ => true
  | _ => false
  end.

Definition solver_has_edges (s : t) : Prop :=
  forall calls, mSolver s = Some calls ->
    List.filter is_constraint calls = map constraint_of (edges (mPoseGraph s)).

End Defs.
Arguments VertexObject F : clear implicits.
Arguments EdgeObject F : clear implicits.
Arguments PoseGraph F : clear implicits.
Arguments SolverCall F : clear implicits.
Arguments Odometry F : clear implicits.
Arguments t F : clear implicits.
End GraphMapper.

(* ===================================================================== *)
(** * [PointCloudSensor::getAccumulatedCloud] (PointCloudSensor.cpp) *)
(* ===================================================================== *)

(** The method reads the mapper the sensor belongs to ([mMapper]) and
    writes to the log, so it is a computation on the mapper. *)
Section AccumulatedCloud.
Context {F : Type} `{Scalar F}.
Variable VoxelGrid_filter : F -> PointCloud F -> PointCloud F.
Variable transformPointCloud : PointCloud F -> Matrix4 F -> PointCloud F.

Local Notation "x <- c1 ;; c2" := (GraphMapper.bind c1 (fun x => c2))
  (at level 100, c1 at next level, right associativity).
Local Notation "c1 ;; c2" := (GraphMapper.bind c1 (fun _ => c2))
  (at level 100, right associativity).

(** The [for] loop of lines 112-128; [*accu += *tempCloud] appends the
    points. *)
Fixpoint getAccumulatedCloud_loop (its : GraphMapper.VertexList) (accu : PointCloud F)
  : GraphMapper.M (PointCloud F) :=
  match its with
  | [] => GraphMapper.ret accu
  | it :: rest =>
      v <- GraphMapper.deref it ;;
      match as_PointCloudMeasurement (GraphMapper.measurement v) with
      | None =>
          GraphMapper.message ERROR
            "Measurement in getAccumulatedCloud() is not a point cloud!" ;;
          GraphMapper.throw BadMeasurementType
      | Some cloud =>
          let tempCloud :=
            transformPointCloud cloud (matrix (GraphMapper.corrected_pose v)) in
          getAccumulatedCloud_loop rest (accu ++ tempCloud)
      end
  end.

(** Lines 107-130: the vertices of the sensor, last first. *)
Definition getAccumulatedCloud (self : PointCloudSensor.t F) (resolution : F)
  : GraphMapper.M (PointCloud F) :=
  st <- GraphMapper.get ;;
  let vertices := GraphMapper.getVerticesFromSensor (PointCloudSensor.mName self) st in
  accu <- getAccumulatedCloud_loop (rev vertices) [] ;;
  GraphMapper.ret (PointCloudSensor.downsample VoxelGrid_filter accu resolution).

(** ** Vocabulary for the properties *)

(** Whether the measurement of a vertex is a point cloud, and the points
    that the vertex contributes: its cloud moved by its pose. *)
Definition holds_point_cloud (v : GraphMapper.VertexObject F) : bool :=
  match as_PointCloudMeasurement (GraphMapper.measurement v) with
  | Some _ => true
  | None => false
  end.

Definition vertex_cloud (v : GraphMapper.VertexObject F) : PointCloud F :=
  match as_PointCloudMeasurement (GraphMapper.measurement v) with
  | Some cloud => transformPointCloud cloud (matrix (GraphMapper.corrected_pose v))
  | None => []
  end.

End AccumulatedCloud.

(* ===================================================================== *)
(** * Vocabulary over the real numbers *)
(* ===================================================================== *)

Section RealVocabulary.
Local Open Scope R_scope.

(** The rows of [r] are pairwise orthogonal unit vectors and form a
    right-handed frame. *)
Definition orthonormal (r : Matrix3 R) : Prop :=
  let x := mrow0 r in
  let y := mrow1 r in
  let z := mrow2 r in
  dot x x = 1 /\ dot y y = 1 /\ dot z z = 1 /\
  dot x y = 0 /\ dot x z = 0 /\ dot y z = 0 /\
  cross x y = z.

(** The Euclidean norm of a vector. *)
Definition Euclidean_norm (v : Vector3 R) : R :=
  sqrt (vx v * vx v + vy v * vy v + vz v * vz v).

(** An angle brought into the interval from [-PI] to [PI] by one turn;
    [PI] is the number pi of the real numbers, not the code's constant. *)
Definition wrap_to_pi (a : R) : R :=
  if Rlt_dec PI a then a - 2 * PI
  else if Rlt_dec a (- PI) then a + 2 * PI
  else a.

(** The real number that a finite double stands for: its mantissa times
    a power of two. *)
Definition float_to_R (x : float) : R :=
  match Prim2SF x with
  | S754_finite sign m e =>
      let magnitude :=
        match e with
        | Z0 => IZR (Zpos m)
        | Zpos p => IZR (Zpos m * 2 ^ Zpos p)
        | Zneg p => IZR (Zpos m) / IZR (2 ^ Zpos p)
        end in
      if sign then - magnitude else magnitude
  | _ => 0
  end.

Definition Vector3_to_R (v : Vector3 float) : Vector3 R :=
  Vec3 (float_to_R (vx v)) (float_to_R (vy v)) (float_to_R (vz v)).

(** The angle of a rotation matrix over the real numbers, as the
    axis-angle form defines it: the arc cosine of half of the trace minus
    one. It lies between zero and half a turn. *)
Definition trace (m : Matrix3 R) : R := vx (mrow0 m) + vy (mrow1 m) + vz (mrow2 m).

Definition rotation_angle (m : Matrix3 R) : R := acos ((trace m - 1) / 2).

End RealVocabulary.

(* ===================================================================== *)
(** * Scenarios *)
(* ===================================================================== *)

(** Concrete mappers, sensors and measurements on IEEE doubles, on which
    the methods are run. *)
Module Scenario.
Import GraphMapper.
Local Open Scope float_scope.

(** Stand-ins for PCL: a voxel grid so fine that it keeps every point, the
    point-wise application of a matrix, and an ICP that reports a fixed
    result. *)
Definition keep_every_point (leaf_size : float) (cloud : PointCloud float)
  : PointCloud float := cloud.

Definition transform_points (cloud : PointCloud float) (m : Matrix4 float)
  : PointCloud float :=
  let t := Transform_of_Matrix4 m in
  map (fun p => vadd (mat_vec (linear t) p) (translation t)) cloud.

Definition icp_reports (r : PointCloudSensor.ICPResult float)
  : PointCloudSensor.GICPConfiguration float -> PointCloud float -> PointCloud float ->
    PointCloudSensor.ICPResult float :=
  fun _ _ _ => r.

Definition shift_matrix (x y z : float) : Matrix4 float :=
  Mat4 (Vec4 1 0 0 x) (Vec4 0 1 0 y) (Vec4 0 0 1 z) (Vec4 0 0 0 1).

Definition converged (m : Matrix4 float) : PointCloudSensor.ICPResult float := {|
  PointCloudSensor.hasConverged := true;
  PointCloudSensor.getFinalTransformation := m;
  PointCloudSensor.getFitnessScore := 0.125 |}.

Definition diverged : PointCloudSensor.ICPResult float := {|
  PointCloudSensor.hasConverged := false;
  PointCloudSensor.getFinalTransformation := shift_matrix 0 0 0;
  PointCloudSensor.getFitnessScore := 8 |}.

Definition configuration : PointCloudSensor.GICPConfiguration float := {|
  PointCloudSensor.max_correspondence_distance := 2.5;
  PointCloudSensor.maximum_iterations := 50;
  PointCloudSensor.transformation_epsilon := 0.0078125;
  PointCloudSensor.euclidean_fitness_epsilon := 1;
  PointCloudSensor.correspondence_randomness := 20;
  PointCloudSensor.maximum_optimizer_iterations := 20;
  PointCloudSensor.rotation_epsilon := 0.001953125;
  PointCloudSensor.max_fitness_score := 2 |}.

Definition velodyne : PointCloudSensor.t float := {|
  PointCloudSensor.mName := "velodyne";
  PointCloudSensor.mConfiguration := configuration |}.

Definition scan (id : nat) (time : Z) : Measurement float := {|
  getUniqueId := id;
  getTimestamp := time;
  getRobotName := "robot";
  getSensorName := "velodyne";
  getData := PointCloudData [Vec3 1 0 0; Vec3 0 1 0; Vec3 0 0 1] |}.

Definition shift (x y z : float) : Transform float :=
  Tf Matrix3_Identity (Vec3 x y z).

(** The robot's odometry: at the origin at time 0, one metre ahead from
    then on. *)
Definition odometer : Odometry float :=
  fun time => if (time <=? 0)%Z then Some (shift 0 0 0) else Some (shift 1 0 0).

(** A mapper with odometry (no odometry edges) and a registered
    [velodyne] sensor whose ICP never converges. *)
Definition blind_velodyne : Sensor.t float :=
  PointCloudSensor.as_Sensor keep_every_point transform_points (icp_reports diverged)
    velodyne.

Definition start : t float :=
  set_mOdometry (Some odometer) false
    (set_mSensors {[ "velodyne" := blind_velodyne ]} (new (shift 7 7 7))).

(** The mapper after the scan of time 0: one vertex, at the identity. *)
Definition after_first_scan : t float :=
  set_mLastOdometricPose (shift 0 0 0)
    (set_mLastVertex (Some 0%nat)
       (set_mFirstVertex (Some 0%nat)
          (set_mVertexIndex {[ 0%nat := 0%nat ]}
             (set_mPoseGraph
                {| vertices := [ {| v_name := "robot:velodyne";
                                    corrected_pose := Transform_Identity;
                                    measurement := scan 0 0 |} ];
                   edges := [] |}
                start)))).

(** Stand-ins for Eigen and flann in the runs below: every rotation in
    them is the identity, whose angle is zero; the radius search reports
    the rows within the radius, in row order. *)
Definition no_rotation (rotation : Matrix3 float) : float := 0.

Definition rows_within (points : list (Vector3 float)) (query : Vector3 float)
  (radius : float) : list nat :=
  map fst
    (List.filter
       (fun '(_, p) => let d := vsub p query in (dot d d <=? radius * radius))
       (combine (seq 0 (length points)) points)).

(** Two matrices an ICP may report. *)
Definition with_nan : Matrix4 float :=
  Mat4 (Vec4 1 0 0 nan) (Vec4 0 1 0 0) (Vec4 0 0 1 0) (Vec4 0 0 0 1).

Definition with_infinity : Matrix4 float :=
  Mat4 (Vec4 1 0 0 infinity) (Vec4 0 1 0 0) (Vec4 0 0 1 0) (Vec4 0 0 0 1).

(** The mapper after the scan of time 1, which is rejected: the odometry
    has moved by one metre and the sensor finds no match. *)
Definition after_second_scan : t float :=
  set_mCurrentPose (shift 1 0 0) after_first_scan.

(** The same mapper with an odometry that has moved by a quarter of a
    metre, less than [mMinTranslation]. *)
Definition creeping_odometer : Odometry float :=
  fun time => if (time <=? 0)%Z then Some (shift 0 0 0) else Some (shift 0.25 0 0).

Definition creeping : t float :=
  set_mOdometry (Some creeping_odometer) false after_first_scan.

(** A mapper without odometry whose [velodyne] always converges, to
    the guess; [after_readings] enters scans with known poses into it. *)
Definition seeing_velodyne : Sensor.t float :=
  PointCloudSensor.as_Sensor keep_every_point transform_points
    (icp_reports (converged (shift_matrix 0 0 0))) velodyne.

Definition surveyed : t float :=
  set_mSensors {[ "velodyne" := seeing_velodyne ]} (new (shift 7 7 7)).

Definition ends (edge : EdgeObject float) : nat * nat * string * string :=
  (getSourceVertex edge, getTargetVertex edge, e_sensor edge, e_label edge).

(** The mapper after the first scan with an odometry that has no data,
    and with no odometry at all. *)
Definition lost_odometer : Odometry float := fun time => None.

Definition lost : t float :=
  set_mOdometry (Some lost_odometer) false after_first_scan.

Definition unaided : t float := set_mOdometry None false after_first_scan.

(** The mapper after the first scan with a solver that has received no
    call yet, and a solver that always succeeds and corrects vertex 0
    twice. *)
Definition solved : t float := set_mSolver (Some []) after_first_scan.

Definition solver_succeeds (calls : list (SolverCall float)) : bool := true.

Definition solver_shifts (calls : list (SolverCall float))
  : list (nat * Transform float) :=
  [(0%nat, shift 1 0 0); (0%nat, shift 2 0 0)].

Definition after_readings (readings : list (Measurement float * Transform float))
  : t float :=
  fold_left
    (fun s '(m, pose) => snd (exec (addExternalReading rows_within m pose) s))
    readings surveyed.

(** A mapper with odometry, odometry edges, a solver that has received
    no call yet and a [velodyne] that always converges; the same mapper
    after it has read the scan of time 0. *)
Definition guided : t float :=
  set_mSolver (Some []) (set_mOdometry (Some odometer) true surveyed).

Definition guided_after_first_scan : t float :=
  snd (exec (addReading no_rotation rows_within (scan 0 0)) guided).

(** A step of 0.14 m ahead and 0.48 m to the left, in the doubles that
    are nearest to the two numbers. *)
Definition short_step : Transform float :=
  shift 0x1.1eb851eb851ecp-3 0x1.eb851eb851eb8p-2 0.

End Scenario.

(** A mapper and a transform over the real numbers. *)
Module RealScenario.
Local Open Scope R_scope.

Definition fresh_mapper : GraphMapper.t R := GraphMapper.new Transform_Identity.

(** A quarter turn about the z axis, with a translation. *)
Definition quarter_turn : Transform R :=
  Tf (Mat3 (Vec3 0 (-1) 0) (Vec3 1 0 0) (Vec3 0 0 1)) (Vec3 2 3 4).

(** A transform whose first two rows have length one and are not
    orthogonal: their dot product is 3/5. *)
Definition skewed : Transform R :=
  Tf (Mat3 (Vec3 1 0 0) (Vec3 (3 / 5) (4 / 5) 0) (Vec3 0 0 1)) (Vec3 2 3 4).

(** A step of five centimetres, and a stand-in for an [AngleAxis] that
    reports angles of up to one turn: it reports 6.2 radians, a little
    less than a full turn. *)
Definition slight : Transform R :=
  Tf Matrix3_Identity (Vec3 (3 / 100) (4 / 100) 0).

Definition almost_one_turn (rotation : Matrix3 R) : R := 62 / 10.

End RealScenario.

(* ===================================================================== *)
(** * Properties of [orthogonalize] *)
(* ===================================================================== *)

(** The code and the specified algorithm build the same transform. *)
Lemma orthogonalize_unfold {F : Type} `{Scalar F} (t : Transform F) :
  orthogonalize t = Tf (spec_rotation (linear t)) (translation t).
Proof.
  unfold orthogonalize, spec_rotation, renormalize, vscale. cbn. reflexivity.
Qed.

(** C4. [orthogonalize] keeps the translation, and its rotation is the
    one the specified algorithm computes from the rows [x], [y] of the
    input: [x' = x - (error/2) y], [y' = y - (error/2) x], [z' = x' x y']
    with [error = x . y], each row scaled by [0.5 (3 - v . v)]. This holds
    in every arithmetic, IEEE doubles included. *)
Theorem orthogonalize_keeps_translation_and_follows_spec
  {F : Type} `{Scalar F} (t : Transform F) :
  translation (orthogonalize t) = translation t /\
  linear (orthogonalize t) = spec_rotation (linear t).
Proof.
  rewrite orthogonalize_unfold. split; reflexivity.
Qed.

(** On IEEE doubles the identity is a fixed point, by running the code. *)
Example orthogonalize_identity_float :
  orthogonalize (F := float) Transform_Identity = Transform_Identity.
Proof. vm_compute. reflexivity. Qed.

(** A rotation by 90 degrees about the z axis, with a translation, comes
    back equal under [==] on doubles, though not bit for bit: in the
    third row a zero comes back as [-0]. *)
Example orthogonalize_quarter_turn_float :
  let q : Transform float :=
    Tf (Mat3 (Vec3 0 (-1) 0)%float (Vec3 1 0 0)%float (Vec3 0 0 1)%float)
       (Vec3 2 3 4)%float in
  Transform_eqb (orthogonalize q) q = true /\
  mrow2 (linear (orthogonalize q)) = (Vec3 (-0) 0 1)%float.
Proof. vm_compute. split; reflexivity. Qed.

Section OrthogonalizeReal.
Local Open Scope R_scope.

Lemma lit_R (m : Z) (e : nat) : lit m e = IZR m / IZR (10 ^ Z.of_nat e).
Proof. reflexivity. Qed.

Lemma half_R : lit (F := R) 5 1 = 1 / 2.
Proof.
  rewrite lit_R. replace (10 ^ Z.of_nat 1)%Z with 10%Z by reflexivity. lra.
Qed.

Lemma two_R : lit (F := R) 2 0 = 2.
Proof.
  rewrite lit_R. replace (10 ^ Z.of_nat 0)%Z with 1%Z by reflexivity. lra.
Qed.

Lemma three_R : lit (F := R) 3 0 = 3.
Proof.
  rewrite lit_R. replace (10 ^ Z.of_nat 0)%Z with 1%Z by reflexivity. lra.
Qed.

Lemma orthonormal_identity : orthonormal (Matrix3_Identity (F := R)).
Proof.
  unfold orthonormal, Matrix3_Identity, dot, cross; cbn.
  repeat split; try lra.
  f_equal; lra.
Qed.

(** With no error to remove, a row stays as it is. *)
Lemma vsub_zero_scale (x y : Vector3 R) :
  vsub x (vscale (0 / lit 2 0)%S y) = x.
Proof.
  destruct x, y. rewrite two_R. unfold vsub, vscale; cbn. f_equal; lra.
Qed.

(** A unit vector is its own renormalisation. *)
Lemma renormalize_unit (v : Vector3 R) : dot v v = 1 -> renormalize v = v.
Proof.
  intros Hv. unfold renormalize. rewrite Hv, half_R, three_R.
  destruct v. unfold vscale; cbn. f_equal; lra.
Qed.

Lemma spec_rotation_orthonormal (r : Matrix3 R) :
  orthonormal r -> spec_rotation r = r.
Proof.
  intros (Hxx & Hyy & Hzz & Hxy & _ & _ & Hz).
  unfold spec_rotation. rewrite Hxy, !vsub_zero_scale, Hz.
  rewrite !renormalize_unit by assumption.
  destruct r; reflexivity.
Qed.

End OrthogonalizeReal.

(** A quarter turn is orthonormal. *)
Lemma quarter_turn_orthonormal :
  orthonormal (linear RealScenario.quarter_turn).
Proof.
  unfold orthonormal, RealScenario.quarter_turn, dot, cross; cbn.
  repeat split; try lra. f_equal; lra.
Qed.

(** C10. Over the real numbers, [orthogonalize] returns a transform whose
    rotation is orthonormal (pairwise orthogonal unit rows, right-handed)
    as it is; so it returns the identity transform as it is. *)
Theorem orthogonalize_fixes_orthonormal :
  (forall T : Transform R, orthonormal (linear T) -> orthogonalize T = T) /\
  orthogonalize (F := R) Transform_Identity = Transform_Identity.
Proof.
  assert (Hfix : forall T : Transform R, orthonormal (linear T) -> orthogonalize T = T).
  { intros T HT.
    rewrite orthogonalize_unfold, (spec_rotation_orthonormal _ HT).
    destruct T; reflexivity. }
  split; [exact Hfix|].
  apply Hfix, orthonormal_identity.
Qed.

(** C10 at a quarter turn about the z axis. *)
Lemma orthogonalize_fixes_orthonormal_witness :
  orthonormal (linear RealScenario.quarter_turn) /\
  orthogonalize RealScenario.quarter_turn = RealScenario.quarter_turn.
Proof.
  split; [exact quarter_turn_orthonormal|].
  exact (proj1 orthogonalize_fixes_orthonormal RealScenario.quarter_turn
           quarter_turn_orthonormal).
Defined.

(** ** What [orthogonalize] reads and what it achieves *)

(** X1. [orthogonalize] does not read the third row of the rotation: the
    result is the same whatever that row holds. This holds in every
    arithmetic, IEEE doubles included. *)
Theorem orthogonalize_ignores_third_row {F : Type} `{Scalar F}
  (T : Transform F) (z : Vector3 F) :
  orthogonalize (Tf (Mat3 (mrow0 (linear T)) (mrow1 (linear T)) z) (translation T)) =
    orthogonalize T.
Proof. destruct T as [[x y z0] tr]. reflexivity. Qed.

Section OrthogonalizeError.
Local Open Scope R_scope.

Lemma orthogonalize_rows (T : Transform R) :
  let x := mrow0 (linear T) in
  let y := mrow1 (linear T) in
  let e := dot x y in
  let x' := vsub x (vscale (e / 2) y) in
  let y' := vsub y (vscale (e / 2) x) in
  let z' := cross x' y' in
  linear (orthogonalize T) =
    Mat3 (vscale (1 / 2 * (3 - dot x' x')) x')
         (vscale (1 / 2 * (3 - dot y' y')) y')
         (vscale (1 / 2 * (3 - dot z' z')) z').
Proof.
  destruct T as [[[a b c] [d f g] z] tr]. cbv zeta.
  unfold orthogonalize. rewrite half_R, two_R, three_R. reflexivity.
Qed.

(** X2. Over the real numbers, the third row of the rotation that
    [orthogonalize] returns is orthogonal to the first row and to the
    second, whatever the input. *)
Theorem orthogonalize_third_row_orthogonal (T : Transform R) :
  let r := linear (orthogonalize T) in
  dot (mrow2 r) (mrow0 r) = 0 /\ dot (mrow2 r) (mrow1 r) = 0.
Proof.
  cbv zeta. rewrite orthogonalize_rows.
  destruct T as [[[a b c] [d f g] z] tr].
  unfold dot, cross, vsub, vscale; cbn. split; ring.
Qed.

Lemma unit_rows_dot (a b c d f g : R) :
  a * a + b * b + c * c = 1 -> d * d + f * f + g * g = 1 ->
  (a * d + b * f + c * g) * (a * d + b * f + c * g) <= 1.
Proof.
  intros Hx Hy.
  assert (Hl : (a * a + b * b + c * c) * (d * d + f * f + g * g) -
               (a * d + b * f + c * g) * (a * d + b * f + c * g) =
               (b * g - c * f) * (b * g - c * f) + (c * d - a * g) * (c * d - a * g) +
               (a * f - b * d) * (a * f - b * d)) by ring.
  rewrite Hx, Hy in Hl.
  pose proof (Rle_0_sqr (b * g - c * f)) as H1.
  pose proof (Rle_0_sqr (c * d - a * g)) as H2.
  pose proof (Rle_0_sqr (a * f - b * d)) as H3.
  unfold Rsqr in H1, H2, H3. lra.
Qed.

(** X3. Over the real numbers, when the first two rows have length one
    and dot product [e], the first two rows of the result have dot product
    [(1 + 3 e^2 / 8)^2 e^3 / 4], which is at most [|e|^3 / 2] in absolute
    value: one call takes the error of orthogonality to its cube. *)
Theorem orthogonalize_cubes_error (T : Transform R) :
  let x := mrow0 (linear T) in
  let y := mrow1 (linear T) in
  let e := dot x y in
  let r := linear (orthogonalize T) in
  dot x x = 1 -> dot y y = 1 ->
  dot (mrow0 r) (mrow1 r) = (1 + 3 / 8 * (e * e)) * (1 + 3 / 8 * (e * e)) * (e * e * e / 4) /\
  Rabs (dot (mrow0 r) (mrow1 r)) <= Rabs e * Rabs e * Rabs e / 2.
Proof.
  cbv zeta. rewrite orthogonalize_rows.
  destruct T as [[[a b c] [d f g] z] tr].
  unfold dot, cross, vsub, vscale; cbn. intros Hx Hy.
  pose proof (unit_rows_dot a b c d f g Hx Hy) as He.
  set (e := a * d + b * f + c * g) in *.
  assert (Heq :
    1 / 2 * (3 - ((a - e / 2 * d) * (a - e / 2 * d) + (b - e / 2 * f) * (b - e / 2 * f) +
                  (c - e / 2 * g) * (c - e / 2 * g))) * (a - e / 2 * d) *
    (1 / 2 * (3 - ((d - e / 2 * a) * (d - e / 2 * a) + (f - e / 2 * b) * (f - e / 2 * b) +
                   (g - e / 2 * c) * (g - e / 2 * c))) * (d - e / 2 * a)) +
    1 / 2 * (3 - ((a - e / 2 * d) * (a - e / 2 * d) + (b - e / 2 * f) * (b - e / 2 * f) +
                  (c - e / 2 * g) * (c - e / 2 * g))) * (b - e / 2 * f) *
    (1 / 2 * (3 - ((d - e / 2 * a) * (d - e / 2 * a) + (f - e / 2 * b) * (f - e / 2 * b) +
                   (g - e / 2 * c) * (g - e / 2 * c))) * (f - e / 2 * b)) +
    1 / 2 * (3 - ((a - e / 2 * d) * (a - e / 2 * d) + (b - e / 2 * f) * (b - e / 2 * f) +
                  (c - e / 2 * g) * (c - e / 2 * g))) * (c - e / 2 * g) *
    (1 / 2 * (3 - ((d - e / 2 * a) * (d - e / 2 * a) + (f - e / 2 * b) * (f - e / 2 * b) +
                   (g - e / 2 * c) * (g - e / 2 * c))) * (g - e / 2 * c)) =
    (1 + 3 / 8 * (e * e)) * (1 + 3 / 8 * (e * e)) * (e * e * e / 4)).
  { set (xx := a * a + b * b + c * c) in *.
    set (yy := d * d + f * f + g * g) in *.
    transitivity
      ((1 / 2 * (3 - (xx - e * e + e * e / 4 * yy))) *
       (1 / 2 * (3 - (yy - e * e + e * e / 4 * xx))) *
       (e - e / 2 * yy - e / 2 * xx + e * e / 4 * e)).
    - unfold xx, yy, e. field.
    - rewrite Hx, Hy. field. }
  split; [exact Heq|]. rewrite Heq.
  assert (Hsq : 0 <= e * e) by (pose proof (Rle_0_sqr e) as Hs; unfold Rsqr in Hs; exact Hs).
  assert (H0 : 0 <= 1 + 3 / 8 * (e * e)) by lra.
  assert (H1 : 1 + 3 / 8 * (e * e) <= 11 / 8) by lra.
  pose proof (Rmult_le_compat _ _ _ _ H0 H0 H1 H1) as Hone.
  pose proof (Rmult_le_pos _ _ H0 H0) as Hnonneg.
  replace ((1 + 3 / 8 * (e * e)) * (1 + 3 / 8 * (e * e)) * (e * e * e / 4))
    with ((1 + 3 / 8 * (e * e)) * (1 + 3 / 8 * (e * e)) / 4 * (e * e * e)) by field.
  rewrite (Rabs_mult _ (e * e * e)), (Rabs_mult (e * e) e), (Rabs_mult e e).
  rewrite (Rabs_right ((1 + 3 / 8 * (e * e)) * (1 + 3 / 8 * (e * e)) / 4)) by lra.
  pose proof (Rabs_pos e) as Hpos.
  assert (Hcube : 0 <= Rabs e * Rabs e * Rabs e)
    by (apply Rmult_le_pos; [apply Rmult_le_pos|]; assumption).
  apply Rle_trans with (2 / 4 * (Rabs e * Rabs e * Rabs e)); [|lra].
  apply Rmult_le_compat_r; [exact Hcube | lra].
Qed.

(** X3 at rows (1, 0, 0) and (3/5, 4/5, 0), whose dot product is 3/5. *)
Lemma orthogonalize_cubes_error_witness :
  let x := mrow0 (linear RealScenario.skewed) in
  let y := mrow1 (linear RealScenario.skewed) in
  let e := dot x y in
  let r := linear (orthogonalize RealScenario.skewed) in
  dot x x = 1 /\ dot y y = 1 /\
  dot (mrow0 r) (mrow1 r) = (1 + 3 / 8 * (e * e)) * (1 + 3 / 8 * (e * e)) * (e * e * e / 4) /\
  Rabs (dot (mrow0 r) (mrow1 r)) <= Rabs e * Rabs e * Rabs e / 2.
Proof.
  assert (Hx : dot (mrow0 (linear RealScenario.skewed))
                 (mrow0 (linear RealScenario.skewed)) = 1)
    by (unfold dot; cbn; lra).
  assert (Hy : dot (mrow1 (linear RealScenario.skewed))
                 (mrow1 (linear RealScenario.skewed)) = 1)
    by (unfold dot; cbn; lra).
  split; [exact Hx|]. split; [exact Hy|].
  exact (orthogonalize_cubes_error RealScenario.skewed Hx Hy).
Defined.

End OrthogonalizeError.

(* ===================================================================== *)
(** * Properties of [PointCloudSensor::calculateTransform] *)
(* ===================================================================== *)

Section PointCloudSensorProperties.
Context {F : Type} `{Scalar F}.
Variable VoxelGrid_filter : F -> PointCloud F -> PointCloud F.
Variable transformPointCloud : PointCloud F -> Matrix4 F -> PointCloud F.
Variable GICP_align :
  PointCloudSensor.GICPConfiguration F -> PointCloud F -> PointCloud F ->
  PointCloudSensor.ICPResult F.

Local Abbreviation calculateTransform :=
  (PointCloudSensor.calculateTransform VoxelGrid_filter transformPointCloud GICP_align).
Local Abbreviation icp_after_align :=
  (PointCloudSensor.icp_after_align VoxelGrid_filter transformPointCloud GICP_align).

Lemma forallb_false_exists {A} (f : A -> bool) (l : list A) :
  forallb f l = false <-> exists x, In x l /\ f x = false.
Proof.
  induction l as [|a l IH]; simpl.
  - split; [discriminate | intros (x & [] & _)].
  - rewrite andb_false_iff, IH. split.
    + intros [Ha | (x & Hx & Hf)]; eauto.
    + intros (x & [<- | Hx] & Hf); eauto.
Qed.

Lemma all_self_equal_false (m : Matrix4 F) :
  PointCloudSensor.all_self_equal m = false <-> PointCloudSensor.has_nan m.
Proof. apply forallb_false_exists. Qed.

Lemma all_finite_self_equal (m : Matrix4 F) :
  PointCloudSensor.all_finite m -> PointCloudSensor.all_self_equal m = true.
Proof.
  intros Hm. apply forallb_forall. intros x Hx. apply s_finite_eqb, Hm, Hx.
Qed.

(** The three ways the method ends when both measurements are point
    clouds, by what ICP reports. *)
Lemma calculateTransform_point_clouds (self : PointCloudSensor.t F)
  (source target : Measurement F) (guess : Transform F)
  (sourceCloud targetCloud : PointCloud F) :
  as_PointCloudMeasurement source = Some sourceCloud ->
  as_PointCloudMeasurement target = Some targetCloud ->
  let icp := icp_after_align self sourceCloud targetCloud guess in
  calculateTransform self source target guess =
    if PointCloudSensor.hasConverged icp then
      if PointCloudSensor.all_self_equal (PointCloudSensor.getFinalTransformation icp)
      then ([Log DEBUG "ICP shift: %1% | Guess: %2%"],
            Returned
              (TWC (compose guess
                      (Transform_of_Matrix4 (PointCloudSensor.getFinalTransformation icp)))
                   Covariance_Identity))
      else ([Log ERROR "Messurement from ICP contains not numerical values."],
            Returned (TWC Transform_Identity Covariance_Identity))
    else ([Log DEBUG "ICP failed! (Fitness-Score: %1% > %2%)"], Threw NoMatch).
Proof.
  intros Hs Ht icp. unfold PointCloudSensor.calculateTransform.
  rewrite Hs, Ht. fold icp.
  change (GICP_align _ _ _) with icp.
  destruct (PointCloudSensor.hasConverged icp); [|reflexivity].
  destruct (PointCloudSensor.all_self_equal _); reflexivity.
Qed.

Lemma calculateTransform_bad_type (self : PointCloudSensor.t F)
  (source target : Measurement F) (guess : Transform F) :
  as_PointCloudMeasurement source = None \/ as_PointCloudMeasurement target = None ->
  calculateTransform self source target guess =
    ([Log ERROR "Measurement given to calculateTransform() is not a PointCloud!"],
     Threw BadMeasurementType).
Proof.
  unfold PointCloudSensor.calculateTransform.
  intros [-> | ->]; [reflexivity|].
  destruct (as_PointCloudMeasurement source); reflexivity.
Qed.

(** C2, as the code has it. When both measurements are point clouds, ICP
    converges and an entry of its final matrix is NaN (it differs from
    itself), the method logs one error and returns the identity transform
    with the identity covariance; it does not throw. *)
Theorem calculateTransform_nan_returns_identity (self : PointCloudSensor.t F)
  (source target : Measurement F) (guess : Transform F)
  (sourceCloud targetCloud : PointCloud F) :
  as_PointCloudMeasurement source = Some sourceCloud ->
  as_PointCloudMeasurement target = Some targetCloud ->
  let icp := icp_after_align self sourceCloud targetCloud guess in
  PointCloudSensor.hasConverged icp = true ->
  PointCloudSensor.has_nan (PointCloudSensor.getFinalTransformation icp) ->
  calculateTransform self source target guess =
    ([Log ERROR "Messurement from ICP contains not numerical values."],
     Returned (TWC Transform_Identity Covariance_Identity)).
Proof.
  intros Hs Ht icp Hconv Hnan.
  rewrite (calculateTransform_point_clouds _ _ _ _ _ _ Hs Ht). fold icp.
  rewrite Hconv. apply all_self_equal_false in Hnan. rewrite Hnan. reflexivity.
Qed.

(** C5. When both measurements are point clouds, ICP converges and every
    entry of its final matrix [T_icp] is finite, the method returns
    [guess * T_icp], where ICP ran on the downsampled source cloud shifted
    by the guess. *)
Theorem calculateTransform_finite_returns_composition (self : PointCloudSensor.t F)
  (source target : Measurement F) (guess : Transform F)
  (sourceCloud targetCloud : PointCloud F) :
  as_PointCloudMeasurement source = Some sourceCloud ->
  as_PointCloudMeasurement target = Some targetCloud ->
  let icp := icp_after_align self sourceCloud targetCloud guess in
  PointCloudSensor.hasConverged icp = true ->
  PointCloudSensor.all_finite (PointCloudSensor.getFinalTransformation icp) ->
  exists log,
    calculateTransform self source target guess =
      (log,
       Returned
         (TWC (compose guess
                 (Transform_of_Matrix4 (PointCloudSensor.getFinalTransformation icp)))
              Covariance_Identity)) /\
    Forall (fun entry => log_level entry <> ERROR) log.
Proof.
  intros Hs Ht icp Hconv Hfin.
  rewrite (calculateTransform_point_clouds _ _ _ _ _ _ Hs Ht). fold icp.
  rewrite Hconv, (all_finite_self_equal _ Hfin).
  eexists. split; [reflexivity|].
  constructor; [discriminate | constructor].
Qed.

(** C6. The method throws [BadMeasurementType] exactly when the source
    or the target is not a point-cloud measurement, and [NoMatch] exactly
    when both are and ICP does not converge. *)
Theorem calculateTransform_throws (self : PointCloudSensor.t F)
  (source target : Measurement F) (guess : Transform F) :
  (snd (calculateTransform self source target guess) = Threw BadMeasurementType <->
   as_PointCloudMeasurement source = None \/ as_PointCloudMeasurement target = None) /\
  (snd (calculateTransform self source target guess) = Threw NoMatch <->
   exists sourceCloud targetCloud,
     as_PointCloudMeasurement source = Some sourceCloud /\
     as_PointCloudMeasurement target = Some targetCloud /\
     PointCloudSensor.hasConverged
       (icp_after_align self sourceCloud targetCloud guess) = false).
Proof.
  destruct (as_PointCloudMeasurement source) as [sc|] eqn:Hs;
    [destruct (as_PointCloudMeasurement target) as [tc|] eqn:Ht|].
  - rewrite (calculateTransform_point_clouds _ _ _ _ _ _ Hs Ht).
    destruct (PointCloudSensor.hasConverged _) eqn:Hconv.
    + split; split.
      * destruct (PointCloudSensor.all_self_equal _); discriminate.
      * intros [|]; discriminate.
      * destruct (PointCloudSensor.all_self_equal _); discriminate.
      * intros (sc' & tc' & [= <-] & [= <-] & Hc). congruence.
    + split; split.
      * discriminate.
      * intros [|]; discriminate.
      * intros _. exists sc, tc. auto.
      * reflexivity.
  - rewrite calculateTransform_bad_type by (rewrite Ht; auto).
    split; split; simpl; auto; try discriminate.
    intros (sc' & tc' & _ & ? & _). discriminate.
  - rewrite calculateTransform_bad_type by (rewrite Hs; auto).
    split; split; simpl; auto; try discriminate.
    intros (sc' & tc' & ? & _). discriminate.
Qed.

End PointCloudSensorProperties.

(** ** On doubles *)

Section PointCloudSensorScenario.
Import Scenario.
Local Open Scope float_scope.

Local Abbreviation calculateTransform_with icp :=
  (PointCloudSensor.calculateTransform keep_every_point transform_points (icp_reports icp)).

(** C2, as the code has it, at a matrix with one NaN entry. *)
Lemma calculateTransform_nan_witness :
  as_PointCloudMeasurement (scan 0 0) = Some [Vec3 1 0 0; Vec3 0 1 0; Vec3 0 0 1] /\
  as_PointCloudMeasurement (scan 1 1) = Some [Vec3 1 0 0; Vec3 0 1 0; Vec3 0 0 1] /\
  PointCloudSensor.has_nan with_nan /\
  calculateTransform_with (converged with_nan) velodyne (scan 0 0) (scan 1 1) (shift 1 0 0) =
    ([Log ERROR "Messurement from ICP contains not numerical values."],
     Returned (TWC Transform_Identity Covariance_Identity)).
Proof.
  assert (Hnan : PointCloudSensor.has_nan with_nan).
  { exists nan. split; [simpl; auto 10 | reflexivity]. }
  split; [reflexivity|]. split; [reflexivity|]. split; [exact Hnan|].
  exact (calculateTransform_nan_returns_identity
           keep_every_point transform_points (icp_reports (converged with_nan))
           velodyne (scan 0 0) (scan 1 1) (shift 1 0 0) _ _
           eq_refl eq_refl eq_refl Hnan).
Defined.

(** C2 as stated fails at a matrix with one infinite entry: the entry is
    not finite, yet it passes the code's test; no error is logged, and
    what is returned is the guess composed with the matrix, not the
    identity. *)
Lemma calculateTransform_infinity_not_identity :
  PointCloudSensor.has_nonfinite with_infinity /\
  exists twc,
    calculateTransform_with (converged with_infinity) velodyne (scan 0 0) (scan 1 1)
      Transform_Identity =
      ([Log DEBUG "ICP shift: %1% | Guess: %2%"], Returned twc) /\
    vx (translation (twc_transform twc)) = infinity /\
    twc_transform twc <> Transform_Identity.
Proof.
  split.
  - exists infinity. split; [simpl; auto 10 | reflexivity].
  - eexists. split; [vm_compute; reflexivity|]. split; [reflexivity|].
    intros Heq.
    apply (f_equal (fun t => PrimFloat.is_finite (vx (translation t)))) in Heq.
    vm_compute in Heq. discriminate.
Qed.

(** C5 at an ICP result that shifts by a quarter of a metre. *)
Lemma calculateTransform_finite_witness :
  as_PointCloudMeasurement (scan 0 0) = Some [Vec3 1 0 0; Vec3 0 1 0; Vec3 0 0 1] /\
  as_PointCloudMeasurement (scan 1 1) = Some [Vec3 1 0 0; Vec3 0 1 0; Vec3 0 0 1] /\
  PointCloudSensor.all_finite (shift_matrix 0.25 0 0) /\
  exists log,
    calculateTransform_with (converged (shift_matrix 0.25 0 0)) velodyne
      (scan 0 0) (scan 1 1) (shift 1 0 0) =
      (log,
       Returned
         (TWC (compose (shift 1 0 0) (Transform_of_Matrix4 (shift_matrix 0.25 0 0)))
              Covariance_Identity)) /\
    Forall (fun entry => log_level entry <> ERROR) log.
Proof.
  assert (Hfin : PointCloudSensor.all_finite (shift_matrix 0.25 0 0)).
  { intros x Hx. simpl in Hx.
    repeat (destruct Hx as [<- | Hx]; [reflexivity|]). destruct Hx. }
  split; [reflexivity|]. split; [reflexivity|]. split; [exact Hfin|].
  exact (calculateTransform_finite_returns_composition
           keep_every_point transform_points
           (icp_reports (converged (shift_matrix 0.25 0 0)))
           velodyne (scan 0 0) (scan 1 1) (shift 1 0 0) _ _
           eq_refl eq_refl eq_refl Hfin).
Defined.

(** The composition of that run: the guess, one metre, and the shift. *)
Example calculateTransform_finite_value :
  compose (shift 1 0 0) (Transform_of_Matrix4 (shift_matrix 0.25 0 0)) = shift 1.25 0 0.
Proof. vm_compute. reflexivity. Qed.

End PointCloudSensorScenario.

(** ** The log and the returned value *)

Section PointCloudSensorFurther.
Context {F : Type} `{Scalar F}.
Variable VoxelGrid_filter : F -> PointCloud F -> PointCloud F.
Variable transformPointCloud : PointCloud F -> Matrix4 F -> PointCloud F.
Variable GICP_align :
  PointCloudSensor.GICPConfiguration F -> PointCloud F -> PointCloud F ->
  PointCloudSensor.ICPResult F.

Local Abbreviation calculateTransform :=
  (PointCloudSensor.calculateTransform VoxelGrid_filter transformPointCloud GICP_align).
Local Abbreviation icp_after_align :=
  (PointCloudSensor.icp_after_align VoxelGrid_filter transformPointCloud GICP_align).

(** X4. [calculateTransform] writes exactly one line to the log, however
    it ends. When it returns, both measurements are point clouds, ICP has
    converged, and the covariance is the identity. *)
Theorem calculateTransform_returns_after_convergence (self : PointCloudSensor.t F)
  (source target : Measurement F) (guess : Transform F) :
  length (fst (calculateTransform self source target guess)) = 1%nat /\
  (forall twc, snd (calculateTransform self source target guess) = Returned twc ->
     twc_covariance twc = Covariance_Identity /\
     exists sourceCloud targetCloud,
       as_PointCloudMeasurement source = Some sourceCloud /\
       as_PointCloudMeasurement target = Some targetCloud /\
       PointCloudSensor.hasConverged
         (icp_after_align self sourceCloud targetCloud guess) = true).
Proof.
  unfold PointCloudSensor.calculateTransform, PointCloudSensor.icp_after_align.
  destruct (as_PointCloudMeasurement source) as [sc|];
    [destruct (as_PointCloudMeasurement target) as [tc|]|];
    try (split; [reflexivity | discriminate]).
  destruct (PointCloudSensor.hasConverged _) eqn:Hconv;
    [|split; [reflexivity | discriminate]].
  destruct (PointCloudSensor.all_self_equal _); cbn.
  - split; [reflexivity|]. intros twc [= <-]. split; [reflexivity|]. eauto.
  - split; [reflexivity|]. intros twc [= <-]. split; [reflexivity|]. eauto.
Qed.

End PointCloudSensorFurther.

(* ===================================================================== *)
(** * Properties of [GraphMapper] *)
(* ===================================================================== *)

Module GraphMapperProperties.
Import GraphMapper.

(** ** Running a computation *)

Section Exec.
Context {F : Type}.

Lemma exec_ret {A} (a : A) (s : t F) : exec (ret a) s = (Returned a, s).
Proof. reflexivity. Qed.

Lemma exec_throw {A} e (s : t F) : exec (throw (A := A) e) s = (Threw e, s).
Proof. reflexivity. Qed.

Lemma exec_get (s : t F) : exec get s = (Returned s, s).
Proof. reflexivity. Qed.

Lemma exec_modify f (s : t F) : exec (modify f) s = (Returned tt, f s).
Proof. reflexivity. Qed.

Lemma exec_message level text (s : t F) : exec (message level text) s = (Returned tt, s).
Proof. reflexivity. Qed.

Lemma exec_bind {A B} (m : M A) (k : A -> M B) (s : t F) :
  exec (bind m k) s =
    match exec m s with
    | (Returned a, s1) => exec (k a) s1
    | (Threw e, s1) => (Threw e, s1)
    end.
Proof.
  unfold exec, bind. destruct (m s) as [[[a|e] s1] l1]; simpl; [|reflexivity].
  destruct (k a s1) as [[o s2] l2]; reflexivity.
Qed.

Lemma exec_try_catch {A} (m : M A) handler (s : t F) :
  exec (try_catch m handler) s =
    match exec m s with
    | (Threw e, s1) =>
        match handler e with
        | Some h => exec h s1
        | None => (Threw e, s1)
        end
    | r => r
    end.
Proof.
  unfold exec, try_catch. destruct (m s) as [[[a|e] s1] l1]; simpl; [reflexivity|].
  destruct (handler e) as [h|]; [|reflexivity].
  destruct (h s1) as [[o s2] l2]; reflexivity.
Qed.

Lemma exec_call_calculateTransform sensor source target guess (s : t F) :
  exec (call_calculateTransform sensor source target guess) s =
    (snd (Sensor.calculateTransform sensor source target guess), s).
Proof.
  unfold exec, call_calculateTransform.
  destruct (Sensor.calculateTransform _ _ _ _); reflexivity.
Qed.

Lemma exec_deref p (s : t F) :
  exec (deref p) s =
    (match p with
     | Some id =>
         match vertices (mPoseGraph s) !! id with
         | Some v => Returned v
         | None => Threw NullPointer
         end
     | None => Threw NullPointer
     end, s).
Proof.
  unfold deref. rewrite exec_bind, exec_get.
  destruct p as [id|]; [|reflexivity].
  destruct (vertices (mPoseGraph s) !! id); reflexivity.
Qed.

End Exec.

(** ** [getEdgesFromSensor] *)

Section Queries.
Context {F : Type}.

Lemma fold_left_push_back {A} (l acc : list A) :
  fold_left (fun edgeList edge => edgeList ++ [edge]) l acc = acc ++ l.
Proof.
  revert acc. induction l as [|a l IH]; intros acc; simpl.
  - symmetry. apply app_nil_r.
  - rewrite IH, <- app_assoc. reflexivity.
Qed.

(** C7. Whatever the sensor name, [getEdgesFromSensor] returns all the
    edges of the pose graph, in the graph's order; the name is not looked
    at. *)
Theorem getEdgesFromSensor_returns_all_edges (sensor : string) (s : t F) :
  getEdgesFromSensor sensor s = edges (mPoseGraph s) /\
  (forall e, In e (edges (mPoseGraph s)) -> In e (getEdgesFromSensor sensor s)).
Proof.
  assert (Hall : getEdgesFromSensor sensor s = edges (mPoseGraph s)).
  { unfold getEdgesFromSensor. apply fold_left_push_back. }
  split; [exact Hall|]. intros e He. rewrite Hall. exact He.
Qed.

End Queries.

(** ** [checkMinDistance] *)

Section CheckMinDistance.
Context {F : Type} `{Scalar F}.
Variable AngleAxis_angle : Matrix3 F -> F.

(** The method reads the state and writes one log line. *)
Lemma checkMinDistance_run (T : Transform F) (s : t F) :
  checkMinDistance AngleAxis_angle T s =
    (Returned
       (negb ((translation_length T <? mMinTranslation s)%S &&
              (wrapped_rot AngleAxis_angle T <? mMinRotation s)%S)),
     s, [Log DEBUG "Translation: %1% / Rotation: %2%"]).
Proof.
  unfold checkMinDistance, bind, message, get, ret, wrapped_rot,
    translation_length. simpl.
  destruct (_ && _); reflexivity.
Qed.

Lemma exec_checkMinDistance (T : Transform F) (s : t F) :
  exec (checkMinDistance AngleAxis_angle T) s =
    (Returned
       (negb ((translation_length T <? mMinTranslation s)%S &&
              (wrapped_rot AngleAxis_angle T <? mMinRotation s)%S)), s).
Proof. unfold exec. rewrite checkMinDistance_run. reflexivity. Qed.

End CheckMinDistance.

Section CheckMinDistanceReal.
Local Open Scope R_scope.
Variable AngleAxis_angle : Matrix3 R -> R.

Lemma Rltb_true (a b : R) : Rltb a b = true <-> a < b.
Proof. unfold Rltb. destruct (Rlt_dec a b); split; auto; discriminate. Qed.

Lemma Rltb_false (a b : R) : Rltb a b = false <-> b <= a.
Proof.
  unfold Rltb. destruct (Rlt_dec a b); split; intros; try discriminate; auto; lra.
Qed.

Lemma PI_R : GraphMapper.PI (F := R) = 3141592654 / 1000000000.
Proof.
  unfold GraphMapper.PI. rewrite lit_R.
  replace (10 ^ Z.of_nat 9)%Z with 1000000000%Z by reflexivity. reflexivity.
Qed.

Lemma PI_pos : 0 < GraphMapper.PI (F := R).
Proof. rewrite PI_R. lra. Qed.

(** The number pi lies between 3.141592653 and the code's constant
    3.141592654: by Machin's formula, summed up to its eleventh and
    twelfth term. *)
Lemma pi_bounds : 3141592653 / 1000000000 < Rtrigo1.PI < 3141592654 / 1000000000.
Proof.
  pose proof (PI_2_3_7_ineq 5) as [Hlo Hup].
  unfold sum_f_R0, tg_alt, PI_2_3_7_tg, Ratan_seq in Hlo, Hup.
  simpl in Hlo, Hup. split; lra.
Qed.

(** The code's adjusted angle, over the real numbers, for an angle of at
    most one turn: the second adjustment is never made. *)
Lemma wrapped_rot_R (T : Transform R) :
  0 <= AngleAxis_angle (linear T) <= 2 * Rtrigo1.PI ->
  wrapped_rot AngleAxis_angle T =
    if Rlt_dec GraphMapper.PI (AngleAxis_angle (linear T))
    then 2 * GraphMapper.PI - AngleAxis_angle (linear T)
    else AngleAxis_angle (linear T).
Proof.
  intros [Hlo Hhi]. pose proof pi_bounds as [Hpl Hpu]. pose proof PI_R as HPI.
  unfold wrapped_rot. cbn [s_ltb s_sub s_add s_mul s_opp s_ofZ R_Scalar].
  set (a := AngleAxis_angle (linear T)) in *.
  unfold Rltb.
  destruct (Rlt_dec GraphMapper.PI a) as [Hgt|Hle].
  - destruct (Rlt_dec (2 * GraphMapper.PI - a) (- GraphMapper.PI)); [lra|reflexivity].
  - destruct (Rlt_dec a (- GraphMapper.PI)); [lra|reflexivity].
Qed.

(** For an angle of at most half a turn, the code's adjusted angle is the
    absolute value of the wrapped angle. *)
Lemma wrapped_rot_half_turn (T : Transform R) :
  0 <= AngleAxis_angle (linear T) <= Rtrigo1.PI ->
  wrapped_rot AngleAxis_angle T = Rabs (wrap_to_pi (AngleAxis_angle (linear T))).
Proof.
  intros [Hlo Hhi]. pose proof pi_bounds as [Hpl Hpu]. pose proof PI_R as HPI.
  rewrite wrapped_rot_R by lra.
  unfold wrap_to_pi.
  set (a := AngleAxis_angle (linear T)) in *.
  destruct (Rlt_dec GraphMapper.PI a) as [Hgt|Hle]; [lra|].
  destruct (Rlt_dec Rtrigo1.PI a); [lra|].
  destruct (Rlt_dec a (- Rtrigo1.PI)); [lra|].
  rewrite Rabs_right by lra. reflexivity.
Qed.

(** For an angle of at most one turn, the code's adjusted angle is at
    least the absolute value of the wrapped angle, and exceeds it by at
    most twice the error of the code's constant. *)
Lemma wrapped_rot_one_turn (T : Transform R) :
  0 <= AngleAxis_angle (linear T) <= 2 * Rtrigo1.PI ->
  Rabs (wrap_to_pi (AngleAxis_angle (linear T))) <= wrapped_rot AngleAxis_angle T
    <= Rabs (wrap_to_pi (AngleAxis_angle (linear T))) + 2 / 1000000000.
Proof.
  intros [Hlo Hhi]. pose proof pi_bounds as [Hpl Hpu]. pose proof PI_R as HPI.
  rewrite wrapped_rot_R by lra.
  unfold wrap_to_pi.
  set (a := AngleAxis_angle (linear T)) in *.
  destruct (Rlt_dec Rtrigo1.PI a) as [Hw|Hw].
  - rewrite (Rabs_left1 (a - 2 * Rtrigo1.PI)) by lra.
    destruct (Rlt_dec GraphMapper.PI a) as [Hgt|Hle]; lra.
  - destruct (Rlt_dec a (- Rtrigo1.PI)); [lra|].
    rewrite (Rabs_right a) by lra.
    destruct (Rlt_dec GraphMapper.PI a) as [Hgt|Hle]; lra.
Qed.

(** Over the real numbers the computed length is the Euclidean norm and
    [<] is the order of the real numbers. *)
Lemma checkMinDistance_false_R (T : Transform R) (s : t R) :
  fst (exec (checkMinDistance AngleAxis_angle T) s) = Returned false <->
  Euclidean_norm (translation T) < mMinTranslation s /\
  wrapped_rot AngleAxis_angle T < mMinRotation s.
Proof.
  rewrite exec_checkMinDistance. cbn [fst].
  change (translation_length T) with (Euclidean_norm (translation T)).
  cbn [s_ltb R_Scalar].
  split.
  - intros [= Hb]. apply negb_false_iff, andb_true_iff in Hb.
    destruct Hb as [Ht Hr]. split; apply Rltb_true; assumption.
  - intros [Ht Hr]. apply Rltb_true in Ht, Hr. rewrite Ht, Hr. reflexivity.
Qed.

End CheckMinDistanceReal.

(** C3. In every arithmetic, IEEE doubles included, [checkMinDistance(T)]
    returns false exactly when the length of the translation of [T] and
    its adjusted rotation angle, both as the code computes them
    ([translation_length], [wrapped_rot]), compare below
    [min_translation] and [min_rotation]. Over the real numbers, where the
    computed length is the Euclidean norm, and for an angle between zero
    and one turn, as Eigen's [AngleAxis] reports it:
    - if the angle is at most half a turn, the method returns false
      exactly when the Euclidean norm of the translation is below
      [min_translation] and the absolute value of the angle wrapped to
      [-pi, pi] is below [min_rotation], both strictly;
    - up to one turn, that condition implies a false result if the
      wrapped angle stays below [min_rotation] by more than 2e-9, twice
      the error of the code's constant 3.141592654;
    - up to one turn, a false result implies that condition. *)
Theorem checkMinDistance_false_iff {F : Type} `{Scalar F}
  (AngleAxis_angle : Matrix3 F -> F) (T : Transform F) (s : t F)
  (angle : Matrix3 R -> R) (TR : Transform R) (sR : t R) :
  (0 <= angle (linear TR) <= 2 * Rtrigo1.PI)%R ->
  (fst (exec (checkMinDistance AngleAxis_angle T) s) = Returned false <->
   (translation_length T <? mMinTranslation s)%S = true /\
   (wrapped_rot AngleAxis_angle T <? mMinRotation s)%S = true) /\
  ((angle (linear TR) <= Rtrigo1.PI)%R ->
   (fst (exec (checkMinDistance angle TR) sR) = Returned false <->
    (Euclidean_norm (translation TR) < mMinTranslation sR)%R /\
    (Rabs (wrap_to_pi (angle (linear TR))) < mMinRotation sR)%R)) /\
  ((Euclidean_norm (translation TR) < mMinTranslation sR)%R /\
   (Rabs (wrap_to_pi (angle (linear TR))) < mMinRotation sR - 2 / 1000000000)%R ->
   fst (exec (checkMinDistance angle TR) sR) = Returned false) /\
  (fst (exec (checkMinDistance angle TR) sR) = Returned false ->
   (Euclidean_norm (translation TR) < mMinTranslation sR)%R /\
   (Rabs (wrap_to_pi (angle (linear TR))) < mMinRotation sR)%R).
Proof.
  intros Hrange. split; [|split; [|split]].
  - rewrite exec_checkMinDistance. cbn [fst]. split.
    + intros [= Hb]. apply negb_false_iff, andb_true_iff in Hb. exact Hb.
    + intros [Ht Hr]. rewrite Ht, Hr. reflexivity.
  - intros Hhalf. rewrite checkMinDistance_false_R.
    rewrite wrapped_rot_half_turn by (split; [apply Hrange | exact Hhalf]).
    reflexivity.
  - intros [Ht Hr]. apply checkMinDistance_false_R. split; [exact Ht|].
    pose proof (wrapped_rot_one_turn angle TR Hrange) as Hd. lra.
  - intros Hf. apply checkMinDistance_false_R in Hf. destruct Hf as [Ht Hr].
    split; [exact Ht|].
    pose proof (wrapped_rot_one_turn angle TR Hrange) as Hd. lra.
Qed.

(** ** The mapper's methods *)

Section Mapper.
Context {F : Type} `{Scalar F}.
Variable AngleAxis_angle : Matrix3 F -> F.
Variable radiusSearch : list (Vector3 F) -> Vector3 F -> F -> list nat.

Lemma set_mCurrentPose_same (s : t F) : s = set_mCurrentPose (mCurrentPose s) s.
Proof. destruct s; reflexivity. Qed.

Ltac run :=
  repeat first
    [ rewrite exec_bind
    | rewrite exec_get
    | rewrite exec_ret
    | rewrite exec_throw
    | rewrite exec_modify
    | rewrite exec_message
    | rewrite exec_deref
    | rewrite exec_call_calculateTransform
    | rewrite exec_checkMinDistance
    | rewrite exec_try_catch
    | progress cbn [fst snd negb] ].

Lemma addVertex_returns (m : Measurement F) (p : Transform F) (s : t F) :
  exists s', exec (addVertex m p) s = (Returned (length (vertices (mPoseGraph s))), s').
Proof.
  unfold addVertex, solver_call. run.
  destruct (mSolver s), (mFirstVertex s); run; eauto.
Qed.

Lemma exec_addEdge source target T c sensor label (s : t F) :
  let edge := {|
    getSourceVertex := source; getTargetVertex := target;
    e_transform := T; e_covariance := c; e_sensor := sensor; e_label := label |} in
  exec (addEdge source target T c sensor label) s = (Returned edge, after_addEdge edge s).
Proof.
  intros edge. unfold addEdge, solver_call, after_addEdge. run.
  destruct s as [g ? ? [calls|] ? ? ? ? ? ? ? ? ? ? ?]; cbn; run; reflexivity.
Qed.

Ltac crush :=
  repeat (run; match goal with
    | |- context [exec (addVertex ?m ?p) ?s] =>
        let s1 := fresh "s" in
        destruct (addVertex_returns m p s) as (s1 & ->)
    | |- context [exec (addEdge _ _ _ _ _ _) _] => rewrite exec_addEdge
    | |- context [match ?x with _ => _ end] =>
        lazymatch x with
        | context [match _ with _ => _ end] => fail
        | _ => destruct x eqn:?
        end
    | |- (_, _) = (_, _) -> _ =>
        let E := fresh in intros E; inversion E; subst; clear E
    end); try discriminate.

(** *** The set of previously matched vertices *)

Lemma exec_previously_matched_loop vertex sensor es acc (s : t F) :
  exec (previously_matched_loop vertex sensor es acc) s =
    (Returned (matched_vertices vertex (Sensor.getName sensor) es acc), s).
Proof.
  revert acc. induction es as [|edge rest IH]; intros acc; simpl.
  - reflexivity.
  - destruct (String.eqb _ _).
    + destruct (Nat.eqb _ _); apply IH.
    + run. apply IH.
Qed.

Lemma matched_vertices_acc vertex name (es : list (EdgeObject F)) acc u :
  u ∈ acc -> u ∈ matched_vertices vertex name es acc.
Proof.
  revert acc. induction es as [|edge rest IH]; intros acc Hu; simpl; [exact Hu|].
  destruct (String.eqb _ _); [destruct (Nat.eqb _ _)|]; apply IH; set_solver.
Qed.

Lemma matched_vertices_edge vertex name (es : list (EdgeObject F)) acc edge :
  In edge es -> e_sensor edge = name ->
  recorded_end vertex edge ∈ matched_vertices vertex name es acc.
Proof.
  revert acc. induction es as [|e rest IH]; intros acc Hin Hname; simpl; [destruct Hin|].
  destruct Hin as [-> | Hin].
  - rewrite (proj2 (String.eqb_eq _ _) Hname). unfold recorded_end.
    destruct (Nat.eqb _ _); apply matched_vertices_acc; set_solver.
  - destruct (String.eqb (e_sensor e) name);
      [destruct (Nat.eqb (getSourceVertex e) vertex)|]; apply IH; assumption.
Qed.

Lemma connected_by_matched name (g : PoseGraph F) v u acc :
  connected_by name g v u ->
  u ∈ matched_vertices v name (edge_iterator_of v g) acc.
Proof.
  intros (edge & Hin & Hname & Hends).
  assert (Hit : In edge (edge_iterator_of v g)).
  { unfold edge_iterator_of. apply filter_In. split; [exact Hin|].
    apply orb_true_iff. destruct Hends as [[Hs _] | [_ Ht]]; [left | right];
      apply Nat.eqb_eq; assumption. }
  pose proof (matched_vertices_edge v name _ acc edge Hit Hname) as Hm.
  unfold recorded_end in Hm.
  destruct Hends as [[Hs Ht] | [Hs Ht]].
  - rewrite (proj2 (Nat.eqb_eq _ _) Hs) in Hm. rewrite <- Ht. exact Hm.
  - destruct (Nat.eqb (getSourceVertex edge) v) eqn:E.
    + apply Nat.eqb_eq in E.
      replace u with (getTargetVertex edge) by congruence. exact Hm.
    + rewrite <- Hs. exact Hm.
Qed.

(** *** The neighbour query leaves the graph alone and always returns *)

Lemma mIndexMap_at_graph row (s : t F) :
  exists p s', exec (mIndexMap_at row) s = (Returned p, s') /\
    mPoseGraph s' = mPoseGraph s /\ mSolver s' = mSolver s.
Proof.
  unfold mIndexMap_at. run.
  destruct (mIndexMap s !! row); run; eauto.
Qed.

Lemma getNearbyVertices_loop_graph rows result (s : t F) :
  exists l s', exec (getNearbyVertices_loop rows result) s = (Returned l, s') /\
    mPoseGraph s' = mPoseGraph s /\ mSolver s' = mSolver s.
Proof.
  revert result s. induction rows as [|row rows IH]; intros result s; simpl.
  - run. eauto.
  - run. destruct (mIndexMap_at_graph row s) as (p & s1 & -> & Hg & Hs).
    destruct (IH (result ++ [p]) s1) as (l & s2 & -> & Hg2 & Hs2).
    exists l, s2. repeat split; congruence.
Qed.

Lemma getNearbyVertices_graph tf radius (s : t F) :
  exists l s', exec (getNearbyVertices radiusSearch tf radius) s = (Returned l, s') /\
    mPoseGraph s' = mPoseGraph s /\ mSolver s' = mSolver s.
Proof.
  unfold getNearbyVertices. run. apply getNearbyVertices_loop_graph.
Qed.

(** *** The loop over the neighbours *)

Lemma after_addEdge_graph edge (s : t F) :
  mPoseGraph (after_addEdge edge s) =
    {| vertices := vertices (mPoseGraph s); edges := edges (mPoseGraph s) ++ [edge] |}.
Proof. unfold after_addEdge. destruct (mSolver s); reflexivity. Qed.

Lemma loop_added_nothing vertex name excluded its bound (s : t F) :
  (0 <= bound)%Z -> loop_added vertex name excluded its bound s s.
Proof.
  intros Hb. exists []. rewrite app_nil_r.
  repeat split; [exact Hb | constructor | apply sublist_nil_l].
Qed.

Lemma loop_added_skip vertex name excluded it its bound (s s' : t F) :
  loop_added vertex name excluded its bound s s' ->
  loop_added vertex name excluded (it :: its) bound s s'.
Proof.
  intros (new & He & Hv & Hl & Hf & Hsub).
  exists new. repeat split; auto. apply sublist_cons, Hsub.
Qed.

Lemma loop_added_edge vertex name excluded its bound edge (s s' : t F) :
  new_match_edge vertex name excluded edge ->
  loop_added vertex name excluded its bound (after_addEdge edge s) s' ->
  loop_added vertex name excluded (Some (getSourceVertex edge) :: its) (bound + 1) s s'.
Proof.
  intros Hedge (new & He & Hv & Hl & Hf & Hsub).
  rewrite after_addEdge_graph in He, Hv. cbn [edges vertices] in He, Hv.
  rewrite <- app_assoc in He.
  exists (edge :: new). split; [exact He|]. split; [exact Hv|]. split; [|split].
  - simpl length. lia.
  - constructor; assumption.
  - simpl. apply sublist_skip, Hsub.
Qed.

Lemma loop_added_bound vertex name excluded its bound bound' (s s' : t F) :
  (bound <= bound')%Z ->
  loop_added vertex name excluded its bound s s' ->
  loop_added vertex name excluded its bound' s s'.
Proof.
  intros Hb (new & He & Hv & Hl & Hf & Hsub).
  exists new. repeat split; auto. lia.
Qed.

Lemma linkToNeighbors_loop_adds vertex sensor max_links excluded its :
  forall added (s : t F) o s',
  exec (linkToNeighbors_loop vertex sensor max_links excluded its added) s = (o, s') ->
  loop_added vertex (Sensor.getName sensor) excluded its
    (Z.max 0 (max_links - added)) s s'.
Proof.
  induction its as [|it rest IH]; intros added s o s'; simpl.
  - run. intros [= <- <-]. apply loop_added_nothing. lia.
  - destruct (added <? max_links)%Z eqn:Hlt.
    2:{ run. intros [= <- <-]. apply loop_added_nothing. lia. }
    apply Z.ltb_lt in Hlt.
    destruct (found_in it excluded) eqn:Hfound.
    { intros Hrun. apply loop_added_skip. exact (IH _ _ _ _ Hrun). }
    assert (Hnone : loop_added vertex (Sensor.getName sensor) excluded (it :: rest)
                      (Z.max 0 (max_links - added)) s' s')
      by (apply loop_added_nothing; lia).
    crush; run; try exact Hnone.
    + (* an edge was added *)
      intros Hrun. apply IH in Hrun.
      eapply loop_added_bound;
        [|eapply (loop_added_edge _ _ _ _ _
                    {| getSourceVertex := _; getTargetVertex := _; e_transform := _;
                       e_covariance := _; e_sensor := _; e_label := _ |});
          [|exact Hrun]].
      * lia.
      * repeat split. cbn. unfold found_in in Hfound.
        apply bool_decide_eq_false in Hfound. exact Hfound.
    + (* no match *)
      intros Hrun. apply loop_added_skip. exact (IH _ _ _ _ Hrun).
Qed.

Lemma new_match_edge_loop_closure (g : PoseGraph F) vertex name acc edge :
  vertex ∈ acc ->
  new_match_edge vertex name
    (matched_vertices vertex name (edge_iterator_of vertex g) acc) edge ->
  loop_closure_edge g vertex name edge.
Proof.
  intros Hacc (Hl & Hs & Ht & Hnot). repeat split; auto.
  - intros Heq. apply Hnot. rewrite Heq. apply matched_vertices_acc, Hacc.
  - intros Hc. apply Hnot. apply connected_by_matched, Hc.
Qed.

Lemma linkToNeighbors_adds vertex sensor max_links (s : t F) :
  let s' := snd (exec (linkToNeighbors radiusSearch vertex sensor max_links) s) in
  exists added,
    edges (mPoseGraph s') = edges (mPoseGraph s) ++ added /\
    vertices (mPoseGraph s') = vertices (mPoseGraph s) /\
    (Z.of_nat (length added) <= Z.max 0 max_links)%Z /\
    Forall (loop_closure_edge (mPoseGraph s) vertex (Sensor.getName sensor)) added /\
    (forall v neighbors s1,
       vertices (mPoseGraph s) !! vertex = Some v ->
       exec (getNearbyVertices radiusSearch (corrected_pose v) (mNeighborRadius s)) s =
         (Returned neighbors, s1) ->
       sublist (map (fun edge => Some (getSourceVertex edge)) added) neighbors).
Proof.
  assert (Hnone : exists added : list (EdgeObject F),
    edges (mPoseGraph s) = edges (mPoseGraph s) ++ added /\
    vertices (mPoseGraph s) = vertices (mPoseGraph s) /\
    (Z.of_nat (length added) <= Z.max 0 max_links)%Z /\
    Forall (loop_closure_edge (mPoseGraph s) vertex (Sensor.getName sensor)) added /\
    (forall v neighbors s1,
       vertices (mPoseGraph s) !! vertex = Some v ->
       exec (getNearbyVertices radiusSearch (corrected_pose v) (mNeighborRadius s)) s =
         (Returned neighbors, s1) ->
       sublist (map (fun edge => Some (getSourceVertex edge)) added) neighbors)).
  { exists []. rewrite app_nil_r.
    repeat split; [simpl; lia | constructor | intros; apply sublist_nil_l]. }
  unfold linkToNeighbors. run. rewrite exec_previously_matched_loop. run.
  destruct (vertices (mPoseGraph s) !! vertex) as [v|] eqn:Hvertex; run; [|exact Hnone].
  destruct (getNearbyVertices_graph (corrected_pose v) (mNeighborRadius s) s)
    as (neighbors & s1 & Hnear & Hg & _).
  rewrite Hnear. run.
  destruct (exec (linkToNeighbors_loop _ _ _ _ _ _) s1) as [o s'] eqn:Hrun.
  apply linkToNeighbors_loop_adds in Hrun as (new & He & Hv & Hl & Hf & Hsub).
  rewrite Hg in He, Hv. cbn [snd].
  exists new. split; [exact He|]. split; [exact Hv|]. split; [|split].
  - rewrite Z.sub_0_r in Hl. exact Hl.
  - eapply List.Forall_impl; [|exact Hf].
    intros edge. apply new_match_edge_loop_closure. set_solver.
  - intros v' neighbors' s1' [= <-] Hnear'. rewrite Hnear in Hnear'.
    injection Hnear' as <- _. exact Hsub.
Qed.

(** When the neighbour search reports no vertex twice, no two of the
    added edges come from the same vertex. *)
Lemma linkToNeighbors_distinct_sources vertex sensor max_links (s : t F)
  v neighbors s1 :
  vertices (mPoseGraph s) !! vertex = Some v ->
  exec (getNearbyVertices radiusSearch (corrected_pose v) (mNeighborRadius s)) s =
    (Returned neighbors, s1) ->
  NoDup neighbors ->
  let s' := snd (exec (linkToNeighbors radiusSearch vertex sensor max_links) s) in
  exists added,
    edges (mPoseGraph s') = edges (mPoseGraph s) ++ added /\
    NoDup (map getSourceVertex added).
Proof.
  intros Hvertex Hnear Hnodup.
  destruct (linkToNeighbors_adds vertex sensor max_links s)
    as (added & He & _ & _ & _ & Hsub).
  exists added. split; [exact He|].
  specialize (Hsub _ _ _ Hvertex Hnear).
  pose proof (sublist_NoDup _ _ Hnodup Hsub) as Hnd.
  rewrite <- (List.map_map getSourceVertex Some) in Hnd.
  exact (NoDup_fmap_1 Some _ Hnd).
Qed.

(** C8. One call of [linkToNeighbors] with [max_links = 5], however it
    ends, leaves the edges that were in the graph and adds at most five;
    each added edge is labelled "match" and goes into [vertex] from a
    different vertex that no edge of the matching sensor connected to
    [vertex] when the call began. *)
Theorem linkToNeighbors_adds_at_most_five_new_matches
  (vertex : nat) (sensor : Sensor.t F) (s : t F) :
  let s' := snd (exec (linkToNeighbors radiusSearch vertex sensor 5) s) in
  exists added,
    edges (mPoseGraph s') = edges (mPoseGraph s) ++ added /\
    length added <= 5 /\
    Forall (loop_closure_edge (mPoseGraph s) vertex (Sensor.getName sensor)) added.
Proof.
  destruct (linkToNeighbors_adds vertex sensor 5 s) as (added & He & _ & Hl & Hf & _).
  exists added. repeat split; auto. lia.
Qed.

(** ** [addReading] *)

(** C9. A reading whose sensor name is not in the registry is rejected:
    [addReading] returns false, logs one error and leaves the whole state
    of the mapper, the pose graph included, as it was. *)
Theorem addReading_unregistered_sensor (m : Measurement F) (s : t F) :
  mSensors s !! getSensorName m = None ->
  addReading AngleAxis_angle radiusSearch m s =
    (Returned false, s, [Log ERROR "Sensor '%1%' has not been registered!"]).
Proof.
  intros Hnone. unfold addReading, bind, get. rewrite Hnone. reflexivity.
Qed.

(** A rejected reading changes nothing but, possibly, the current pose. *)
Lemma addReading_rejection (m : Measurement F) (s s' : t F) :
  exec (addReading AngleAxis_angle radiusSearch m) s = (Returned false, s') ->
  s' = set_mCurrentPose (mCurrentPose s') s.
Proof.
  unfold addReading. crush; first [reflexivity | apply set_mCurrentPose_same].
Qed.

(** C1, as the code has it. When [addReading] returns false, the pose
    graph (vertices and edges), [last_vertex], [first_vertex] and
    [last_odometric_pose] are as before the call, and so is every other
    member except [current_pose]. *)
Theorem addReading_rejection_keeps_graph_and_vertices
  (m : Measurement F) (s s' : t F) :
  exec (addReading AngleAxis_angle radiusSearch m) s = (Returned false, s') ->
  vertices (mPoseGraph s') = vertices (mPoseGraph s) /\
  edges (mPoseGraph s') = edges (mPoseGraph s) /\
  mLastVertex s' = mLastVertex s /\
  mFirstVertex s' = mFirstVertex s /\
  mLastOdometricPose s' = mLastOdometricPose s /\
  s' = set_mCurrentPose (mCurrentPose s') s.
Proof.
  intros Hrun. apply addReading_rejection in Hrun.
  rewrite Hrun at 1 2 3 4 5. repeat split; [reflexivity..|exact Hrun].
Qed.

End Mapper.

(** ** Over the real numbers *)

Section CheckMinDistanceScenario.
Import RealScenario.
Local Open Scope R_scope.

(** The angle of the real numbers is at most half a turn. *)
Lemma rotation_angle_range (m : Matrix3 R) :
  0 <= rotation_angle m <= Rtrigo1.PI.
Proof. unfold rotation_angle. apply acos_bound. Qed.

Lemma rotation_angle_identity : rotation_angle Matrix3_Identity = 0.
Proof.
  unfold rotation_angle, trace, Matrix3_Identity. cbn.
  replace ((1 + 1 + 1 - 1) / 2) with 1 by lra. apply acos_1.
Qed.

Lemma slight_norm : Euclidean_norm (translation slight) = 5 / 100.
Proof.
  unfold Euclidean_norm, slight. cbn.
  replace (3 / 100 * (3 / 100) + 4 / 100 * (4 / 100) + 0 * 0)
    with ((5 / 100) * (5 / 100)) by lra.
  apply sqrt_square. lra.
Qed.

Lemma fresh_mapper_thresholds :
  mMinTranslation fresh_mapper = 1 / 2 /\ mMinRotation fresh_mapper = 1 / 10.
Proof.
  split.
  - exact half_R.
  - change (mMinRotation fresh_mapper) with (lit (F := R) 1 1).
    rewrite lit_R. replace (10 ^ Z.of_nat 1)%Z with 10%Z by reflexivity. reflexivity.
Qed.

(** C3 at a step of a quarter of a metre on doubles and, over the real
    numbers, at a step of five centimetres with an angle of 6.2 radians:
    the angle wraps to about -0.083, the step and the wrapped angle are
    below the thresholds of a fresh mapper, and [checkMinDistance]
    returns false on both. *)
Lemma checkMinDistance_false_iff_witness :
  (0 <= almost_one_turn (linear slight) <= 2 * Rtrigo1.PI) /\
  fst (exec (checkMinDistance Scenario.no_rotation (Scenario.shift 0.25 0 0))
         Scenario.start) = Returned false /\
  wrap_to_pi (almost_one_turn (linear slight)) = 62 / 10 - 2 * Rtrigo1.PI /\
  Euclidean_norm (translation slight) < mMinTranslation fresh_mapper /\
  Rabs (wrap_to_pi (almost_one_turn (linear slight)))
    < mMinRotation fresh_mapper - 2 / 1000000000 /\
  fst (exec (checkMinDistance almost_one_turn slight) fresh_mapper) = Returned false.
Proof.
  pose proof pi_bounds as [Hpl Hpu].
  destruct fresh_mapper_thresholds as [HminT HminR].
  assert (Hrange : 0 <= almost_one_turn (linear slight) <= 2 * Rtrigo1.PI).
  { unfold almost_one_turn. lra. }
  assert (Hwrap : wrap_to_pi (almost_one_turn (linear slight))
                  = 62 / 10 - 2 * Rtrigo1.PI).
  { unfold wrap_to_pi, almost_one_turn.
    destruct (Rlt_dec Rtrigo1.PI (62 / 10)); [reflexivity|lra]. }
  assert (Hnorm : Euclidean_norm (translation slight) < mMinTranslation fresh_mapper).
  { rewrite slight_norm, HminT. lra. }
  assert (Hrot : Rabs (wrap_to_pi (almost_one_turn (linear slight)))
                 < mMinRotation fresh_mapper - 2 / 1000000000).
  { rewrite HminR, Hwrap. rewrite Rabs_left1 by lra. lra. }
  pose proof (checkMinDistance_false_iff Scenario.no_rotation (Scenario.shift 0.25 0 0)
                Scenario.start almost_one_turn slight fresh_mapper Hrange)
    as (Hcode & _ & Hfalse & _).
  split; [exact Hrange|].
  split; [|split; [exact Hwrap|split; [exact Hnorm|split; [exact Hrot|]]]].
  - apply Hcode. split; vm_compute; reflexivity.
  - apply Hfalse. split; [exact Hnorm | exact Hrot].
Defined.

(** On doubles the computed length is rounded, and the claim fails as it
    is stated. The step [short_step] is shorter than half a metre, the
    threshold of the mapper [start], and is not rotated; its squares sum
    up to a number that rounds to a quarter, the computed length is
    exactly half a metre, which is not below the threshold, and
    [checkMinDistance] returns true. *)
Lemma checkMinDistance_rounds_translation_length :
  fst (exec (checkMinDistance Scenario.no_rotation Scenario.short_step) Scenario.start)
    = Returned true /\
  Euclidean_norm (Vector3_to_R (translation Scenario.short_step))
    < float_to_R (mMinTranslation Scenario.start) /\
  Rabs (wrap_to_pi (float_to_R (Scenario.no_rotation (linear Scenario.short_step))))
    < float_to_R (mMinRotation Scenario.start).
Proof.
  split; [vm_compute; reflexivity|]. split.
  - change (float_to_R (mMinTranslation Scenario.start))
      with (IZR 4503599627370496 / IZR 9007199254740992).
    change (Vector3_to_R (translation Scenario.short_step))
      with (Vec3 (IZR 5044031582654956 / IZR 36028797018963968)
                 (IZR 8646911284551352 / IZR 18014398509481984) 0).
    unfold Euclidean_norm. cbn [vx vy vz].
    replace (IZR 4503599627370496 / IZR 9007199254740992) with (sqrt ((1 / 2) * (1 / 2))).
    2:{ rewrite sqrt_square by lra. lra. }
    apply sqrt_lt_1_alt. split; [nra|]. lra.
  - change (float_to_R (Scenario.no_rotation (linear Scenario.short_step))) with 0.
    change (float_to_R (mMinRotation Scenario.start))
      with (IZR 7205759403792794 / IZR 72057594037927936).
    pose proof pi_bounds as [Hpl Hpu].
    unfold wrap_to_pi.
    destruct (Rlt_dec Rtrigo1.PI 0); [lra|].
    destruct (Rlt_dec 0 (- Rtrigo1.PI)); [lra|].
    rewrite Rabs_R0. lra.
Qed.

(** The condition on the angle cannot be dropped. For a negative angle,
    which Eigen does not report, the code compares the angle itself and
    not its absolute value: it returns false although the absolute value
    is above the threshold. *)
Remark checkMinDistance_negative_angle :
  let angle := fun _ : Matrix3 R => -1 in
  fst (exec (checkMinDistance angle Transform_Identity) fresh_mapper)
    = Returned false /\
  ~ Rabs (wrap_to_pi (angle (linear Transform_Identity))) < mMinRotation fresh_mapper.
Proof.
  pose proof PI_pos as Hpi. pose proof PI_R as HPI.
  pose proof pi_bounds as [Hpl Hpu].
  destruct fresh_mapper_thresholds as [HminT HminR].
  cbv zeta. split.
  - rewrite exec_checkMinDistance. cbn [fst]. do 2 f_equal.
    apply negb_false_iff, andb_true_iff. split.
    + apply Rltb_true. rewrite HminT. unfold translation_length. cbn.
      replace (0 * 0 + 0 * 0 + 0 * 0) with 0 by lra. rewrite sqrt_0. lra.
    + rewrite HminR.
      unfold wrapped_rot. cbn [s_ltb s_sub s_add s_mul s_opp s_ofZ R_Scalar].
      rewrite (proj2 (Rltb_false GraphMapper.PI (-1))) by lra.
      rewrite (proj2 (Rltb_false (-1) (- GraphMapper.PI))) by (rewrite HPI; lra).
      apply Rltb_true. lra.
  - rewrite HminR. unfold wrap_to_pi.
    destruct (Rlt_dec Rtrigo1.PI (-1)); [lra|].
    destruct (Rlt_dec (-1) (- Rtrigo1.PI)); [lra|].
    rewrite Rabs_left by lra. lra.
Qed.

End CheckMinDistanceScenario.

(** ** On doubles *)

Section MapperScenario.
Import Scenario.
Local Open Scope float_scope.

(** The mapper [start] is what registering the sensor and setting the
    odometry make of a new mapper. *)
Lemma start_reached :
  exec (bind (registerSensor blind_velodyne) (fun _ => setOdometry odometer false))
    (new (shift 7 7 7)) = (Returned tt, start).
Proof. vm_compute. reflexivity. Qed.

(** The first scan is accepted, whatever Eigen and flann compute. *)
Lemma first_scan_accepted :
  forall angle radiusSearch,
    addReading angle radiusSearch (scan 0 0) start =
      (Returned true, after_first_scan,
       [Log DEBUG "Add reading from own Sensor '%1%'.";
        Log INFO "Added first node to the graph."]).
Proof. intros. vm_compute. reflexivity. Qed.

(** The second scan is rejected, whatever Eigen and flann compute: the
    odometry has moved by one metre, which passes the minimum-distance
    test, and the sensor finds no match. *)
Lemma second_scan_rejected :
  forall angle radiusSearch,
    exec (addReading angle radiusSearch (scan 1 1)) after_first_scan =
      (Returned false, after_second_scan).
Proof. intros. vm_compute. reflexivity. Qed.

(** C1 as stated fails at the second scan: [addReading] returns false,
    and the current pose, the identity before the call, is one metre
    ahead after it. *)
Lemma addReading_rejection_moves_current_pose :
  (forall angle radiusSearch,
     exec (addReading angle radiusSearch (scan 1 1)) after_first_scan =
       (Returned false, after_second_scan)) /\
  mCurrentPose after_first_scan = Transform_Identity /\
  mCurrentPose after_second_scan = shift 1 0 0 /\
  mCurrentPose after_second_scan <> mCurrentPose after_first_scan.
Proof.
  split; [exact second_scan_rejected|]. split; [reflexivity|]. split; [reflexivity|].
  intros Heq.
  apply (f_equal (fun t => Transform_eqb t Transform_Identity)) in Heq.
  vm_compute in Heq. discriminate.
Qed.

(** The minimum-distance test does the same: with an odometry that has
    moved by a quarter of a metre and not turned, the reading is rejected
    at line 238, after line 236 has moved the current pose. *)
Example small_motion_moves_current_pose :
  forall radiusSearch,
    exec (addReading no_rotation radiusSearch (scan 1 1)) creeping =
      (Returned false, set_mCurrentPose (shift 0.25 0 0) creeping).
Proof. intros. vm_compute. reflexivity. Qed.

(** C1, as the code has it, at the second scan. *)
Lemma addReading_rejection_witness :
  exec (addReading no_rotation rows_within (scan 1 1)) after_first_scan =
    (Returned false, after_second_scan) /\
  vertices (mPoseGraph after_second_scan) = vertices (mPoseGraph after_first_scan) /\
  edges (mPoseGraph after_second_scan) = edges (mPoseGraph after_first_scan) /\
  mLastVertex after_second_scan = mLastVertex after_first_scan /\
  mFirstVertex after_second_scan = mFirstVertex after_first_scan /\
  mLastOdometricPose after_second_scan = mLastOdometricPose after_first_scan /\
  after_second_scan = set_mCurrentPose (mCurrentPose after_second_scan) after_first_scan.
Proof.
  split; [apply second_scan_rejected|].
  exact (addReading_rejection_keeps_graph_and_vertices no_rotation rows_within
           (scan 1 1) after_first_scan after_second_scan
           (second_scan_rejected no_rotation rows_within)).
Defined.

(** C9 at a new mapper, which has no sensor. *)
Lemma addReading_unregistered_sensor_witness :
  mSensors (new (shift 7 7 7)) !! getSensorName (scan 0 0) = None /\
  addReading no_rotation rows_within (scan 0 0) (new (shift 7 7 7)) =
    (Returned false, new (shift 7 7 7),
     [Log ERROR "Sensor '%1%' has not been registered!"]).
Proof.
  split; [reflexivity|].
  exact (addReading_unregistered_sensor no_rotation rows_within
           (scan 0 0) (new (shift 7 7 7)) eq_refl).
Defined.

(** Loop closure, with a sensor that always matches. Three scans close
    to each other: each is linked to those before it, not to itself. *)
Example loop_closure_edges :
  map ends
    (edges (mPoseGraph
       (after_readings
          [(scan 0 0, shift 0 0 0); (scan 1 1, shift 0.5 0 0); (scan 2 2, shift 0.25 0 0)])))
  = [(0, 1, "velodyne", "match"); (0, 2, "velodyne", "match");
     (1, 2, "velodyne", "match")]%nat.
Proof. vm_compute. reflexivity. Qed.

(** Asked for the edges of a camera, [getEdgesFromSensor] returns these
    edges of the velodyne. *)
Example getEdgesFromSensor_other_sensor :
  map ends
    (getEdgesFromSensor "camera"
       (after_readings
          [(scan 0 0, shift 0 0 0); (scan 1 1, shift 0.5 0 0); (scan 2 2, shift 0.25 0 0)]))
  = [(0, 1, "velodyne", "match"); (0, 2, "velodyne", "match");
     (1, 2, "velodyne", "match")]%nat.
Proof. vm_compute. reflexivity. Qed.

(** Seven scans at one place: the seventh finds six neighbours and is
    linked to five of them. *)
Example loop_closure_stops_at_five :
  let s := after_readings (map (fun i => (scan i (Z.of_nat i), shift 0 0 0)) (seq 0 6)) in
  let s' := snd (exec (addExternalReading rows_within (scan 6 6) (shift 0 0 0)) s) in
  length (edges (mPoseGraph s)) = 15%nat /\
  map ends (skipn 15 (edges (mPoseGraph s'))) =
    [(0, 6, "velodyne", "match"); (1, 6, "velodyne", "match");
     (2, 6, "velodyne", "match"); (3, 6, "velodyne", "match");
     (4, 6, "velodyne", "match")]%nat.
Proof. vm_compute. split; reflexivity. Qed.

End MapperScenario.

End GraphMapperProperties.

(* ===================================================================== *)
(** * Further properties of [GraphMapper] and [getAccumulatedCloud] *)
(* ===================================================================== *)

(** The methods are run symbolically: every way through a method ends in
    a state written with the setters, [after_addVertex] and
    [with_new_edges], from which the properties are read off. *)
Module GraphMapperFurther.
Import GraphMapper GraphMapperProperties.

(** One step of a run: the equation of the next primitive. *)
Ltac run :=
  repeat first
    [ rewrite exec_bind
    | rewrite exec_get
    | rewrite exec_ret
    | rewrite exec_throw
    | rewrite exec_modify
    | rewrite exec_message
    | rewrite exec_deref
    | rewrite exec_call_calculateTransform
    | rewrite exec_checkMinDistance
    | rewrite exec_try_catch
    | progress cbn [fst snd negb] ].

(** ** The state after each method that a method calls *)

Section Steps.
Context {F : Type} `{Scalar F}.
Variable AngleAxis_angle : Matrix3 F -> F.
Variable radiusSearch : list (Vector3 F) -> Vector3 F -> F -> list nat.

(** [addVertex] always returns, with the id that was the number of
    vertices. *)
Lemma exec_addVertex (m : Measurement F) (p : Transform F) (s : t F) :
  exec (addVertex m p) s =
    (Returned (length (vertices (mPoseGraph s))), after_addVertex m p s).
Proof.
  unfold addVertex, solver_call, after_addVertex. run.
  destruct s as [g ? ? [calls|] ? ? ? ? ? [first|] ? ? ? ? ?]; cbn; run; cbn;
    try reflexivity.
  - rewrite <- app_assoc. reflexivity.
Qed.

(** [after_addEdge], without the case distinction on the solver. *)
Lemma after_addEdge_eq (edge : EdgeObject F) (s : t F) :
  after_addEdge edge s =
    set_mSolver
      (option_map
         (fun calls =>
            calls ++ [addConstraint (getSourceVertex edge) (getTargetVertex edge)
                        (e_transform edge) (e_covariance edge)])
         (mSolver s))
      (set_mPoseGraph
         {| vertices := vertices (mPoseGraph s);
            edges := edges (mPoseGraph s) ++ [edge] |} s).
Proof.
  unfold after_addEdge. destruct s as [g ? ? [calls|] ? ? ? ? ? ? ? ? ? ? ?]; reflexivity.
Qed.

(** *** Vertices by sensor *)

Lemma In_combine_seq {A} (l : list A) (a id : nat) (x : A) :
  In (id, x) (combine (seq a (length l)) l) <-> (a <= id)%nat /\ l !! (id - a)%nat = Some x.
Proof.
  revert a. induction l as [|y l IH]; intros a; simpl.
  - split; [intros [] | intros [_ [=]]].
  - rewrite IH. split.
    + intros [[= <- <-] | [Hle Hl]].
      * split; [lia|]. replace (a - a)%nat with 0%nat by lia. reflexivity.
      * split; [lia|]. replace (id - a)%nat with (S (id - S a)) by lia. exact Hl.
    + intros [Hle Hl]. destruct (decide (id = a)) as [->|Hne].
      * left. replace (a - a)%nat with 0%nat in Hl by lia. simpl in Hl. congruence.
      * right. split; [lia|].
        replace (id - a)%nat with (S (id - S a)) in Hl by lia. exact Hl.
Qed.

Lemma vertex_iterator_In (g : PoseGraph F) (id : nat) (v : VertexObject F) :
  In (id, v) (vertex_iterator g) <-> vertices g !! id = Some v.
Proof.
  unfold vertex_iterator. rewrite In_combine_seq, Nat.sub_0_r.
  split; [intros [_ Hv]; exact Hv | intros Hv; split; [lia | exact Hv]].
Qed.

Lemma sensor_vertex_ids_In (sensor : string) (g : PoseGraph F) (id : nat) :
  In id (sensor_vertex_ids sensor g) <->
  exists v, vertices g !! id = Some v /\ getSensorName (measurement v) = sensor.
Proof.
  unfold sensor_vertex_ids. rewrite in_map_iff. split.
  - intros ([id' v] & Hid & Hin). simpl in Hid. subst id'.
    apply filter_In in Hin as [Hin Hs]. simpl in Hs.
    exists v. split; [apply vertex_iterator_In, Hin | apply String.eqb_eq, Hs].
  - intros (v & Hv & Hs). exists (id, v). split; [reflexivity|].
    apply filter_In. split; [apply vertex_iterator_In, Hv | apply String.eqb_eq, Hs].
Qed.

Lemma getVerticesFromSensor_fold (sensor : string)
  (l : list (nat * VertexObject F)) (acc : VertexList) :
  fold_left
    (fun vertexList '(id, vertex) =>
       if String.eqb (getSensorName (measurement vertex)) sensor
       then vertexList ++ [Some id]
       else vertexList)
    l acc =
  acc ++ map Some (map fst (List.filter
           (fun iv => String.eqb (getSensorName (measurement (snd iv))) sensor) l)).
Proof.
  revert acc. induction l as [|[id v] l IH]; intros acc; simpl.
  - rewrite app_nil_r. reflexivity.
  - rewrite IH. destruct (String.eqb _ _); simpl; [|reflexivity].
    rewrite <- app_assoc. reflexivity.
Qed.

Lemma getVerticesFromSensor_ids (sensor : string) (s : t F) :
  getVerticesFromSensor sensor s = map Some (sensor_vertex_ids sensor (mPoseGraph s)).
Proof.
  unfold getVerticesFromSensor, sensor_vertex_ids.
  rewrite getVerticesFromSensor_fold. reflexivity.
Qed.

(** *** The neighbour index *)

Lemma sensor_vertices_In (sensor : string) (g : PoseGraph F) id v :
  In (id, v) (sensor_vertices sensor g) <->
  vertices g !! id = Some v /\ getSensorName (measurement v) = sensor.
Proof.
  unfold sensor_vertices. rewrite filter_In, vertex_iterator_In. simpl.
  rewrite String.eqb_eq. reflexivity.
Qed.

Lemma buildNeighborIndex_loop_exec (ivs : list (nat * VertexObject F)) :
  forall row points (s : t F),
  (forall id v, In (id, v) ivs -> vertices (mPoseGraph s) !! id = Some v) ->
  (forall k, (row <= k)%nat -> mIndexMap s !! k = None) ->
  exec (buildNeighborIndex_loop (map (fun iv => Some (fst iv)) ivs) row points) s =
    (Returned (points ++ map (fun iv => vertex_point (snd iv)) ivs),
     set_mIndexMap (map_seq row (map (fun iv => Some (fst iv)) ivs) ∪ mIndexMap s) s).
Proof.
  induction ivs as [|[id v] ivs IH]; intros row points s Hvalid Hfree; simpl.
  - run. rewrite app_nil_r, (left_id_L ∅ (∪)). destruct s; reflexivity.
  - run. rewrite (Hvalid id v) by (left; reflexivity). run.
    unfold map_insert_new at 1. rewrite (Hfree row) by lia.
    rewrite IH.
    + cbn [mIndexMap set_mIndexMap]. rewrite <- app_assoc. simpl.
      f_equal. 
      rewrite <- insert_union_r by (apply lookup_map_seq_None; lia).
      rewrite insert_union_l. reflexivity.
    + intros id' v' Hin. apply Hvalid. right. exact Hin.
    + intros k Hk. cbn [mIndexMap set_mIndexMap].
      rewrite lookup_insert_ne by lia. apply Hfree. lia.
Qed.

Lemma exec_buildNeighborIndex (sensor : string) (s : t F) :
  exec (buildNeighborIndex sensor) s =
    (Returned tt,
     set_mIndex (map (fun iv => vertex_point (snd iv)) (sensor_vertices sensor (mPoseGraph s)))
       (set_mIndexMap
          (map_seq 0 (map (fun iv => Some (fst iv)) (sensor_vertices sensor (mPoseGraph s))))
          s)).
Proof.
  unfold buildNeighborIndex. run.
  rewrite getVerticesFromSensor_ids. unfold sensor_vertex_ids.
  fold (sensor_vertices sensor (mPoseGraph s)). rewrite map_map.
  rewrite buildNeighborIndex_loop_exec.
  - run. cbn [mIndexMap set_mIndexMap]. rewrite (right_id_L ∅ (∪)). reflexivity.
  - intros id v Hin. apply sensor_vertices_In in Hin as [Hv _]. exact Hv.
  - intros k _. apply lookup_empty.
Qed.

(** *** The neighbour query *)

Lemma exec_mIndexMap_at (row : nat) (s : t F) :
  exec (mIndexMap_at row) s =
    match mIndexMap s !! row with
    | Some p => (Returned p, s)
    | None => (Returned None, set_mIndexMap (<[row := None]> (mIndexMap s)) s)
    end.
Proof.
  unfold mIndexMap_at. run. destruct (mIndexMap s !! row); run; reflexivity.
Qed.

Lemma getNearbyVertices_loop_frame rows : forall result (s : t F),
  exists neighbors index_map,
    exec (getNearbyVertices_loop rows result) s =
      (Returned neighbors, set_mIndexMap index_map s) /\
    length neighbors = (length result + length rows)%nat.
Proof.
  induction rows as [|row rows IH]; intros result s; simpl.
  - run. exists result, (mIndexMap s). split; [destruct s; reflexivity | lia].
  - run. rewrite exec_mIndexMap_at.
    destruct (mIndexMap s !! row) as [p|]; run.
    + destruct (IH (result ++ [p]) s) as (l & mp & -> & Hlen).
      exists l, mp. split; [reflexivity|]. rewrite Hlen, length_app. simpl. lia.
    + match goal with
      | |- context [exec _ ?s1] =>
          destruct (IH (result ++ [None]) s1) as (l & mp & Hrun & Hlen)
      end.
      exists l, mp. split; [exact Hrun|]. rewrite Hlen, length_app. simpl. lia.
Qed.

Lemma getNearbyVertices_frame tf radius (s : t F) :
  exists neighbors index_map,
    exec (getNearbyVertices radiusSearch tf radius) s =
      (Returned neighbors, set_mIndexMap index_map s).
Proof.
  unfold getNearbyVertices. run.
  destruct (getNearbyVertices_loop_frame
              (radiusSearch (mIndex s)
                 (Vec3 (vcoeff (translation tf) 0) (vcoeff (translation tf) 1)
                    (vcoeff (translation tf) 2)) radius) [] s)
    as (l & mp & Hrun & _).
  exists l, mp. exact Hrun.
Qed.

Lemma getNearbyVertices_loop_found rows : forall ps result (s : t F),
  Forall2 (fun row p => mIndexMap s !! row = Some p) rows ps ->
  exec (getNearbyVertices_loop rows result) s = (Returned (result ++ ps), s).
Proof.
  induction rows as [|row rows IH]; intros ps result s Hrows;
    inversion Hrows as [|? p ? ps' Hp Hrest]; subst; cbn [getNearbyVertices_loop].
  - run. rewrite app_nil_r. reflexivity.
  - run. rewrite exec_mIndexMap_at, Hp. run.
    rewrite (IH ps') by assumption. rewrite <- app_assoc. reflexivity.
Qed.

(** *** Edges added one after the other *)

Lemma with_new_edges_nil (s : t F) : with_new_edges [] s = s.
Proof.
  unfold with_new_edges. destruct s as [[vs es] ? ? [calls|] ? ? ? ? ? ? ? ? ? ? ?];
    cbn; rewrite ?app_nil_r; reflexivity.
Qed.

Lemma with_new_edges_app (l1 l2 : list (EdgeObject F)) (s : t F) :
  with_new_edges l2 (with_new_edges l1 s) = with_new_edges (l1 ++ l2) s.
Proof.
  unfold with_new_edges. destruct s as [[vs es] ? ? [calls|] ? ? ? ? ? ? ? ? ? ? ?];
    cbn; rewrite ?map_app, <- ?app_assoc; reflexivity.
Qed.

Lemma after_addEdge_with_new_edges (edge : EdgeObject F) (s : t F) :
  after_addEdge edge s = with_new_edges [edge] s.
Proof. rewrite after_addEdge_eq. reflexivity. Qed.

Lemma set_mIndexMap_same (s : t F) : s = set_mIndexMap (mIndexMap s) s.
Proof. destruct s; reflexivity. Qed.

(** *** The effect of the loop over the neighbours *)

Lemma linkToNeighbors_loop_effect vertex sensor max_links excluded its :
  forall added (s : t F),
  exists o new,
    exec (linkToNeighbors_loop vertex sensor max_links excluded its added) s =
      (o, with_new_edges new s) /\
    o <> Threw NoMatch /\
    Forall (fun edge =>
              (getSourceVertex edge < length (vertices (mPoseGraph s)))%nat /\
              getTargetVertex edge = vertex /\
              (vertex < length (vertices (mPoseGraph s)))%nat) new.
Proof.
  induction its as [|it rest IH]; intros added s; cbn [linkToNeighbors_loop].
  - run. exists (Returned tt), []. rewrite with_new_edges_nil. repeat split; [discriminate|constructor].
  - assert (Hstop : forall e, e <> NoMatch ->
      exists (o : Outcome unit) new,
        (Threw e, s) = (o, with_new_edges new s) /\ o <> Threw NoMatch /\
        Forall (fun edge =>
              (getSourceVertex edge < length (vertices (mPoseGraph s)))%nat /\
              getTargetVertex edge = vertex /\
              (vertex < length (vertices (mPoseGraph s)))%nat) new).
    { intros e He. exists (Threw e), []. rewrite with_new_edges_nil.
      repeat split; [congruence|constructor]. }
    destruct (added <? max_links)%Z.
    2:{ run. exists (Returned tt), []. rewrite with_new_edges_nil.
        repeat split; [discriminate|constructor]. }
    destruct (found_in it excluded); [apply IH|].
    run. destruct it as [source|]; [|run; apply Hstop; discriminate].
    destruct (vertices (mPoseGraph s) !! source) as [candidate|] eqn:Hsource;
      [|run; apply Hstop; discriminate].
    run.
    destruct (vertices (mPoseGraph s) !! vertex) as [v|] eqn:Hvertex;
      [|run; apply Hstop; discriminate].
    run.
    destruct (snd (Sensor.calculateTransform sensor _ _ _)) as [twc|e]; run.
    + rewrite exec_addEdge. run. rewrite after_addEdge_with_new_edges.
      match goal with
      | |- context [exec (linkToNeighbors_loop _ _ _ _ _ ?a) (with_new_edges [?e] s)] =>
          destruct (IH a (with_new_edges [e] s)) as (o & new & Hrun & Ho & Hnew);
          exists o, (e :: new)
      end.
      rewrite Hrun, with_new_edges_app. split; [reflexivity|]. split; [exact Ho|].
      constructor.
      * cbn. apply lookup_lt_Some in Hsource, Hvertex. auto.
      * exact Hnew.
    + destruct e; run; try (apply Hstop; discriminate). apply IH.
Qed.

Lemma linkToNeighbors_effect vertex sensor max_links (s : t F) :
  exists o index_map new,
    exec (linkToNeighbors radiusSearch vertex sensor max_links) s =
      (o, with_new_edges new (set_mIndexMap index_map s)) /\
    o <> Threw NoMatch /\
    (Z.of_nat (length new) <= Z.max 0 max_links)%Z /\
    Forall (fun edge =>
              (getSourceVertex edge < length (vertices (mPoseGraph s)))%nat /\
              getTargetVertex edge = vertex /\
              (vertex < length (vertices (mPoseGraph s)))%nat /\
              getSourceVertex edge <> vertex) new.
Proof.
  pose proof (linkToNeighbors_adds radiusSearch vertex sensor max_links s) as Hadds.
  cbv zeta in Hadds. revert Hadds.
  unfold linkToNeighbors. run. rewrite exec_previously_matched_loop. run.
  destruct (vertices (mPoseGraph s) !! vertex) as [v|] eqn:Hvertex; run.
  2:{ intros _. exists (Threw NullPointer), (mIndexMap s), [].
      rewrite with_new_edges_nil, <- set_mIndexMap_same.
      split; [reflexivity|]. split; [discriminate|]. split; [simpl; lia | constructor]. }
  destruct (getNearbyVertices_frame (corrected_pose v) (mNeighborRadius s) s)
    as (neighbors & mp & ->).
  run.
  match goal with
  | |- context [exec (linkToNeighbors_loop ?a ?b ?c ?d ?e ?f) ?s1] =>
      destruct (linkToNeighbors_loop_effect a b c d e f s1) as (o & new & -> & Ho & Hnew)
  end.
  cbn [snd]. intros (added & He & _ & Hl & Hclosure & _).
  cbn in He. apply app_inv_head in He. subst added.
  exists o, mp, new. split; [reflexivity|]. split; [exact Ho|]. split; [exact Hl|].
  pose proof (proj2 (Forall_and _ _) (conj Hnew Hclosure)) as Hboth.
  eapply List.Forall_impl; [|exact Hboth].
  intros edge [(Hs & Ht & Hv) (_ & _ & _ & Hne & _)]. auto.
Qed.

End Steps.

(** ** Running a method

    [link] replaces a call of [linkToNeighbors] by its effect. [crush]
    follows every way through a method, splitting at each test, until
    each goal speaks of one final state. [exec_cases] sets the property
    to prove aside while it does, so that the method is run once, and
    [exec_done] brings it back. [proj] reads the members of a final
    state. *)
Ltac link :=
  match goal with
  | |- context [exec (linkToNeighbors ?rs ?v ?sensor ?k) ?s] =>
      let o := fresh "o" in
      let mp := fresh "mp" in
      let new := fresh "new" in
      let Ho := fresh "Ho" in
      let Hl := fresh "Hl" in
      let Hnew := fresh "Hnew" in
      destruct (linkToNeighbors_effect rs v sensor k s)
        as (o & mp & new & -> & Ho & Hl & Hnew)
  end.

Ltac crush :=
  repeat (run; match goal with
    | |- context [exec (addVertex _ _) _] => rewrite exec_addVertex
    | |- context [exec (addEdge _ _ _ _ _ _) _] =>
        rewrite exec_addEdge, after_addEdge_with_new_edges
    | |- context [exec (buildNeighborIndex _) _] => rewrite exec_buildNeighborIndex
    | |- context [exec (linkToNeighbors _ _ _ _) _] => link
    | |- context [match ?x with _ => _ end] =>
        lazymatch x with
        | context [match _ with _ => _ end] => fail
        | _ => destruct x eqn:?
        end
    end); run.

Ltac exec_cases :=
  cbv zeta;
  match goal with
  | |- context [exec ?m ?s] =>
      let r := fresh "r" in
      let Hr := fresh "Hr" in
      let Q := fresh "Q" in
      remember (exec m s) as r eqn:Hr;
      pattern r;
      match goal with |- ?P r => set (Q := P) end;
      revert Hr
  end.

Ltac exec_done :=
  match goal with
  | Q := _ |- _ = _ -> _ => intros ->; subst Q; cbn beta; cbn [fst snd]
  end.

Ltac proj :=
  cbn [mPoseGraph vertices edges mSensors mOdometry mSolver mVertexIndex mIndex
       mIndexMap mCurrentPose mLastVertex mFirstVertex mLastOdometricPose
       mNeighborRadius mMinTranslation mMinRotation mAddOdometryEdges
       set_mPoseGraph set_mSensors set_mOdometry set_mSolver set_mVertexIndex
       set_mIndex set_mIndexMap set_mCurrentPose set_mLastVertex set_mFirstVertex
       set_mLastOdometricPose with_new_edges after_addVertex
       getSourceVertex getTargetVertex e_label e_sensor e_transform e_covariance
       v_name corrected_pose measurement].

Tactic Notation "proj" "in" hyp(H) :=
  cbn [mPoseGraph vertices edges mSensors mOdometry mSolver mVertexIndex mIndex
       mIndexMap mCurrentPose mLastVertex mFirstVertex mLastOdometricPose
       mNeighborRadius mMinTranslation mMinRotation mAddOdometryEdges
       set_mPoseGraph set_mSensors set_mOdometry set_mSolver set_mVertexIndex
       set_mIndex set_mIndexMap set_mCurrentPose set_mLastVertex set_mFirstVertex
       set_mLastOdometricPose with_new_edges after_addVertex
       getSourceVertex getTargetVertex e_label e_sensor e_transform e_covariance
       v_name corrected_pose measurement] in H.

(** ** The properties *)

Section Effects.
Context {F : Type} `{Scalar F}.
Variable AngleAxis_angle : Matrix3 F -> F.
Variable radiusSearch : list (Vector3 F) -> Vector3 F -> F -> list nat.

(** *** Registration *)

(** X5. After [registerSensor] the sensor's name is registered: to the
    sensor that had the name before the call, if there was one, else to
    the new sensor. No other name and no other member changes, and a line
    is logged exactly when the name was taken. *)
Theorem registerSensor_keeps_first_sensor (sensor : Sensor.t F) (s : t F) :
  let s' := snd (exec (registerSensor sensor) s) in
  mSensors s' !! Sensor.getName sensor =
    Some (default sensor (mSensors s !! Sensor.getName sensor)) /\
  (forall name, name <> Sensor.getName sensor ->
     mSensors s' !! name = mSensors s !! name) /\
  s' = set_mSensors (mSensors s') s /\
  (snd (registerSensor sensor s) = [] <->
   mSensors s !! Sensor.getName sensor = None).
Proof.
  unfold registerSensor, exec, bind, get, modify, message.
  destruct (mSensors s !! Sensor.getName sensor) as [old|] eqn:Hold; cbn.
  - repeat split; try discriminate. 
    + exact Hold.
    + destruct s; reflexivity.
  - repeat split.
    + apply lookup_insert_eq.
    + intros name Hname. apply lookup_insert_ne. congruence.
Qed.

(** X6. Registering a second sensor under the name of the first leaves
    the mapper as the first registration made it. *)
Theorem registerSensor_second_is_ignored (a b : Sensor.t F) (s : t F) :
  Sensor.getName a = Sensor.getName b ->
  exec (bind (registerSensor a) (fun _ => registerSensor b)) s =
    exec (registerSensor a) s.
Proof.
  intros Hname. unfold registerSensor. run.
  destruct (mSensors s !! Sensor.getName a) as [old|] eqn:Hold; run.
  - rewrite <- Hname, Hold. run. reflexivity.
  - cbn [mSensors set_mSensors]. rewrite <- Hname, lookup_insert_eq. run. reflexivity.
Qed.

(** *** [addVertex] *)

(** X7. [addVertex] returns the id that was the number of vertices; the
    graph has one more vertex, which that id names and which carries the
    given pose and measurement; the older vertices, the edges, the current
    pose, the last vertex and the last odometric pose stay. *)
Theorem addVertex_appends_vertex (m : Measurement F) (p : Transform F) (s : t F) :
  let id := length (vertices (mPoseGraph s)) in
  let s' := snd (exec (addVertex m p) s) in
  fst (exec (addVertex m p) s) = Returned id /\
  vertices (mPoseGraph s') !! id =
    Some {| v_name := (getRobotName m ++ ":" ++ getSensorName m)%string;
            corrected_pose := p; measurement := m |} /\
  length (vertices (mPoseGraph s')) = S id /\
  (forall i, (i < id)%nat ->
     vertices (mPoseGraph s') !! i = vertices (mPoseGraph s) !! i) /\
  edges (mPoseGraph s') = edges (mPoseGraph s) /\
  mCurrentPose s' = mCurrentPose s /\
  mLastVertex s' = mLastVertex s /\
  mLastOdometricPose s' = mLastOdometricPose s.
Proof.
  cbv zeta. rewrite exec_addVertex. cbn [fst snd]. proj.
  repeat split.
  - rewrite lookup_app_r by lia. rewrite Nat.sub_diag. reflexivity.
  - rewrite length_app. simpl. lia.
  - intros i Hi. apply lookup_app_l. exact Hi.
Qed.

(** X8. [addVertex] makes the new vertex the first vertex only when
    there was none, and only then asks the solver to fix it; the solver is
    told of every new node. The index of measurements keeps the vertex it
    had for the measurement's id ([std::map::insert] does not overwrite). *)
Theorem addVertex_anchors_first_vertex_once
  (m : Measurement F) (p : Transform F) (s : t F) :
  let id := length (vertices (mPoseGraph s)) in
  let s' := snd (exec (addVertex m p) s) in
  mFirstVertex s' = Some (default id (mFirstVertex s)) /\
  mVertexIndex s' !! getUniqueId m =
    Some (default id (mVertexIndex s !! getUniqueId m)) /\
  (forall uid, uid <> getUniqueId m ->
     mVertexIndex s' !! uid = mVertexIndex s !! uid) /\
  (mSolver s = None -> mSolver s' = None) /\
  (forall calls, mSolver s = Some calls ->
     mSolver s' =
       Some (calls ++ addNode id p ::
               match mFirstVertex s with
               | None => [setFixed id]
               | Some _ => []
               end)).
Proof.
  cbv zeta. rewrite exec_addVertex. cbn [snd]. proj. unfold map_insert_new.
  repeat split.
  - destruct (mFirstVertex s); reflexivity.
  - destruct (mVertexIndex s !! getUniqueId m) eqn:Hold; cbn.
    + exact Hold.
    + apply lookup_insert_eq.
  - intros uid Huid. destruct (mVertexIndex s !! getUniqueId m); [reflexivity|].
    apply lookup_insert_ne. congruence.
  - intros ->. reflexivity.
  - intros calls ->. reflexivity.
Qed.

(** *** Vertices by sensor *)

(** X9. [getVerticesFromSensor] returns the vertices whose measurement
    names the sensor, and only them: a pointer is in the result exactly
    when it points to a vertex of the graph whose measurement names the
    sensor. It returns no null pointer. Nothing is said about the order,
    which is that of the graph library's iterator. *)
Theorem getVerticesFromSensor_selects_by_sensor (sensor : string) (s : t F) :
  forall p, In p (getVerticesFromSensor sensor s) <->
    exists id v, p = Some id /\ vertices (mPoseGraph s) !! id = Some v /\
      getSensorName (measurement v) = sensor.
Proof.
  rewrite getVerticesFromSensor_ids.
  intros p. rewrite in_map_iff. split.
  - intros (id & <- & Hin). apply sensor_vertex_ids_In in Hin as (v & Hv & Hname).
    exists id, v. auto.
  - intros (id & v & -> & Hv & Hname). exists id. split; [reflexivity|].
    apply sensor_vertex_ids_In. exists v. auto.
Qed.

(** *** The neighbour index *)

Lemma getVerticesFromSensor_rows (sensor : string) (s : t F) :
  getVerticesFromSensor sensor s =
    map (fun iv => Some (fst iv)) (sensor_vertices sensor (mPoseGraph s)).
Proof.
  rewrite getVerticesFromSensor_ids. unfold sensor_vertex_ids.
  fold (sensor_vertices sensor (mPoseGraph s)). apply map_map.
Qed.

(** X10. [buildNeighborIndex] always returns and writes [mIndex] and
    [mIndexMap] only. It discards the index that was there: row [k] of the
    new map is the [k]-th vertex that [getVerticesFromSensor] returns, and
    point [k] of the new index is the translation of that vertex with
    each coordinate narrowed to [float] ([vertex_point]). *)
Theorem buildNeighborIndex_indexes_sensor_vertices (sensor : string) (s : t F) :
  let s' := snd (exec (buildNeighborIndex sensor) s) in
  fst (exec (buildNeighborIndex sensor) s) = Returned tt /\
  s' = set_mIndex (mIndex s') (set_mIndexMap (mIndexMap s') s) /\
  (forall row, mIndexMap s' !! row = getVerticesFromSensor sensor s !! row) /\
  length (mIndex s') = length (getVerticesFromSensor sensor s) /\
  (forall row id v,
     mIndexMap s' !! row = Some (Some id) ->
     vertices (mPoseGraph s) !! id = Some v ->
     mIndex s' !! row = Some (vertex_point v)).
Proof.
  cbv zeta. rewrite exec_buildNeighborIndex, getVerticesFromSensor_rows.
  cbn [fst snd]. proj.
  split; [reflexivity|]. split; [reflexivity|]. split; [|split].
  - intros row. apply lookup_map_seq_0.
  - rewrite !length_map. reflexivity.
  - intros row id v Hrow Hv. rewrite lookup_map_seq_0 in Hrow.
    pose proof (list_lookup_fmap (fun iv : nat * VertexObject F => Some (fst iv))
                  (sensor_vertices sensor (mPoseGraph s)) row) as Hmap.
    pose proof (list_lookup_fmap (fun iv : nat * VertexObject F => vertex_point (snd iv))
                  (sensor_vertices sensor (mPoseGraph s)) row) as Hpoints.
    etransitivity; [exact Hpoints|].
    assert (Hrow' := eq_trans (eq_sym Hmap) Hrow). clear Hrow Hmap Hpoints.
    rename Hrow' into Hrow.
    destruct (sensor_vertices sensor (mPoseGraph s) !! row) as [[id' v']|] eqn:Hiv;
      [|discriminate].
    cbn in Hrow |- *. injection Hrow as ->.
    apply list_elem_of_lookup_2, list_elem_of_In, sensor_vertices_In in Hiv as [Hv' _].
    rewrite Hv in Hv'. injection Hv' as <-. reflexivity.
Qed.

(** *** The neighbour query *)

Lemma pointer_at_insert_null (index_map : gmap nat VertexPtr) (row row' : nat) :
  index_map !! row = None ->
  pointer_at (<[row := None]> index_map) row' = pointer_at index_map row'.
Proof.
  intros Hrow. unfold pointer_at. destruct (decide (row = row')) as [<-|Hne].
  - rewrite lookup_insert_eq, Hrow. reflexivity.
  - rewrite lookup_insert_ne by exact Hne. reflexivity.
Qed.

Lemma getNearbyVertices_loop_exec rows : forall result (s : t F),
  exists index_map,
    exec (getNearbyVertices_loop rows result) s =
      (Returned (result ++ map (pointer_at (mIndexMap s)) rows),
       set_mIndexMap index_map s) /\
    (forall row, pointer_at index_map row = pointer_at (mIndexMap s) row) /\
    (forall row p, mIndexMap s !! row = Some p -> index_map !! row = Some p) /\
    (forall row, In row rows -> is_Some (index_map !! row)).
Proof.
  induction rows as [|row rows IH]; intros result s; cbn [getNearbyVertices_loop map].
  - run. exists (mIndexMap s). rewrite app_nil_r, <- set_mIndexMap_same.
    repeat split; auto. intros row [].
  - run. rewrite exec_mIndexMap_at. unfold pointer_at at 1.
    destruct (mIndexMap s !! row) as [p|] eqn:Hrow; run.
    + destruct (IH (result ++ [p]) s) as (mp & Hrun & Hsame & Hkept & Hsome).
      exists mp. rewrite Hrun, <- app_assoc. repeat split; auto.
      intros row' [<- | Hin]; [|auto]. rewrite (Hkept _ _ Hrow). eauto.
    + match goal with
      | |- context [exec _ ?s1] =>
          destruct (IH (result ++ [None]) s1) as (mp & Hrun & Hsame & Hkept & Hsome)
      end.
      cbn [mIndexMap set_mIndexMap] in Hrun, Hsame, Hkept.
      exists mp. split; [|split; [|split]].
      * rewrite (map_ext _ (pointer_at (mIndexMap s))) in Hrun
          by (intros row'; apply pointer_at_insert_null, Hrow).
        etransitivity; [exact Hrun|]. rewrite <- app_assoc. reflexivity.
      * intros row'. rewrite Hsame. apply pointer_at_insert_null, Hrow.
      * intros row' p Hp. apply Hkept. rewrite lookup_insert_ne; [exact Hp|].
        intros <-. congruence.
      * intros row' [<- | Hin]; [|auto].
        rewrite (Hkept row None) by apply lookup_insert_eq. eauto.
Qed.

Lemma exec_getNearbyVertices (tf : Transform F) (radius : F) (s : t F) :
  exists index_map,
    exec (getNearbyVertices radiusSearch tf radius) s =
      (Returned (map (pointer_at (mIndexMap s))
                   (radiusSearch (mIndex s) (pose_point tf) radius)),
       set_mIndexMap index_map s) /\
    (forall row, pointer_at index_map row = pointer_at (mIndexMap s) row) /\
    (forall row p, mIndexMap s !! row = Some p -> index_map !! row = Some p) /\
    (forall row, In row (radiusSearch (mIndex s) (pose_point tf) radius) ->
       is_Some (index_map !! row)).
Proof.
  unfold getNearbyVertices. run.
  apply (getNearbyVertices_loop_exec
           (radiusSearch (mIndex s) (pose_point tf) radius) [] s).
Qed.

(** X11. [getNearbyVertices] always returns, with one pointer for each
    row that the radius search reports, in that order: the pointer the map
    has for the row, or null. It writes [mIndexMap] only: a row the map
    did not have is in it afterwards, with a null pointer (the subscript
    of [std::map] inserts it); the rows it had keep their vertices. *)
Theorem getNearbyVertices_returns_one_pointer_per_row
  (tf : Transform F) (radius : F) (s : t F) :
  let rows := radiusSearch (mIndex s) (pose_point tf) radius in
  let s' := snd (exec (getNearbyVertices radiusSearch tf radius) s) in
  fst (exec (getNearbyVertices radiusSearch tf radius) s) =
    Returned (map (pointer_at (mIndexMap s)) rows) /\
  s' = set_mIndexMap (mIndexMap s') s /\
  (forall row p, mIndexMap s !! row = Some p -> mIndexMap s' !! row = Some p) /\
  (forall row, In row rows -> mIndexMap s !! row = None ->
     mIndexMap s' !! row = Some None).
Proof.
  cbv zeta.
  destruct (exec_getNearbyVertices tf radius s) as (mp & -> & Hsame & Hkept & Hsome).
  cbn [fst snd]. proj. repeat split; auto.
  intros row Hin Hnone. specialize (Hsame row). unfold pointer_at in Hsame.
  rewrite Hnone in Hsame. destruct (Hsome row Hin) as [p Hp].
  rewrite Hp in Hsame. cbn in Hsame. subst p. exact Hp.
Qed.

Lemma Forall2_right {A B} (R : A -> B -> Prop) (P : B -> Prop) l k :
  Forall2 R l k -> (forall x y, R x y -> P y) -> Forall P k.
Proof. induction 1; constructor; eauto. Qed.

(** X12. Right after [buildNeighborIndex], when the radius search reports
    rows of the index only, [getNearbyVertices] changes nothing and every
    pointer it returns is a vertex of the indexed sensor. *)
Theorem getNearbyVertices_after_buildNeighborIndex
  (sensor : string) (tf : Transform F) (radius : F) (s : t F) :
  let s1 := snd (exec (buildNeighborIndex sensor) s) in
  let rows := radiusSearch (mIndex s1) (pose_point tf) radius in
  Forall (fun row => (row < length (mIndex s1))%nat) rows ->
  exists neighbors,
    exec (getNearbyVertices radiusSearch tf radius) s1 = (Returned neighbors, s1) /\
    length neighbors = length rows /\
    Forall (fun p => In p (getVerticesFromSensor sensor s)) neighbors.
Proof.
  cbv zeta. rewrite exec_buildNeighborIndex. cbn [snd]. proj.
  set (ivs := sensor_vertices sensor (mPoseGraph s)).
  set (s1 := set_mIndex _ _).
  intros Hrows. rewrite length_map in Hrows.
  assert (Hfound : forall rows,
            Forall (fun row => (row < length ivs)%nat) rows ->
            Forall2 (fun row p => mIndexMap s1 !! row = Some p /\
                                  In p (getVerticesFromSensor sensor s))
              rows (map (pointer_at (mIndexMap s1)) rows)).
  { intros rows Hall.
    induction Hall as [|row rows Hrow Hall IH]; cbn [map]; constructor; [|exact IH].
    destruct (lookup_lt_is_Some_2 (map (fun iv => Some (fst iv)) ivs) row) as [p Hp].
    { rewrite length_map. exact Hrow. }
    assert (Hmp : mIndexMap s1 !! row = Some p)
      by (etransitivity; [apply lookup_map_seq_0 | exact Hp]).
    unfold pointer_at.
    destruct (mIndexMap s1 !! row) as [q|]; [|discriminate].
    injection Hmp as ->. split; [reflexivity|].
    rewrite getVerticesFromSensor_rows.
    apply list_elem_of_In. eapply list_elem_of_lookup_2. exact Hp. }
  specialize (Hfound _ Hrows).
  exists (map (pointer_at (mIndexMap s1))
            (radiusSearch (mIndex s1) (pose_point tf) radius)).
  split; [|split].
  - unfold getNearbyVertices. run.
    apply (getNearbyVertices_loop_found _ _ [] s1).
    eapply Forall2_impl; [exact Hfound|]. intros row p [Hp _]. exact Hp.
  - apply length_map.
  - eapply Forall2_right; [exact Hfound|]. intros row p [_ Hin]. exact Hin.
Qed.

(** *** [linkToNeighbors] *)

(** X13. [linkToNeighbors] never lets [NoMatch] escape. However it ends,
    it has written only the edges, the solver and [mIndexMap]; the solver
    has received the constraints of the added edges; each added edge goes
    into [vertex] from another vertex of the graph. *)
Theorem linkToNeighbors_touches_only_edges_and_index
  (vertex : nat) (sensor : Sensor.t F) (max_links : Z) (s : t F) :
  let r := exec (linkToNeighbors radiusSearch vertex sensor max_links) s in
  match fst r with Threw NoMatch => False | _ => True end /\
  kept_by_linking (snd r) = kept_by_linking s /\
  mIndex (snd r) = mIndex s /\
  exists added,
    edges (mPoseGraph (snd r)) = edges (mPoseGraph s) ++ added /\
    mSolver (snd r) =
      option_map (fun calls => calls ++ map constraint_of added) (mSolver s) /\
    Forall (fun edge =>
              (getSourceVertex edge < length (vertices (mPoseGraph s)))%nat /\
              getTargetVertex edge = vertex /\
              (vertex < length (vertices (mPoseGraph s)))%nat /\
              getSourceVertex edge <> vertex) added.
Proof.
  cbv zeta.
  destruct (linkToNeighbors_effect radiusSearch vertex sensor max_links s)
    as (o & mp & new & -> & Ho & _ & Hnew).
  cbn [fst snd]. split; [|split; [|split]].
  - destruct o as [[]|[]]; try exact I. apply Ho. reflexivity.
  - reflexivity.
  - reflexivity.
  - exists new. repeat split. exact Hnew.
Qed.
(** *** [addReading] *)

Lemma Forall_valid_grow (n n' : nat) (es : list (EdgeObject F)) :
  (n <= n')%nat ->
  Forall (fun edge => (getSourceVertex edge < n)%nat /\ (getTargetVertex edge < n)%nat) es ->
  Forall (fun edge => (getSourceVertex edge < n')%nat /\ (getTargetVertex edge < n')%nat) es.
Proof.
  intros Hn. apply List.Forall_impl. intros edge [Hs Ht]. split; lia.
Qed.

Lemma Forall_valid_link (n n' vertex : nat) (es : list (EdgeObject F)) :
  (n <= n')%nat ->
  Forall (fun edge => (getSourceVertex edge < n)%nat /\ getTargetVertex edge = vertex /\
                      (vertex < n)%nat /\ getSourceVertex edge <> vertex) es ->
  Forall (fun edge => (getSourceVertex edge < n')%nat /\ (getTargetVertex edge < n')%nat) es.
Proof.
  intros Hn. apply List.Forall_impl. intros edge (Hs & Ht & Hv & _). split; lia.
Qed.

(** X14. [addReading] keeps the mapper well formed, however it ends:
    the ends of every edge, the last vertex and the first vertex are
    vertices of the graph. *)
Theorem addReading_keeps_well_formed (m : Measurement F) (s : t F) :
  well_formed s ->
  well_formed (snd (exec (addReading AngleAxis_angle radiusSearch m) s)).
Proof.
  intros (Hedges & Hlast & Hfirst). exec_cases. unfold addReading. crush.
  all: exec_done; unfold well_formed; proj.
  all: repeat match goal with
         | H : Forall _ _ |- _ => progress proj in H
         end.
  all: try pose proof (Hlast _ eq_refl).
  all: rewrite ?Forall_app; repeat split.
  all: rewrite ?length_app; cbn [length].
  all: first
    [ assumption
    | eapply Forall_valid_grow; [|eassumption]; rewrite ?length_app; cbn [length]; lia
    | eapply Forall_valid_link; [|eassumption]; rewrite ?length_app; cbn [length]; lia
    | repeat constructor; cbn; lia
    | intros ? [= <-]; lia
    | destruct (mFirstVertex s) eqn:?; intros ? [= <-];
      [pose proof (Hfirst _ eq_refl); lia | lia]
    | intros ? ?;
      match goal with
      | Ha : mLastVertex ?x = _, Hb : mLastVertex ?x = _ |- _ =>
          rewrite Ha in Hb; first [discriminate | injection Hb as <-; lia]
      end ].
Qed.

(** X15. However [addReading] ends, the vertices and the edges that
    were in the graph are still there, in their places; at most one vertex
    and at most seven edges have been appended (one from odometry, one
    from the match with the last vertex, five from [linkToNeighbors]); the
    sensors, the odometry and the thresholds are as before. *)
Theorem addReading_only_appends (m : Measurement F) (s : t F) :
  let s' := snd (exec (addReading AngleAxis_angle radiusSearch m) s) in
  vertices (mPoseGraph s) `prefix_of` vertices (mPoseGraph s') /\
  (length (vertices (mPoseGraph s')) <= length (vertices (mPoseGraph s)) + 1)%nat /\
  edges (mPoseGraph s) `prefix_of` edges (mPoseGraph s') /\
  (length (edges (mPoseGraph s')) <= length (edges (mPoseGraph s)) + 7)%nat /\
  mSensors s' = mSensors s /\
  mOdometry s' = mOdometry s /\
  mAddOdometryEdges s' = mAddOdometryEdges s /\
  (mNeighborRadius s', mMinTranslation s', mMinRotation s') =
    (mNeighborRadius s, mMinTranslation s, mMinRotation s).
Proof.
  exec_cases. unfold addReading. crush.
  all: exec_done; proj.
  all: repeat split.
  all: rewrite ?length_app; cbn [length].
  all: first
    [ assumption
    | reflexivity
    | lia
    | repeat apply prefix_app_r; reflexivity ].
Qed.

(** X16. When [addReading] returns true, the graph has exactly one more
    vertex; it carries the measurement and is the last vertex; the last
    odometric pose is the odometry's pose at the measurement's time (the
    identity without odometry); the sensor was registered. *)
Theorem addReading_accepted_adds_one_vertex (m : Measurement F) (s s' : t F) :
  exec (addReading AngleAxis_angle radiusSearch m) s = (Returned true, s') ->
  exists pose,
    vertices (mPoseGraph s') =
      vertices (mPoseGraph s) ++
        [{| v_name := (getRobotName m ++ ":" ++ getSensorName m)%string;
            corrected_pose := pose; measurement := m |}] /\
    mLastVertex s' = Some (length (vertices (mPoseGraph s))) /\
    Some (mLastOdometricPose s') =
      match mOdometry s with
      | Some odom => odom (getTimestamp m)
      | None => Some Transform_Identity
      end /\
    is_Some (mSensors s !! getSensorName m).
Proof.
  match goal with |- _ -> ?P => set (Q := P) end.
  unfold addReading. crush.
  all: intros E; inversion E; subst; clear E.
  all: subst Q; proj.
  all: eexists; repeat split; try reflexivity; try (symmetry; assumption); eauto.
Qed.

(** X17. [addReading] never lets [NoMatch] escape. When another
    exception escapes, the last vertex, the last odometric pose and the
    sensors are as before the call. *)
Theorem addReading_exception_keeps_last_vertex (m : Measurement F) (s : t F) :
  let r := exec (addReading AngleAxis_angle radiusSearch m) s in
  match fst r with
  | Threw NoMatch => False
  | Threw _ =>
      mLastVertex (snd r) = mLastVertex s /\
      mLastOdometricPose (snd r) = mLastOdometricPose s /\
      mSensors (snd r) = mSensors s
  | Returned _ => True
  end.
Proof.
  exec_cases. unfold addReading. crush.
  all: exec_done; proj.
  all: try match goal with |- match ?e with _ => _ end => destruct e end.
  all: try exact I.
  all: try (exfalso; match goal with Ho : _ <> _ |- _ => apply Ho; reflexivity end).
  all: repeat split; first [assumption | reflexivity].
Qed.

(** *** The solver and the edges *)

Lemma filter_constraints (es : list (EdgeObject F)) :
  List.filter is_constraint (map constraint_of es) = map constraint_of es.
Proof.
  induction es as [|edge es IH]; [reflexivity|]. cbn. rewrite IH. reflexivity.
Qed.

Lemma solver_has_edges_with_new_edges (new : list (EdgeObject F)) (s : t F) :
  solver_has_edges s -> solver_has_edges (with_new_edges new s).
Proof.
  unfold solver_has_edges. intros Hs calls. proj.
  destruct (mSolver s) as [calls0|]; [|discriminate].
  intros [= <-]. rewrite List.filter_app, map_app, filter_constraints.
  rewrite (Hs calls0 eq_refl). reflexivity.
Qed.

Lemma solver_has_edges_after_addVertex (m : Measurement F) (p : Transform F) (s : t F) :
  solver_has_edges s -> solver_has_edges (after_addVertex m p s).
Proof.
  unfold solver_has_edges. intros Hs calls. proj.
  destruct (mSolver s) as [calls0|]; [|discriminate].
  intros [= <-]. rewrite List.filter_app, (Hs calls0 eq_refl).
  destruct (mFirstVertex s); cbn; apply app_nil_r.
Qed.

Lemma solver_has_edges_set_mCurrentPose p (s : t F) :
  solver_has_edges s -> solver_has_edges (set_mCurrentPose p s).
Proof. intros Hs. exact Hs. Qed.

Lemma solver_has_edges_set_mLastVertex p (s : t F) :
  solver_has_edges s -> solver_has_edges (set_mLastVertex p s).
Proof. intros Hs. exact Hs. Qed.

Lemma solver_has_edges_set_mLastOdometricPose p (s : t F) :
  solver_has_edges s -> solver_has_edges (set_mLastOdometricPose p s).
Proof. intros Hs. exact Hs. Qed.

Lemma solver_has_edges_set_mIndex p (s : t F) :
  solver_has_edges s -> solver_has_edges (set_mIndex p s).
Proof. intros Hs. exact Hs. Qed.

Lemma solver_has_edges_set_mIndexMap p (s : t F) :
  solver_has_edges s -> solver_has_edges (set_mIndexMap p s).
Proof. intros Hs. exact Hs. Qed.

(** X18. If the solver has received the constraints of the graph's edges
    before [addReading], it has after it, however the call ends: every
    edge that [addEdge] puts into the graph is reported to the solver, in
    the same order. *)
Theorem addReading_reports_edges_to_solver (m : Measurement F) (s : t F) :
  solver_has_edges s ->
  solver_has_edges (snd (exec (addReading AngleAxis_angle radiusSearch m) s)).
Proof.
  intros Hs. exec_cases. unfold addReading. crush.
  all: exec_done.
  all: repeat match goal with
    | |- solver_has_edges ?x => is_var x; exact Hs
    | |- solver_has_edges (with_new_edges _ _) => apply solver_has_edges_with_new_edges
    | |- solver_has_edges (after_addVertex _ _ _) => apply solver_has_edges_after_addVertex
    | |- solver_has_edges (set_mCurrentPose _ _) => apply solver_has_edges_set_mCurrentPose
    | |- solver_has_edges (set_mLastVertex _ _) => apply solver_has_edges_set_mLastVertex
    | |- solver_has_edges (set_mLastOdometricPose _ _) =>
        apply solver_has_edges_set_mLastOdometricPose
    | |- solver_has_edges (set_mIndex _ _) => apply solver_has_edges_set_mIndex
    | |- solver_has_edges (set_mIndexMap _ _) => apply solver_has_edges_set_mIndexMap
    end.
Qed.

(** X19. The first reading of a registered sensor is accepted without a
    call of the sensor: the vertex is added at the current pose, becomes
    the last vertex, and the odometry's pose is recorded. *)
Theorem addReading_first_reading
  (m : Measurement F) (s : t F) (sensor : Sensor.t F) (odometry : Transform F) :
  mSensors s !! getSensorName m = Some sensor ->
  match mOdometry s with
  | Some odom => odom (getTimestamp m)
  | None => Some Transform_Identity
  end = Some odometry ->
  mLastVertex s = None ->
  exec (addReading AngleAxis_angle radiusSearch m) s =
    (Returned true,
     set_mLastOdometricPose odometry
       (set_mLastVertex (Some (length (vertices (mPoseGraph s))))
          (after_addVertex m (mCurrentPose s) s))).
Proof.
  intros Hsensor Hodometry Hlast. unfold addReading. run.
  rewrite Hsensor. run. rewrite Hodometry, Hlast. run.
  rewrite exec_addVertex. run. reflexivity.
Qed.

(** X20. When the odometry has no pose for the measurement's time,
    [addReading] returns false, logs the error and leaves the mapper as it
    was. *)
Theorem addReading_without_odometry_data
  (m : Measurement F) (s : t F) (sensor : Sensor.t F) (odom : Odometry F) :
  mSensors s !! getSensorName m = Some sensor ->
  mOdometry s = Some odom ->
  odom (getTimestamp m) = None ->
  addReading AngleAxis_angle radiusSearch m s =
    (Returned false, s,
     [Log DEBUG "Add reading from own Sensor '%1%'.";
      Log ERROR "Could not get Odometry data!"]).
Proof.
  intros Hsensor Hodom Hnone. unfold addReading, bind, get, message, ret.
  rewrite Hsensor, Hodom, Hnone. reflexivity.
Qed.

(** X21. Without odometry, a reading that the sensor cannot match to
    the last vertex is rejected with a warning, and the mapper, the
    current pose included, is as it was. *)
Theorem addReading_unmatched_without_odometry
  (m : Measurement F) (s : t F) (sensor : Sensor.t F) (last : nat)
  (v : VertexObject F) (log : list LogEntry) :
  mSensors s !! getSensorName m = Some sensor ->
  mOdometry s = None ->
  mLastVertex s = Some last ->
  vertices (mPoseGraph s) !! last = Some v ->
  Sensor.calculateTransform sensor (measurement v) m
    (compose (inverse (corrected_pose v)) (mCurrentPose s)) = (log, Threw NoMatch) ->
  addReading AngleAxis_angle radiusSearch m s =
    (Returned false, s,
     Log DEBUG "Add reading from own Sensor '%1%'." :: log ++
     [Log WARNING "Measurement could not be matched and no odometry was availabe!"]).
Proof.
  intros Hsensor Hodom Hlast Hv Hicp.
  unfold addReading, bind, get, message, ret, try_catch, deref, call_calculateTransform,
    throw.
  rewrite Hsensor, Hodom, Hlast. cbn. rewrite Hv. cbn. rewrite Hicp. cbn.
  rewrite app_nil_r. reflexivity.
Qed.

(** *** [addExternalReading] *)

(** X22. However [addExternalReading] ends, the graph has one more
    vertex, at the given pose and with the measurement; the current pose,
    the last vertex and the last odometric pose are untouched; at most
    five edges were added, each into the new vertex from an older one, and
    none when the sensor is not registered. [NoMatch] never escapes. *)
Theorem addExternalReading_adds_vertex_at_given_pose
  (m : Measurement F) (pose : Transform F) (s : t F) :
  let r := exec (addExternalReading radiusSearch m pose) s in
  match fst r with Threw NoMatch => False | _ => True end /\
  vertices (mPoseGraph (snd r)) =
    vertices (mPoseGraph s) ++
      [{| v_name := (getRobotName m ++ ":" ++ getSensorName m)%string;
          corrected_pose := pose; measurement := m |}] /\
  mCurrentPose (snd r) = mCurrentPose s /\
  mLastVertex (snd r) = mLastVertex s /\
  mLastOdometricPose (snd r) = mLastOdometricPose s /\
  exists added,
    edges (mPoseGraph (snd r)) = edges (mPoseGraph s) ++ added /\
    (length added <= 5)%nat /\
    Forall (fun edge => getTargetVertex edge = length (vertices (mPoseGraph s)) /\
                        (getSourceVertex edge < length (vertices (mPoseGraph s)))%nat)
      added /\
    (mSensors s !! getSensorName m = None -> added = []).
Proof.
  exec_cases. unfold addExternalReading. crush.
  all: exec_done; proj.
  all: repeat match goal with
         | H : Forall _ _ |- _ => progress proj in H
         | H : mSensors _ !! _ = _ |- _ => progress proj in H
         end.
  all: (split; [first [exact I | destruct o as [|[]]; first [exact I | apply Ho; reflexivity]]|]).
  all: do 4 (split; [reflexivity|]).
  all: first [ exists new0 | exists (@nil (EdgeObject F)); rewrite app_nil_r ].
  all: repeat split; try congruence; try (cbn [length]; lia).
  all: try (eapply List.Forall_impl; [|eassumption]; cbn beta;
            rewrite length_app; cbn [length]; intros ? (? & ? & ? & ?); split; [assumption|lia]).
  all: try constructor.
Qed.

(** X23. [addExternalReading] keeps the mapper well formed, however it
    ends. *)
Theorem addExternalReading_keeps_well_formed
  (m : Measurement F) (pose : Transform F) (s : t F) :
  well_formed s ->
  well_formed (snd (exec (addExternalReading radiusSearch m pose) s)).
Proof.
  intros (Hedges & Hlast & Hfirst). exec_cases. unfold addExternalReading. crush.
  all: exec_done; unfold well_formed; proj.
  all: repeat match goal with
         | H : Forall _ _ |- _ => progress proj in H
         end.
  all: rewrite ?Forall_app; repeat split.
  all: rewrite ?length_app; cbn [length].
  all: first
    [ eapply Forall_valid_grow; [|eassumption]; rewrite ?length_app; cbn [length]; lia
    | eapply Forall_valid_link; [|eassumption]; rewrite ?length_app; cbn [length]; lia
    | intros ? Hv; apply Hlast in Hv; lia
    | destruct (mFirstVertex s) eqn:?; intros ? [= <-];
      [pose proof (Hfirst _ eq_refl); lia | lia] ].
Qed.

(** X24. For a measurement of an unregistered sensor
    [addExternalReading] returns, having added the vertex and nothing
    else, and logs no error. *)
Theorem addExternalReading_unregistered_sensor
  (m : Measurement F) (pose : Transform F) (s : t F) :
  mSensors s !! getSensorName m = None ->
  exec (addExternalReading radiusSearch m pose) s =
    (Returned tt, after_addVertex m pose s) /\
  Forall (fun entry => log_level entry <> ERROR)
    (snd (addExternalReading radiusSearch m pose s)).
Proof.
  intros Hnone. split.
  - unfold addExternalReading. run. rewrite exec_addVertex. run.
    cbn [mSensors after_addVertex set_mSolver set_mFirstVertex set_mVertexIndex
         set_mPoseGraph].
    rewrite Hnone. run. reflexivity.
  - unfold addExternalReading, addVertex, solver_call, bind, get, modify, message, ret.
    destruct (mSolver s), (mFirstVertex s); cbn; rewrite Hnone; cbn;
      repeat constructor; discriminate.
Qed.

(** *** [optimize] *)

Variable Solver_compute : list (SolverCall F) -> bool.
Variable Solver_getCorrections : list (SolverCall F) -> list (nat * Transform F).

Lemma set_corrected_pose_structure (id : nat) (tf : Transform F) (g : PoseGraph F) :
  map measurement (vertices (set_corrected_pose id tf g)) = map measurement (vertices g) /\
  map v_name (vertices (set_corrected_pose id tf g)) = map v_name (vertices g) /\
  edges (set_corrected_pose id tf g) = edges g.
Proof.
  unfold set_corrected_pose. cbn [vertices edges].
  destruct (vertices g !! id) as [v|] eqn:Hv; [|auto].
  split; [|split; [|reflexivity]].
  - change (map measurement ?l) with (measurement <$> l).
    rewrite list_fmap_insert. cbn [measurement].
    apply list_insert_id. rewrite list_lookup_fmap, Hv. reflexivity.
  - change (map v_name ?l) with (v_name <$> l).
    rewrite list_fmap_insert. cbn [v_name].
    apply list_insert_id. rewrite list_lookup_fmap, Hv. reflexivity.
Qed.

Lemma apply_corrections_structure (res : list (nat * Transform F)) :
  forall g : PoseGraph F,
  map measurement (vertices (apply_corrections res g)) = map measurement (vertices g) /\
  map v_name (vertices (apply_corrections res g)) = map v_name (vertices g) /\
  edges (apply_corrections res g) = edges g.
Proof.
  induction res as [|it res IH]; intros g; cbn [apply_corrections fold_left]; [auto|].
  destruct (IH (set_corrected_pose (fst it) (snd it) g)) as (Hm & Hn & He).
  destruct (set_corrected_pose_structure (fst it) (snd it) g) as (Hm' & Hn' & He').
  unfold apply_corrections in Hm, Hn, He. repeat split; congruence.
Qed.

Lemma set_corrected_pose_lookup (id id' : nat) (tf : Transform F) (g : PoseGraph F) v' :
  vertices (set_corrected_pose id tf g) !! id' = Some v' ->
  exists v, vertices g !! id' = Some v /\
    corrected_pose v' = (if Nat.eqb id id' then tf else corrected_pose v).
Proof.
  unfold set_corrected_pose. cbn [vertices].
  destruct (vertices g !! id) as [v|] eqn:Hv.
  - destruct (Nat.eqb_spec id id') as [<-|Hne].
    + intros Hv'. rewrite list_lookup_insert_eq in Hv' by (eapply lookup_lt_Some, Hv).
      injection Hv' as <-. eauto.
    + rewrite list_lookup_insert_ne by exact Hne. eauto.
  - intros Hv'. exists v'. split; [exact Hv'|].
    destruct (Nat.eqb_spec id id') as [<-|Hne]; [congruence | reflexivity].
Qed.

Lemma apply_corrections_lookup (res : list (nat * Transform F)) :
  forall (g : PoseGraph F) id v',
  vertices (apply_corrections res g) !! id = Some v' ->
  exists v, vertices g !! id = Some v /\
    corrected_pose v' = final_pose res id (corrected_pose v).
Proof.
  induction res as [|it res IH]; intros g id v' Hv';
    cbn [apply_corrections final_pose fold_left] in *; [eauto|].
  apply IH in Hv' as (v1 & Hv1 & Hpose).
  apply set_corrected_pose_lookup in Hv1 as (v & Hv & Hpose1).
  exists v. split; [exact Hv|]. rewrite Hpose, Hpose1. reflexivity.
Qed.

Lemma set_mPoseGraph_same (s : t F) : s = set_mPoseGraph (mPoseGraph s) s.
Proof. destruct s; reflexivity. Qed.

Lemma optimize_loop_effect (res : list (nat * Transform F)) :
  forall s : t F,
  exists o done,
    exec (optimize_loop res) s =
      (o, set_mPoseGraph (apply_corrections done (mPoseGraph s)) s) /\
    (o = Returned tt /\ done = res \/ o = Threw BadElementType).
Proof.
  induction res as [|it res IH]; intros s; cbn [optimize_loop].
  - run. exists (Returned tt), []. split; [|left; auto].
    cbn [apply_corrections fold_left]. rewrite <- set_mPoseGraph_same. reflexivity.
  - run. unfold getVertex, fromBaseGraph.
    destruct (vertices (mPoseGraph s) !! fst it) as [v|] eqn:Hv; run.
    + match goal with
      | |- context [exec (optimize_loop res) ?s1] =>
          destruct (IH s1) as (o & done & Hrun & Ho)
      end.
      rewrite Hrun. cbn [mPoseGraph set_mPoseGraph].
      destruct Ho as [[-> ->] | ->].
      * exists (Returned tt), (it :: res). split; [reflexivity | left; auto].
      * exists (Threw BadElementType), (it :: done). split; [reflexivity | right; auto].
    + exists (Threw BadElementType), []. split; [|right; auto].
      cbn [apply_corrections fold_left]. rewrite <- set_mPoseGraph_same. reflexivity.
Qed.

(** X25. [optimize] returns false exactly when there is no solver or the
    solver's [compute] fails, and then the mapper is as it was. *)
Theorem optimize_returns_false_iff (s s' : t F) :
  exec (optimize Solver_compute Solver_getCorrections) s = (Returned false, s') <->
  s' = s /\
  (mSolver s = None \/
   exists calls, mSolver s = Some calls /\ Solver_compute calls = false).
Proof.
  unfold optimize. run. destruct (mSolver s) as [calls|]; run.
  - destruct (Solver_compute calls) eqn:Hcompute; run.
    + destruct (optimize_loop_effect (Solver_getCorrections calls) s)
        as (o & done & -> & Ho).
      split.
      * destruct Ho as [[-> _] | ->]; run; [|discriminate].
        cbn [mLastVertex set_mPoseGraph].
        destruct (mLastVertex s) as [last|]; run; [|discriminate].
        cbn [mPoseGraph set_mPoseGraph].
        destruct (vertices _ !! last); run; discriminate.
      * intros [_ [Hnone | (calls' & [= <-] & Hfalse)]]; congruence.
    + split.
      * intros [= <-]. split; [reflexivity|]. right. eauto.
      * intros [-> _]. reflexivity.
  - split.
    + intros [= <-]. auto.
    + intros [-> _]. reflexivity.
Qed.

Lemma optimize_structure (s : t F) :
  let s' := snd (exec (optimize Solver_compute Solver_getCorrections) s) in
  map measurement (vertices (mPoseGraph s')) = map measurement (vertices (mPoseGraph s)) /\
  map v_name (vertices (mPoseGraph s')) = map v_name (vertices (mPoseGraph s)) /\
  edges (mPoseGraph s') = edges (mPoseGraph s) /\
  s' = set_mCurrentPose (mCurrentPose s') (set_mPoseGraph (mPoseGraph s') s).
Proof.
  cbv zeta. unfold optimize. run.
  assert (Hsame : s = set_mCurrentPose (mCurrentPose s) (set_mPoseGraph (mPoseGraph s) s))
    by (destruct s; reflexivity).
  destruct (mSolver s) as [calls|]; run; [|auto].
  destruct (Solver_compute calls); run; [|auto].
  destruct (optimize_loop_effect (Solver_getCorrections calls) s)
    as (o & done & -> & Ho).
  destruct (apply_corrections_structure done (mPoseGraph s)) as (Hm & Hn & He).
  assert (Hleaf : forall pose,
    let s' := set_mCurrentPose pose
                (set_mPoseGraph (apply_corrections done (mPoseGraph s)) s) in
    map measurement (vertices (mPoseGraph s')) = map measurement (vertices (mPoseGraph s)) /\
    map v_name (vertices (mPoseGraph s')) = map v_name (vertices (mPoseGraph s)) /\
    edges (mPoseGraph s') = edges (mPoseGraph s) /\
    s' = set_mCurrentPose (mCurrentPose s') (set_mPoseGraph (mPoseGraph s') s)).
  { intros pose. cbn. auto. }
  assert (Hleaf' :
    let s' := set_mPoseGraph (apply_corrections done (mPoseGraph s)) s in
    map measurement (vertices (mPoseGraph s')) = map measurement (vertices (mPoseGraph s)) /\
    map v_name (vertices (mPoseGraph s')) = map v_name (vertices (mPoseGraph s)) /\
    edges (mPoseGraph s') = edges (mPoseGraph s) /\
    s' = set_mCurrentPose (mCurrentPose s') (set_mPoseGraph (mPoseGraph s') s)).
  { cbn. repeat split; auto. }
  destruct Ho as [[-> _] | ->]; run; [|apply Hleaf'].
  cbn [mLastVertex set_mPoseGraph].
  destruct (mLastVertex s) as [last|]; run; [|apply Hleaf'].
  destruct (vertices _ !! last); run; [apply Hleaf | apply Hleaf'].
Qed.

(** X26. However [optimize] ends, the graph has the same vertices, by
    name and measurement, and the same edges; apart from the poses of the
    vertices and the current pose no member changes. *)
Theorem optimize_changes_poses_only (s : t F) :
  let s' := snd (exec (optimize Solver_compute Solver_getCorrections) s) in
  map measurement (vertices (mPoseGraph s')) = map measurement (vertices (mPoseGraph s)) /\
  map v_name (vertices (mPoseGraph s')) = map v_name (vertices (mPoseGraph s)) /\
  edges (mPoseGraph s') = edges (mPoseGraph s) /\
  s' = set_mCurrentPose (mCurrentPose s') (set_mPoseGraph (mPoseGraph s') s).
Proof. apply optimize_structure. Qed.

(** X27. When [optimize] returns true, the solver's [compute] has
    succeeded; every vertex has the pose of the last correction for its
    id, or its old pose if there is none; the current pose is the pose of
    the last vertex, or the old current pose if there is no last vertex. *)
Theorem optimize_writes_last_correction (s s' : t F) :
  exec (optimize Solver_compute Solver_getCorrections) s = (Returned true, s') ->
  exists calls,
    mSolver s = Some calls /\ Solver_compute calls = true /\
    (forall id v', vertices (mPoseGraph s') !! id = Some v' ->
       exists v, vertices (mPoseGraph s) !! id = Some v /\
         corrected_pose v' =
           final_pose (Solver_getCorrections calls) id (corrected_pose v)) /\
    match mLastVertex s with
    | Some last =>
        exists v', vertices (mPoseGraph s') !! last = Some v' /\
          mCurrentPose s' = corrected_pose v'
    | None => mCurrentPose s' = mCurrentPose s
    end.
Proof.
  unfold optimize. run. destruct (mSolver s) as [calls|]; run; [|discriminate].
  destruct (Solver_compute calls) eqn:Hcompute; run; [|discriminate].
  destruct (optimize_loop_effect (Solver_getCorrections calls) s)
    as (o & done & -> & Ho).
  destruct Ho as [[-> ->] | ->]; run; [|discriminate].
  cbn [mLastVertex set_mPoseGraph].
  destruct (mLastVertex s) as [last|]; run.
  - cbn [mPoseGraph set_mPoseGraph].
    destruct (vertices _ !! last) as [v'|] eqn:Hlast; run; [|discriminate].
    intros [= <-]. exists calls. split; [reflexivity|]. split; [exact Hcompute|].
    cbn [mPoseGraph set_mPoseGraph set_mCurrentPose mCurrentPose]. split.
    + apply apply_corrections_lookup.
    + exists v'. auto.
  - intros [= <-]. exists calls. split; [reflexivity|]. split; [exact Hcompute|].
    cbn [mPoseGraph set_mPoseGraph mCurrentPose]. split; [|reflexivity].
    apply apply_corrections_lookup.
Qed.

(** X28. [optimize] keeps the mapper well formed, however it ends. *)
Theorem optimize_keeps_well_formed (s : t F) :
  well_formed s ->
  well_formed (snd (exec (optimize Solver_compute Solver_getCorrections) s)).
Proof.
  intros (Hedges & Hlast & Hfirst).
  destruct (optimize_structure s) as (Hm & _ & He & Hs).
  cbv zeta in Hm, He, Hs. apply (f_equal (@length _)) in Hm. rewrite !length_map in Hm.
  unfold well_formed. rewrite Hm, He. rewrite Hs. cbn [mLastVertex mFirstVertex
    set_mCurrentPose set_mPoseGraph]. auto.
Qed.

(** *** [PointCloudSensor::getAccumulatedCloud] *)

Variable VoxelGrid_filter : F -> PointCloud F -> PointCloud F.
Variable transformPointCloud : PointCloud F -> Matrix4 F -> PointCloud F.

Lemma getAccumulatedCloud_loop_exec (ivs : list (nat * VertexObject F)) :
  forall accu (s : t F),
  (forall id v, In (id, v) ivs -> vertices (mPoseGraph s) !! id = Some v) ->
  exec (getAccumulatedCloud_loop transformPointCloud
          (map (fun iv => Some (fst iv)) ivs) accu) s =
    (if forallb holds_point_cloud (map snd ivs)
     then Returned (accu ++ flat_map (vertex_cloud transformPointCloud) (map snd ivs))
     else Threw BadMeasurementType, s).
Proof.
  induction ivs as [|[id v] ivs IH]; intros accu s Hvalid;
    cbn [getAccumulatedCloud_loop map forallb flat_map fst snd].
  - run. rewrite app_nil_r. reflexivity.
  - run. rewrite (Hvalid id v) by (left; reflexivity). run.
    unfold holds_point_cloud at 1, vertex_cloud at 1.
    destruct (as_PointCloudMeasurement (measurement v)) as [cloud|]; run.
    + rewrite IH by (intros id' v' Hin; apply Hvalid; right; exact Hin).
      cbn [andb]. rewrite <- app_assoc. reflexivity.
    + reflexivity.
Qed.

Lemma forallb_rev {A} (f : A -> bool) (l : list A) :
  forallb f (rev l) = forallb f l.
Proof.
  induction l as [|a l IH]; [reflexivity|].
  cbn [rev forallb]. rewrite forallb_app, IH. cbn [forallb].
  rewrite andb_true_r. apply andb_comm.
Qed.

(** X29. [getAccumulatedCloud] leaves the mapper as it is. If every
    vertex of the sensor holds a point cloud it returns the downsampled
    concatenation of their clouds, each moved by the pose of its vertex,
    the last vertex first; otherwise it throws [BadMeasurementType]. *)
Theorem getAccumulatedCloud_accumulates_last_first
  (self : PointCloudSensor.t F) (resolution : F) (s : t F) :
  let vs := map snd (sensor_vertices (PointCloudSensor.mName self) (mPoseGraph s)) in
  exec (getAccumulatedCloud VoxelGrid_filter transformPointCloud self resolution) s =
    (if forallb holds_point_cloud vs
     then Returned
            (PointCloudSensor.downsample VoxelGrid_filter
               (flat_map (vertex_cloud transformPointCloud) (rev vs)) resolution)
     else Threw BadMeasurementType, s).
Proof.
  cbv zeta. unfold getAccumulatedCloud. run.
  rewrite getVerticesFromSensor_rows, <- map_rev.
  rewrite getAccumulatedCloud_loop_exec.
  - rewrite map_rev, forallb_rev.
    destruct (forallb holds_point_cloud _); run; reflexivity.
  - intros id v Hin. apply in_rev in Hin.
    apply sensor_vertices_In in Hin as [Hv _]. exact Hv.
Qed.

End Effects.

(** *** [checkMinDistance] on IEEE doubles *)

Section CheckMinDistanceFloat.
Local Open Scope float_scope.

(** A NaN is less than nothing. *)
Lemma ltb_nan (x y : float) : PrimFloat.is_nan x = true -> (x <? y) = false.
Proof.
  unfold PrimFloat.is_nan. rewrite FloatAxioms.eqb_spec, FloatAxioms.ltb_spec.
  unfold SFeqb, SFltb.
  destruct (Prim2SF x) as [sx | sx | | sx mx ex]; cbn.
  - discriminate.
  - destruct sx; discriminate.
  - reflexivity.
  - rewrite Z.compare_refl.
    change (PosDef.Pos.compare_cont Eq mx mx) with (Pos.compare mx mx).
    rewrite Pos.compare_refl. destruct sx; discriminate.
Qed.

(** X30. On IEEE doubles, a transform whose translation has a NaN length
    passes [checkMinDistance]: a NaN is not less than the threshold, so
    the test for too small a motion fails. *)
Theorem checkMinDistance_accepts_nan
  (AngleAxis_angle : Matrix3 float -> float) (T : Transform float) (s : t float) :
  PrimFloat.is_nan (translation_length T) = true ->
  exec (checkMinDistance AngleAxis_angle T) s = (Returned true, s).
Proof.
  intros Hnan. rewrite exec_checkMinDistance.
  change (translation_length T <? mMinTranslation s)%S
    with (translation_length T <? mMinTranslation s).
  rewrite (ltb_nan _ _ Hnan). reflexivity.
Qed.

End CheckMinDistanceFloat.

(** ** The properties at the scenarios *)

Section FurtherScenario.
Import Scenario.
Local Open Scope float_scope.

Lemma after_first_scan_well_formed : well_formed after_first_scan.
Proof.
  repeat split; [constructor | intros v [= <-]; cbn; lia | intros v [= <-]; cbn; lia].
Qed.

(** X6 at the two velodyne sensors of the scenarios, in a new mapper. *)
Lemma registerSensor_second_is_ignored_witness :
  Sensor.getName blind_velodyne = Sensor.getName seeing_velodyne /\
  exec (bind (registerSensor blind_velodyne) (fun _ => registerSensor seeing_velodyne))
    (new (shift 7 7 7)) =
    exec (registerSensor blind_velodyne) (new (shift 7 7 7)).
Proof.
  split; [reflexivity|].
  exact (registerSensor_second_is_ignored blind_velodyne seeing_velodyne
           (new (shift 7 7 7)) eq_refl).
Defined.

(** The guided mapper after its first scan: one vertex, which the solver
    knows and has fixed, and no edge. *)
Lemma guided_after_first_scan_well_formed : well_formed guided_after_first_scan.
Proof.
  repeat split; [constructor | intros v [= <-]; vm_compute; constructor
                | intros v [= <-]; vm_compute; constructor].
Qed.

Lemma guided_after_first_scan_solver : solver_has_edges guided_after_first_scan.
Proof. intros calls [= <-]. vm_compute. reflexivity. Qed.

(** X18 at the second scan of the guided mapper. The odometry has moved
    by one metre and the sensor finds the match: the reading is accepted
    and adds a vertex, an odometry edge and a sensor edge, and the solver
    has received the constraints of both. *)
Lemma addReading_reports_edges_to_solver_witness :
  solver_has_edges guided_after_first_scan /\
  fst (exec (addReading no_rotation rows_within (scan 1 1)) guided_after_first_scan)
    = Returned true /\
  map ends (edges (mPoseGraph
    (snd (exec (addReading no_rotation rows_within (scan 1 1)) guided_after_first_scan))))
    = [(0%nat, 1%nat, "Odometry", "odom"); (0%nat, 1%nat, "velodyne", "seq")] /\
  solver_has_edges
    (snd (exec (addReading no_rotation rows_within (scan 1 1)) guided_after_first_scan)).
Proof.
  split; [exact guided_after_first_scan_solver|].
  split; [vm_compute; reflexivity|]. split; [vm_compute; reflexivity|].
  exact (addReading_reports_edges_to_solver no_rotation rows_within (scan 1 1)
           guided_after_first_scan guided_after_first_scan_solver).
Defined.

(** On doubles the index holds floats: a vertex at (0.1, -2.5, 2^-170) is
    indexed at (0.100000001490116..., -2.5, 0). *)
Example buildNeighborIndex_narrows_to_float :
  mIndex (snd (exec (buildNeighborIndex "velodyne")
     (after_readings [(scan 0 0, shift 0x1.999999999999ap-4 (-2.5) 0x1p-170)])))
  = [Vec3 0x1.99999ap-4 (-2.5) 0].
Proof. vm_compute. reflexivity. Qed.

(** X12 at the mapper after the first scan, searched around the origin. *)
Lemma getNearbyVertices_after_buildNeighborIndex_witness :
  let s1 := snd (exec (buildNeighborIndex "velodyne") after_first_scan) in
  let rows := rows_within (mIndex s1) (pose_point (shift 0 0 0)) 1 in
  Forall (fun row => (row < length (mIndex s1))%nat) rows /\
  exists neighbors,
    exec (getNearbyVertices rows_within (shift 0 0 0) 1) s1 = (Returned neighbors, s1) /\
    length neighbors = length rows /\
    Forall (fun p => In p (getVerticesFromSensor "velodyne" after_first_scan)) neighbors.
Proof.
  assert (Hrows :
    let s1 := snd (exec (buildNeighborIndex "velodyne") after_first_scan) in
    Forall (fun row => (row < length (mIndex s1))%nat)
      (rows_within (mIndex s1) (pose_point (shift 0 0 0)) 1)).
  { vm_compute. repeat constructor. }
  split; [exact Hrows|].
  exact (getNearbyVertices_after_buildNeighborIndex rows_within "velodyne"
           (shift 0 0 0) 1 after_first_scan Hrows).
Defined.

(** X14 at the second scan of the guided mapper, which is accepted: the
    graph gets a second vertex and two edges from the first vertex to
    it, and the last vertex becomes the new one. *)
Lemma addReading_keeps_well_formed_witness :
  well_formed guided_after_first_scan /\
  fst (exec (addReading no_rotation rows_within (scan 1 1)) guided_after_first_scan)
    = Returned true /\
  map ends (edges (mPoseGraph
    (snd (exec (addReading no_rotation rows_within (scan 1 1)) guided_after_first_scan))))
    = [(0%nat, 1%nat, "Odometry", "odom"); (0%nat, 1%nat, "velodyne", "seq")] /\
  mLastVertex
    (snd (exec (addReading no_rotation rows_within (scan 1 1)) guided_after_first_scan))
    = Some 1%nat /\
  well_formed
    (snd (exec (addReading no_rotation rows_within (scan 1 1)) guided_after_first_scan)).
Proof.
  split; [exact guided_after_first_scan_well_formed|].
  split; [vm_compute; reflexivity|]. split; [vm_compute; reflexivity|].
  split; [vm_compute; reflexivity|].
  exact (addReading_keeps_well_formed no_rotation rows_within (scan 1 1)
           guided_after_first_scan guided_after_first_scan_well_formed).
Defined.

(** X16 at the first scan. *)
Lemma addReading_accepted_adds_one_vertex_witness :
  exec (addReading no_rotation rows_within (scan 0 0)) start =
    (Returned true, after_first_scan) /\
  exists pose,
    vertices (mPoseGraph after_first_scan) =
      vertices (mPoseGraph start) ++
        [{| v_name := (getRobotName (scan 0 0) ++ ":" ++ getSensorName (scan 0 0))%string;
            corrected_pose := pose; measurement := scan 0 0 |}] /\
    mLastVertex after_first_scan = Some (length (vertices (mPoseGraph start))) /\
    Some (mLastOdometricPose after_first_scan) =
      match mOdometry start with
      | Some odom => odom (getTimestamp (scan 0 0))
      | None => Some Transform_Identity
      end /\
    is_Some (mSensors start !! getSensorName (scan 0 0)).
Proof.
  assert (Hrun : exec (addReading no_rotation rows_within (scan 0 0)) start =
                   (Returned true, after_first_scan)) by (vm_compute; reflexivity).
  split; [exact Hrun|].
  exact (addReading_accepted_adds_one_vertex no_rotation rows_within (scan 0 0)
           start after_first_scan Hrun).
Defined.

(** X19 at the first scan. *)
Lemma addReading_first_reading_witness :
  mSensors start !! getSensorName (scan 0 0) = Some blind_velodyne /\
  match mOdometry start with
  | Some odom => odom (getTimestamp (scan 0 0))
  | None => Some Transform_Identity
  end = Some (shift 0 0 0) /\
  mLastVertex start = None /\
  exec (addReading no_rotation rows_within (scan 0 0)) start =
    (Returned true,
     set_mLastOdometricPose (shift 0 0 0)
       (set_mLastVertex (Some (length (vertices (mPoseGraph start))))
          (after_addVertex (scan 0 0) (mCurrentPose start) start))).
Proof.
  split; [reflexivity|]. split; [reflexivity|]. split; [reflexivity|].
  exact (addReading_first_reading no_rotation rows_within (scan 0 0) start
           blind_velodyne (shift 0 0 0) eq_refl eq_refl eq_refl).
Defined.

(** X20 at the second scan, with an odometry that has no data. *)
Lemma addReading_without_odometry_data_witness :
  mSensors lost !! getSensorName (scan 1 1) = Some blind_velodyne /\
  mOdometry lost = Some lost_odometer /\
  lost_odometer (getTimestamp (scan 1 1)) = None /\
  addReading no_rotation rows_within (scan 1 1) lost =
    (Returned false, lost,
     [Log DEBUG "Add reading from own Sensor '%1%'.";
      Log ERROR "Could not get Odometry data!"]).
Proof.
  split; [reflexivity|]. split; [reflexivity|]. split; [reflexivity|].
  exact (addReading_without_odometry_data no_rotation rows_within (scan 1 1) lost
           blind_velodyne lost_odometer eq_refl eq_refl eq_refl).
Defined.

(** X21 at the second scan, without odometry. *)
Lemma addReading_unmatched_without_odometry_witness :
  mSensors unaided !! getSensorName (scan 1 1) = Some blind_velodyne /\
  mOdometry unaided = None /\
  mLastVertex unaided = Some 0%nat /\
  vertices (mPoseGraph unaided) !! 0%nat =
    Some {| v_name := "robot:velodyne"; corrected_pose := Transform_Identity;
            measurement := scan 0 0 |} /\
  Sensor.calculateTransform blind_velodyne (scan 0 0) (scan 1 1)
    (compose (inverse Transform_Identity) (mCurrentPose unaided)) =
    ([Log DEBUG "ICP failed! (Fitness-Score: %1% > %2%)"], Threw NoMatch) /\
  addReading no_rotation rows_within (scan 1 1) unaided =
    (Returned false, unaided,
     Log DEBUG "Add reading from own Sensor '%1%'." ::
     [Log DEBUG "ICP failed! (Fitness-Score: %1% > %2%)"] ++
     [Log WARNING "Measurement could not be matched and no odometry was availabe!"]).
Proof.
  split; [reflexivity|]. split; [reflexivity|]. split; [reflexivity|].
  split; [reflexivity|]. split; [reflexivity|].
  exact (addReading_unmatched_without_odometry no_rotation rows_within (scan 1 1)
           unaided blind_velodyne 0%nat
           {| v_name := "robot:velodyne"; corrected_pose := Transform_Identity;
              measurement := scan 0 0 |}
           [Log DEBUG "ICP failed! (Fitness-Score: %1% > %2%)"]
           eq_refl eq_refl eq_refl eq_refl eq_refl).
Defined.

(** X23 at a second scan entered half a metre ahead. *)
Lemma addExternalReading_keeps_well_formed_witness :
  well_formed after_first_scan /\
  well_formed
    (snd (exec (addExternalReading rows_within (scan 1 1) (shift 0.5 0 0))
            after_first_scan)).
Proof.
  split; [exact after_first_scan_well_formed|].
  exact (addExternalReading_keeps_well_formed rows_within (scan 1 1) (shift 0.5 0 0)
           after_first_scan after_first_scan_well_formed).
Defined.

(** X24 at a new mapper, which has no sensor. *)
Lemma addExternalReading_unregistered_sensor_witness :
  mSensors (new (shift 7 7 7)) !! getSensorName (scan 0 0) = None /\
  exec (addExternalReading rows_within (scan 0 0) (shift 1 0 0)) (new (shift 7 7 7)) =
    (Returned tt, after_addVertex (scan 0 0) (shift 1 0 0) (new (shift 7 7 7))) /\
  Forall (fun entry => log_level entry <> ERROR)
    (snd (addExternalReading rows_within (scan 0 0) (shift 1 0 0) (new (shift 7 7 7)))).
Proof.
  split; [reflexivity|].
  exact (addExternalReading_unregistered_sensor rows_within (scan 0 0) (shift 1 0 0)
           (new (shift 7 7 7)) eq_refl).
Defined.

(** X27 at a solver that corrects vertex 0 twice: the second correction stays. *)
Lemma optimize_writes_last_correction_witness :
  exec (optimize solver_succeeds solver_shifts) solved =
    (Returned true,
     set_mCurrentPose (shift 2 0 0)
       (set_mPoseGraph
          {| vertices := [ {| v_name := "robot:velodyne";
                              corrected_pose := shift 2 0 0;
                              measurement := scan 0 0 |} ];
             edges := [] |}
          solved)) /\
  exists calls,
    mSolver solved = Some calls /\ solver_succeeds calls = true /\
    (forall id v',
       [ {| v_name := "robot:velodyne"; corrected_pose := shift 2 0 0;
            measurement := scan 0 0 |} ] !! id = Some v' ->
       exists v, vertices (mPoseGraph solved) !! id = Some v /\
         corrected_pose v' = final_pose (solver_shifts calls) id (corrected_pose v)) /\
    exists v',
      [ {| v_name := "robot:velodyne"; corrected_pose := shift 2 0 0;
           measurement := scan 0 0 |} ] !! 0%nat = Some v' /\
      shift 2 0 0 = corrected_pose v'.
Proof.
  assert (Hrun : exec (optimize solver_succeeds solver_shifts) solved =
    (Returned true,
     set_mCurrentPose (shift 2 0 0)
       (set_mPoseGraph
          {| vertices := [ {| v_name := "robot:velodyne";
                              corrected_pose := shift 2 0 0;
                              measurement := scan 0 0 |} ];
             edges := [] |}
          solved))) by (vm_compute; reflexivity).
  split; [exact Hrun|].
  exact (optimize_writes_last_correction solver_succeeds solver_shifts solved _ Hrun).
Defined.

(** X28 at the same solver. *)
Lemma optimize_keeps_well_formed_witness :
  well_formed solved /\
  well_formed (snd (exec (optimize solver_succeeds solver_shifts) solved)).
Proof.
  assert (Hwf : well_formed solved).
  { repeat split; [constructor | intros v [= <-]; cbn; lia | intros v [= <-]; cbn; lia]. }
  split; [exact Hwf|].
  exact (optimize_keeps_well_formed solver_succeeds solver_shifts solved Hwf).
Defined.

(** X30 at a translation whose first coefficient is NaN. *)
Lemma checkMinDistance_accepts_nan_witness :
  PrimFloat.is_nan (translation_length (shift nan 0 0)) = true /\
  exec (checkMinDistance no_rotation (shift nan 0 0)) after_first_scan =
    (Returned true, after_first_scan).
Proof.
  split; [reflexivity|].
  exact (checkMinDistance_accepts_nan no_rotation (shift nan 0 0) after_first_scan
           eq_refl).
Defined.

End FurtherScenario.

End GraphMapperFurther.
